(** * Event Detail Report printer: a shallow embedding and its properties

    The development follows the three Python modules of the package
    [product_connections_manager.edr_printer]:

    - [edr_report_generator.py]  (class [EDRReportGenerator]),
    - [automated_edr_printer.py] (class [AutomatedEDRPrinter]),
    - [enhanced_edr_printer.py]  (class [EnhancedEDRPrinter]).

    Python values are an inductive type, dictionaries are insertion-ordered
    association lists, and the effectful methods are functions in a state and
    exception monad over a [World] that holds the object's attributes and the
    environment it talks to (portal replies, clock, files, sub-processes). *)

From Stdlib Require Import String Ascii List ZArith Bool Arith Lia.
From Stdlib Require Import DecimalString.
Import ListNotations.
Open Scope string_scope.

Set Warnings "-register-all".

(** ** Python values *)

Inductive pyval : Type :=
| PNone
| PBool (b : bool)
| PInt (z : Z)
| PFloat (r : string)               (* a float, kept as its [repr] *)
| PStr (s : string)
| PList (l : list pyval)
| PDict (d : list (string * pyval)).

(** Exceptions, by class.  [JSONDecodeError] of [requests] derives from both
    [json.JSONDecodeError] and [RequestException]; it is the error raised by
    [response.json()]. *)
Inductive exn : Type :=
| ValueError (msg : string)
| AttributeError
| TypeError
| EOFError
| OSError
| ImportError (msg : string)
| ConnectionError        (* requests.exceptions.ConnectionError *)
| HTTPError              (* raised by [raise_for_status] *)
| JSONDecodeError        (* requests.exceptions.JSONDecodeError *)
| TimeoutExpired         (* subprocess.TimeoutExpired *)
| OtherError (msg : string).

Definition is_RequestException (e : exn) : bool :=
  match e with
  | ConnectionError | HTTPError | JSONDecodeError => true
  | _ => false
  end.

Definition is_json_JSONDecodeError (e : exn) : bool :=
  match e with JSONDecodeError => true | _ => false end.

Definition is_OSError (e : exn) : bool :=
  match e with OSError => true | _ => false end.

(** ** Strings *)

Definition dq : string := String (ascii_of_nat 34) EmptyString.
Definition nl : string := String (ascii_of_nat 10) EmptyString.

Definition str_nonempty (s : string) : bool :=
  match s with EmptyString => false | _ => true end.

Definition is_ascii_char (c : ascii) : bool := (nat_of_ascii c <? 128)%nat.

Fixpoint is_ascii_str (s : string) : bool :=
  match s with
  | EmptyString => true
  | String c r => is_ascii_char c && is_ascii_str r
  end.

Definition upper_char (c : ascii) : ascii :=
  let n := nat_of_ascii c in
  if ((97 <=? n) && (n <=? 122))%nat then ascii_of_nat (n - 32) else c.

Definition lower_char (c : ascii) : ascii :=
  let n := nat_of_ascii c in
  if ((65 <=? n) && (n <=? 90))%nat then ascii_of_nat (n + 32) else c.

Fixpoint map_str (f : ascii -> ascii) (s : string) : string :=
  match s with
  | EmptyString => EmptyString
  | String c r => String (f c) (map_str f r)
  end.

(** [str.upper] and [str.lower] on ASCII text. *)
Definition ascii_upper : string -> string := map_str upper_char.
Definition ascii_lower : string -> string := map_str lower_char.

(** The white space that [str.strip] removes, within ASCII. *)
Definition is_space (c : ascii) : bool :=
  let n := nat_of_ascii c in
  (((9 <=? n) && (n <=? 13)) || ((28 <=? n) && (n <=? 32)))%nat.

Fixpoint lstrip (s : string) : string :=
  match s with
  | EmptyString => EmptyString
  | String c r => if is_space c then lstrip r else s
  end.

Fixpoint all_space (s : string) : bool :=
  match s with
  | EmptyString => true
  | String c r => if is_space c then all_space r else false
  end.

Fixpoint rstrip (s : string) : string :=
  match s with
  | EmptyString => EmptyString
  | String c r => if all_space s then EmptyString else String c (rstrip r)
  end.

Definition strip (s : string) : string := rstrip (lstrip s).

(** [needle in s] *)
Fixpoint contains (needle s : string) : bool :=
  prefix needle s ||
  match s with
  | EmptyString => false
  | String _ r => contains needle r
  end.

(** Number of (possibly overlapping) occurrences of [needle] in [s]. *)
Fixpoint occurrences (needle s : string) : nat :=
  (if prefix needle s then 1 else 0) +
  match s with
  | EmptyString => 0
  | String _ r => occurrences needle r
  end.

(** ** Dictionaries *)

Fixpoint dict_get {V : Type} (d : list (string * V)) (k : string) : option V :=
  match d with
  | [] => None
  | (k', v) :: r => if String.eqb k' k then Some v else dict_get r k
  end.

(** [d[k] = v]: an existing key keeps its place, a new key goes last. *)
Fixpoint dict_set {V : Type} (d : list (string * V)) (k : string) (v : V)
  : list (string * V) :=
  match d with
  | [] => [(k, v)]
  | (k', v') :: r =>
      if String.eqb k' k then (k', v) :: r else (k', v') :: dict_set r k v
  end.

Fixpoint dict_remove {V : Type} (d : list (string * V)) (k : string)
  : list (string * V) :=
  match d with
  | [] => []
  | (k', v) :: r =>
      if String.eqb k' k then dict_remove r k else (k', v) :: dict_remove r k
  end.

Definition dict_keys {V : Type} (d : list (string * V)) : list string :=
  map fst d.

Definition dict_values {V : Type} (d : list (string * V)) : list V :=
  map snd d.

(** ** Truth value and [str()] of a value *)

Definition truthy (v : pyval) : bool :=
  match v with
  | PNone => false
  | PBool b => b
  | PInt z => negb (Z.eqb z 0)
  | PFloat r => negb (String.eqb r "0.0" || String.eqb r "-0.0")
  | PStr s => str_nonempty s
  | PList l => match l with [] => false | _ => true end
  | PDict d => match d with [] => false | _ => true end
  end.

Definition is_str (v : pyval) (s : string) : bool :=
  match v with PStr t => String.eqb t s | _ => false end.

Definition str_of_Z (z : Z) : string := NilZero.string_of_int (Z.to_int z).

Definition py_get_default (d : list (string * pyval)) (k : string)
  (default : pyval) : pyval :=
  match dict_get d k with Some v => v | None => default end.

(** ** The world: the generator object and its environment *)

Record datetime : Type := mk_datetime {
  year : nat; month : nat; day : nat;
  hour : nat; minute : nat; second : nat }.

Record cookie : Type := mk_cookie {
  cookie_domain : string;
  cookie_path : string;
  cookie_name : string;
  cookie_value : option string }.    (* [None]: a cookie without a value *)

(** [session.cookies]: the jar keeps one cookie for a domain, a path and a
    name, [_cookies[domain][path][name]]; each level is a dictionary, in
    the order of first insertion. *)
Definition cookie_jar : Type :=
  list (string * list (string * list (string * option string))).

(** What one [Set-Cookie] header does to the jar: it stores a cookie, or,
    when its expiry date is past, asks for one to be deleted. *)
Inductive jar_update : Type :=
| SetCookie (c : cookie)
| ClearCookie (domain path name : string).

(** A reply of the portal.  [jar_updates] is what receiving it does to the
    jar, in order: the deletions and the cookies of its [Set-Cookie] headers
    that the jar accepts, those of the redirects that led to it included;
    a value is as the jar stores it. *)
Record response : Type := mk_response {
  status_code : Z;
  json_body : option pyval;          (* [None]: the body is not JSON *)
  jar_updates : list jar_update }.

Inductive reply : Type :=
| NoReply                            (* the connection fails *)
| Reply (r : response).

Inductive proc_outcome : Type :=
| Exited (returncode : Z)
| ProcTimeout                        (* subprocess.TimeoutExpired *)
| ProcError.                         (* any other exception of [subprocess.run] *)

(** What a file holds: text, or the flowables handed to the page-layout
    library. *)
Inductive flowable : Type :=
| Paragraph (text : string) (style : string)
| Spacer (width height : nat)
| Table (rows : list (list string))
| PageBreak.

Inductive content : Type :=
| Text (s : string)
| Pdf (story : list flowable)
| PdfOfHtml (html : string)
| Partial (written : nat) (whole : content).   (* the beginning of [whole] *)

(** How a write that does not complete fails: [open] raises and nothing
    changes; or the file has been opened, which creates or empties it, when
    the write (or the flush that ends it) raises, [written] characters having
    reached the file. *)
Inductive write_fault : Type :=
| AtOpen (e : exn)
| AfterOpen (e : exn) (written : nat).

Record World : Type := mk_World {
  (* attributes of [EDRReportGenerator] *)
  auth_token : pyval;
  cookies : cookie_jar;                        (* [session.cookies] *)
  (* the portal *)
  portal : list reply;                         (* replies still to come *)
  sent : list string;                          (* requests issued so far *)
  (* the host *)
  clock : nat -> datetime;                     (* successive readings *)
  ticks : nat;
  stdin : list string;
  files : list (string * content);
  write_denied : string -> bool;               (* a write does not complete *)
  write_breaks : string -> write_fault;        (* how, when it does not *)
  remove_denied : string -> bool;
  platform_system : string;
  tempdir : string;
  run_process : list string -> proc_outcome;   (* [subprocess.run] *)
  REPORTLAB_AVAILABLE : bool;
  WEASYPRINT_AVAILABLE : bool;
  build_denied : string -> bool;               (* the PDF library fails *)
  startfile_fails : bool }.

Definition set_auth_token (t : pyval) (w : World) : World :=
  mk_World t (cookies w) (portal w) (sent w) (clock w) (ticks w) (stdin w)
    (files w) (write_denied w) (write_breaks w) (remove_denied w)
    (platform_system w) (tempdir w) (run_process w) (REPORTLAB_AVAILABLE w)
    (WEASYPRINT_AVAILABLE w) (build_denied w) (startfile_fails w).

Definition set_cookies (c : cookie_jar) (w : World) : World :=
  mk_World (auth_token w) c (portal w) (sent w) (clock w) (ticks w) (stdin w)
    (files w) (write_denied w) (write_breaks w) (remove_denied w)
    (platform_system w) (tempdir w) (run_process w) (REPORTLAB_AVAILABLE w)
    (WEASYPRINT_AVAILABLE w) (build_denied w) (startfile_fails w).

Definition set_portal (p : list reply) (w : World) : World :=
  mk_World (auth_token w) (cookies w) p (sent w) (clock w) (ticks w) (stdin w)
    (files w) (write_denied w) (write_breaks w) (remove_denied w)
    (platform_system w) (tempdir w) (run_process w) (REPORTLAB_AVAILABLE w)
    (WEASYPRINT_AVAILABLE w) (build_denied w) (startfile_fails w).

Definition set_sent (s : list string) (w : World) : World :=
  mk_World (auth_token w) (cookies w) (portal w) s (clock w) (ticks w)
    (stdin w) (files w) (write_denied w) (write_breaks w) (remove_denied w)
    (platform_system w) (tempdir w) (run_process w) (REPORTLAB_AVAILABLE w)
    (WEASYPRINT_AVAILABLE w) (build_denied w) (startfile_fails w).

Definition set_ticks (n : nat) (w : World) : World :=
  mk_World (auth_token w) (cookies w) (portal w) (sent w) (clock w) n
    (stdin w) (files w) (write_denied w) (write_breaks w) (remove_denied w)
    (platform_system w) (tempdir w) (run_process w) (REPORTLAB_AVAILABLE w)
    (WEASYPRINT_AVAILABLE w) (build_denied w) (startfile_fails w).

Definition set_stdin (l : list string) (w : World) : World :=
  mk_World (auth_token w) (cookies w) (portal w) (sent w) (clock w) (ticks w)
    l (files w) (write_denied w) (write_breaks w) (remove_denied w)
    (platform_system w) (tempdir w) (run_process w) (REPORTLAB_AVAILABLE w)
    (WEASYPRINT_AVAILABLE w) (build_denied w) (startfile_fails w).

Definition set_files (f : list (string * content)) (w : World) : World :=
  mk_World (auth_token w) (cookies w) (portal w) (sent w) (clock w) (ticks w)
    (stdin w) f (write_denied w) (write_breaks w) (remove_denied w)
    (platform_system w) (tempdir w) (run_process w) (REPORTLAB_AVAILABLE w)
    (WEASYPRINT_AVAILABLE w) (build_denied w) (startfile_fails w).

(** ** State and exception monad *)

Inductive result (A : Type) : Type :=
| Ok (a : A)
| Raise (e : exn).
Arguments Ok {A} a.
Arguments Raise {A} e.

Definition M (A : Type) : Type := World -> result A * World.

Definition ret {A : Type} (a : A) : M A := fun w => (Ok a, w).

Definition raise {A : Type} (e : exn) : M A := fun w => (Raise e, w).

Definition bind {A B : Type} (c : M A) (k : A -> M B) : M B :=
  fun w =>
    match c w with
    | (Ok a, w') => k a w'
    | (Raise e, w') => (Raise e, w')
    end.

Notation "x <- c ;; k" := (bind c (fun x => k))
  (at level 61, c at next level, right associativity).
Notation "c ;;; k" := (bind c (fun _ => k))
  (at level 61, right associativity).

(** [try: c  except <classes>: h]; other exceptions go on. *)
Definition try_except {A : Type} (c : M A) (caught : exn -> bool) (h : M A)
  : M A :=
  fun w =>
    match c w with
    | (Ok a, w') => (Ok a, w')
    | (Raise e, w') => if caught e then h w' else (Raise e, w')
    end.

Definition any_Exception (e : exn) : bool := true.

Definition get {A : Type} (f : World -> A) : M A := fun w => (Ok (f w), w).

Definition modify (f : World -> World) : M unit := fun w => (Ok tt, f w).

(** ** [EDRReportGenerator] *)

Definition base_url : string :=
  "https://retaillink2.wal-mart.com/EventManagement".

Definition _get_initial_cookies : list (string * string) :=
  [ ("vtc",
      "Q0JqQVX0STHy6sao9qdhNw");
    ("_pxvid",
      "3c803a96-548a-11f0-84bf-e045250e632c");
    ("_ga",
      "GA1.2.103605184.1751648140");
    ("QuantumMetricUserID",
      "23bc666aa80d92de6f4ffa5b79ff9fdc");
    ("pxcts",
      "d0d1b4d9-65f2-11f0-a59e-62912b00fffc");
    ("rl_access_attempt",
      "0");
    ("rlLoginInfo",
      EmptyString);
    ("bstc",
      "ZpNiPcM5OgU516Fy1nOhHw");
    ("rl_show_login_form",
      "N");
    ("TS0111a950",
      "0164c7ecbba28bf006381fcf7bc3c3fbc81a9b73705f5cedd649131a664e0cc5179472f6c66a7cee46d5fc6556faef1eb07fb3b8db");
    ("TS01b1e5a6",
      "0164c7ecbba28bf006381fcf7bc3c3fbc81a9b73705f5cedd649131a664e0cc5179472f6c66a7cee46d5fc6556faef1eb07fb3b8db");
    ("mp_c586ded18141faef3e556292ef2810bc_mixpanel",
      "%7B%22distinct_id%22%3A%20%22d2fr4w2%20%20%20%20%20%22%2C%22%24device_id%22%3A%20%221981deb804c5f0-08ebcf61e7361f-26011151-e12d0-1981deb804d22c4%22%2C%22%24initial_referrer%22%3A%20%22https%3A%2F%2Fretaillink.login.wal-mart.com%2F%22%2C%22%24initial_referring_domain%22%3A%20%22retaillink.login.wal-mart.com%22%2C%22%24user_id%22%3A%20%22d2fr4w2%20%20%20%20%20%22%7D");
    ("TS04fe286f027",
      "08a6069d6cab2000cf0b847458906d222e70afa03939fa0de76da5c00884f260a79443300cc5407408d2c3bf9e113000b642cbc898d0534c0c86a20a3d11bab7101afcd84708efbc3e17c493bcf63e44a30e69658f98e8ce282590fbc1283275");
    ("_px3",
      "85d2f0646ea75d99a2faac1898a7785dc1c8c7807e2612e865c5b74b4059d5fb:UHj6hAC9RHoxLnDq2rdjE+HkchqIMD2wKeYTOfHkRyo03uaqeN4xA4DX8dbN5RrJrX+uLLB/HTtX12k0ymeoSg==:1000:9TQQXsEtZxJ8rnnXulfuBg/dxB30NwnoogsLoiaQFk/xQECXPbbFYCno02+QFD40nnBos0iUVfyD2CpgeCV+cIFLDpCggGG0LVI2Q5S4hDYjVHb0fhh7UQ2cqGLr55bijg0Ix75CQdsdWi+gc34m88u66pDWGpB13rAKmim6yJo7/mxA32DYqKWBKbTwG/HvVDaGQCGDa+Iog+lfBNePx/WdAInb6LQ00IZGqYrdrE0=") ].

Definition raise_for_status (r : response) : M unit :=
  if ((400 <=? status_code r) && (status_code r <? 600))%Z
  then raise HTTPError else ret tt.

Definition response_json (r : response) : M pyval :=
  match json_body r with
  | Some v => ret v
  | None => raise JSONDecodeError
  end.

(** [CookieJar.set_cookie]: the cookie of the same domain, path and name is
    replaced where it is; a new one goes last at its level. *)
Definition jar_set (jar : cookie_jar) (c : cookie) : cookie_jar :=
  let paths :=
    match dict_get jar (cookie_domain c) with Some p => p | None => [] end in
  let names :=
    match dict_get paths (cookie_path c) with Some n => n | None => [] end in
  dict_set jar (cookie_domain c)
    (dict_set paths (cookie_path c)
       (dict_set names (cookie_name c) (cookie_value c))).

(** [CookieJar.clear(domain, path, name)], its [KeyError] ignored. *)
Definition jar_clear (jar : cookie_jar) (domain path name : string)
  : cookie_jar :=
  match dict_get jar domain with
  | None => jar
  | Some paths =>
      match dict_get paths path with
      | None => jar
      | Some names =>
          dict_set jar domain (dict_set paths path (dict_remove names name))
      end
  end.

Definition jar_apply (jar : cookie_jar) (u : jar_update) : cookie_jar :=
  match u with
  | SetCookie c => jar_set jar c
  | ClearCookie domain path name => jar_clear jar domain path name
  end.

(** [for cookie in jar]: by domain, then path, then name. *)
Definition jar_cookies (jar : cookie_jar) : list cookie :=
  flat_map
    (fun dp =>
       flat_map
         (fun pn =>
            map (fun nv => mk_cookie (fst dp) (fst pn) (fst nv) (snd nv))
              (snd pn))
         (snd dp))
    jar.

(** [session.cookies.set(name, value)] with a value that is a string: the
    cookie has the empty domain and the path [/]. *)
Definition cookies_set (jar : cookie_jar) (c : string * string) : cookie_jar :=
  jar_set jar (mk_cookie EmptyString "/" (fst c) (Some (snd c))).

(** [session.get] / [session.post]: one request to the portal.  The request is
    recorded, the next reply is consumed, and its cookies go to the jar. *)
Definition session_request (url : string) : M response :=
  fun w =>
    let w1 := set_sent (sent w ++ [url]) w in
    match portal w with
    | [] => (Raise ConnectionError, w1)
    | NoReply :: rest => (Raise ConnectionError, set_portal rest w1)
    | Reply r :: rest =>
        (Ok r, set_cookies (fold_left jar_apply (jar_updates r) (cookies w))
                 (set_portal rest w1))
    end.

(** [input()] *)
Definition input : M string :=
  fun w =>
    match stdin w with
    | [] => (Raise EOFError, w)
    | l :: rest => (Ok l, set_stdin rest w)
    end.

(** [datetime.datetime.now()] *)
Definition now : M datetime :=
  fun w => (Ok (clock w (ticks w)), set_ticks (S (ticks w)) w).

Definition pad2 (n : nat) : string :=
  let s := NilZero.string_of_uint (Nat.to_uint n) in
  if (n <? 10)%nat then "0" ++ s else s.

Definition pad4 (n : nat) : string :=
  let s := NilZero.string_of_uint (Nat.to_uint n) in
  if (n <? 10)%nat then "000" ++ s
  else if (n <? 100)%nat then "00" ++ s
  else if (n <? 1000)%nat then "0" ++ s else s.

(** [strftime] with the three formats the program uses. *)
Definition strftime_date (t : datetime) : string :=      (* %Y-%m-%d *)
  pad4 (year t) ++ "-" ++ pad2 (month t) ++ "-" ++ pad2 (day t).

Definition strftime_time (t : datetime) : string :=      (* %H:%M:%S *)
  pad2 (hour t) ++ ":" ++ pad2 (minute t) ++ ":" ++ pad2 (second t).

Definition strftime_stamp (t : datetime) : string :=     (* %Y%m%d_%H%M%S *)
  pad4 (year t) ++ pad2 (month t) ++ pad2 (day t) ++ "_" ++
  pad2 (hour t) ++ pad2 (minute t) ++ pad2 (second t).

Definition step1_submit_password : M bool :=
  modify (fun w =>
    set_cookies (fold_left cookies_set _get_initial_cookies (cookies w)) w) ;;;
  try_except
    (response <- session_request
        "https://retaillink.login.wal-mart.com/api/login" ;;
     raise_for_status response ;;;
     ret true)
    is_RequestException
    (ret false).

Definition step2_request_mfa_code : M bool :=
  try_except
    (response <- session_request
        "https://retaillink.login.wal-mart.com/api/mfa/sendCode" ;;
     raise_for_status response ;;;
     ret true)
    is_RequestException
    (ret false).

Definition step3_validate_mfa_code (code : string) : M bool :=
  try_except
    (response <- session_request
        "https://retaillink.login.wal-mart.com/api/mfa/validateCode" ;;
     raise_for_status response ;;;
     ret true)
    is_RequestException
    (ret false).

Definition step4_register_page_access : M bool :=
  try_except
    (response <- session_request
        "https://retaillink2.wal-mart.com/rl_portal_services/api/Site/InsertRlPageDetails" ;;
     if (status_code response =? 200)%Z then ret true else ret false)
    is_RequestException
    (ret false).

Definition step5_navigate_to_event_management : M bool :=
  try_except
    (response <- session_request
        "https://retaillink2.wal-mart.com/rl_portal/" ;;
     if negb (status_code response =? 200)%Z then ret false
     else
       response <- session_request (base_url ++ "/") ;;
       if (status_code response =? 200)%Z then ret true else ret false)
    is_RequestException
    (ret false).

(** [v.get(key)]: only a dictionary has the method. *)
Definition py_get (v : pyval) (key : string) : M pyval :=
  match v with
  | PDict d => ret (py_get_default d key PNone)
  | _ => raise AttributeError
  end.

(** [v[:50]] is evaluated for its effect only: strings and lists can be
    sliced, the other values raise. *)
Definition py_slice_prefix (v : pyval) : M unit :=
  match v with
  | PStr _ | PList _ => ret tt
  | _ => raise TypeError
  end.

Section Program.

(** Library functions the program calls and the model does not define. *)
Variable unquote : string -> string.              (* urllib.parse.unquote *)
Variable json_loads : string -> option pyval.     (* json.loads; [None]: JSONDecodeError *)
Variable str_upper : string -> string.            (* str.upper *)
Variable py_repr : pyval -> string.               (* repr() of a list or dict *)
Variable str_len : string -> nat.                 (* len(), in code points *)
Variable str_take : nat -> string -> string.      (* s[:n] *)
Variable abspath : string -> string.              (* os.path.abspath *)
Variable path_join : string -> string -> string.  (* os.path.join *)

(** [str(v)], which is also what an f-string puts in place of [{v}]. *)
Definition py_str (v : pyval) : string :=
  match v with
  | PNone => "None"
  | PBool true => "True"
  | PBool false => "False"
  | PInt z => str_of_Z z
  | PFloat r => r
  | PStr s => s
  | PList _ | PDict _ => py_repr v
  end.

(** The loop of step 6 over the cookie jar. *)
(** [cookie.name == 'auth-token' and cookie.value] *)
Definition auth_cookie_value (c : cookie) : option string :=
  match cookie_value c with
  | Some value =>
      if String.eqb (cookie_name c) "auth-token" && str_nonempty value
      then Some value else None
  | None => None
  end.

Fixpoint scan_auth_cookie (jar : list cookie) : M bool :=
  match jar with
  | [] => ret false
  | cookie :: rest =>
      match auth_cookie_value cookie with
      | Some value =>
          match json_loads (unquote value) with
          | Some token_data =>
              token <- py_get token_data "token" ;;
              modify (set_auth_token token) ;;;
              py_slice_prefix token ;;;
              ret true
          | None => scan_auth_cookie rest
          end
      | None => scan_auth_cookie rest
      end
  end.

Definition step6_authenticate_event_management : M bool :=
  try_except
    (response <- session_request (base_url ++ "/api/authenticate") ;;
     if (status_code response =? 200)%Z then
       try_except
         (auth_data <- response_json response ;;
          jar <- get cookies ;;
          scan_auth_cookie (jar_cookies jar))
         is_json_JSONDecodeError
         (ret true)
     else ret false)
    is_RequestException
    (ret false).

Definition authenticate : M bool :=
  ok1 <- step1_submit_password ;;
  if negb ok1 then ret false else
  ok2 <- step2_request_mfa_code ;;
  if negb ok2 then ret false else
  line <- input ;;
  ok3 <- step3_validate_mfa_code (strip line) ;;
  if negb ok3 then ret false else
  _ <- step4_register_page_access ;;
  _ <- step5_navigate_to_event_management ;;
  ok6 <- step6_authenticate_event_management ;;
  if negb ok6 then ret false else
  ret true.

Definition not_authenticated_msg : string :=
  "Must authenticate first before getting EDR report".

Definition get_edr_report (event_id : string) : M pyval :=
  token <- get auth_token ;;
  if negb (truthy token) then raise (ValueError not_authenticated_msg)
  else
    try_except
      (response <- session_request (base_url ++ "/api/edrReport?id=" ++ event_id) ;;
       raise_for_status response ;;;
       report_data <- response_json response ;;
       ret report_data)
      is_RequestException
      (ret (PDict [])).

(** ** The markup renderer *)

(** Joins the pieces of a text that has double quotes between them. *)
Definition q (pieces : list string) : string := String.concat dq pieces.

(** The literal text between the fields of an item row. *)
Definition row_text_0 : string :=
  q ["
                <tr class="; "edr-wrapper"; ">
                    <td class="; "report-table-content"; ">"].

Definition row_text_1 : string :=
  q ["</td>
                    <td class="; "report-table-content"; ">"].

Definition row_text_2 : string :=
  q ["</td>
                    <td class="; "report-table-content"; ">"].

Definition row_text_3 : string :=
  q ["</td>
                    <td class="; "report-table-content"; ">"].

Definition row_text_4 : string :=
  q ["</td>
                    <td class="; "report-table-content"; ">"].

Definition row_text_5 : string :=
  "</td>
                </tr>
            ".

(** One [<tr>] of the items table, from the five fields of the item. *)
Definition item_row (itemNbr gtin itemDesc vendorNbr deptNbr : string) : string :=
  String.concat EmptyString
    [ row_text_0;
      itemNbr;
      row_text_1;
      gtin;
      row_text_2;
      itemDesc;
      row_text_3;
      vendorNbr;
      row_text_4;
      deptNbr;
      row_text_5 ].

(** The literal text between the fields of the document. *)
Definition html_text_0 : string :=
  q ["
<!DOCTYPE html>
<html>
<head>
    <title>Event Management System - EDR Report</title>
    <style>
        /* CSS from the provided files combined with print optimization */
        body { 
            font-family: Arial, sans-serif; 
            padding: 20px; 
            margin: 0;
        }
        
        .detail-header { 
            display: flex; 
            justify-content: center; 
            align-items: center; 
            font-weight: 700;
            font-size: 24px;
            margin-bottom: 20px;
        }
        
        .elememnt-padding { 
            padding: 10px 0; 
        }
        
        .font-weight-bold { 
            font-size: 18px; 
            margin-top: 10px; 
            margin-bottom: 10px; 
            font-weight: bold;
        }
        
        .space-underlined { 
            display: inline-block; 
            width: calc(80% - 230px); 
            border-bottom: 1px solid black;
            margin-left: 10px;
        }
        
        .instruction-heading { 
            margin-top: 10px; 
            margin-bottom: 10px; 
            font-size: 18px; 
            font-weight: 500; 
        }
        
        .report-footer div { 
            padding: 2px 0; 
        }
        
        .report-first { 
            margin-left: 20%; 
        }
        
        .help-text { 
            font-size: 14px; 
            line-height: 1.2; 
        }
        
        .demo-text { 
            margin-left: 12px; 
            font-weight: 700; 
        }
        
        .col-40 { 
            flex: 0 0 40%; 
            max-width: 40%; 
        }
        
        .report-table-content { 
            text-align: center; 
        }
        
        .row { 
            display: flex; 
            padding: 5px; 
            width: 100%; 
        }
        
        .col { 
            flex: 1; 
            display: block; 
            padding: 5px; 
            width: 100%; 
        }
        
        .col-25 { 
            flex: 0 0 25%; 
            max-width: 25%; 
        }
        
        .input-label { 
            font-weight: normal; 
        }
        
        td { 
            padding: 8px; 
            border-top: solid 1px #ccc; 
            font-family: arial; 
            font-size: 12px; 
            text-align: left; 
            font-weight: 400; 
            color: grey; 
            line-height: 18px; 
        }
        
        table { 
            width: 100%; 
            border-collapse: collapse; 
            text-align: center; 
            font-size: 94%; 
            outline: #ccc solid 1px; 
            table-layout: fixed; 
            margin-bottom: 10px; 
        }
        
        th { 
            padding: 5px; 
            background: #e2e1e1; 
            font-size: 14px; 
            font-weight: 400; 
            color: grey; 
        }
        
        .demo-table-header { 
            background: #e2e1e1; 
        }
        
        hr { 
            border: 1px solid #ccc; 
            margin: 10px 0; 
        }
        
        @media print {
            body { 
                padding: 10px; 
            }
            .print-button { 
                display: none; 
            }
        }
    </style>
</head>
<body>
    <div id="; "reportDdr_pdf"; ">
        <div class="; "detail-header"; ">EVENT DETAIL REPORT</div>
        
        <div class="; "elememnt-padding font-weight-bold"; ">
            <span>RUN ON </span>
            <span>"].

Definition html_text_1 : string :=
  "</span>
            <span> AT </span>
            <span>".

Definition html_text_2 : string :=
  q ["</span>
        </div>
        
        <hr>
        
        <div class="; "elememnt-padding help-text"; ">
            <div>
                <span class="; "report-first"; ">IMPORTANT!!!</span> 
                This report should be printed each morning prior to completing each event.<br>
                1. The Event Details Report should be kept in the event prep area for each demonstrator to review instructions and item status.<br>
                2. The Event Co-ordinator should use this sheet when visiting the event area. Comments should be written to enter into the system at a later time.<br>
                3. Remember to scan items for product charge using the Club Use function on the handheld device.<br>
                Retention: This report should be kept in a monthly folder with the most recent being put in the front. The previous 6 months need to be kept accessible in the event prep area. Reports older than 6 months should be boxed and stored. Discard any report over 18 months old.
            </div>
        </div>
        
        <hr>
        
        <div id="; "demo_div"; ">
            <div class="; "row responsive-md"; ">
                <div class="; "col col-25"; ">
                    <span class="; "input-label"; " title="; "Event Number"; ">
                        Event Number <span class="; "demo-text"; ">"].

Definition html_text_3 : string :=
  q ["</span>
                    </span>
                </div>
                <div class="; "col col-25"; ">
                    <span class="; "input-label"; " title="; "Event Type"; ">
                        Event Type <span class="; "demo-text"; ">"].

Definition html_text_4 : string :=
  q ["</span>
                    </span>
                </div>
                <div class="; "col col-40"; ">
                    <span class="; "input-label"; " title="; "Event Locked"; ">
                        Event Locked <span class="; "demo-text"; ">"].

Definition html_text_5 : string :=
  q ["</span>
                    </span>
                </div>
            </div>
            
            <div class="; "row responsive-md"; ">
                <div class="; "col col-25"; ">
                    <span class="; "input-label"; " title="; "Event Status"; ">
                        Event Status <span class="; "demo-text"; ">"].

Definition html_text_6 : string :=
  q ["</span>
                    </span>
                </div>
                <div class="; "col col-25"; ">
                    <span class="; "input-label"; " title="; "Event Date"; ">
                        Event Date <span class="; "demo-text"; ">"].

Definition html_text_7 : string :=
  q ["</span>
                    </span>
                </div>
                <div class="; "col col-40"; ">
                    <span class="; "input-label"; " title="; "Event Name"; ">
                        Event Name <span class="; "demo-text"; " title="; EmptyString].

Definition html_text_8 : string :=
  q [EmptyString; ">"].

Definition html_text_9 : string :=
  q ["</span>
                    </span>
                </div>
            </div>
        </div>
        
        <div id="; "demo_pdf"; ">
            <table id="; "new_event"; ">
                <thead>
                    <tr class="; "demo-table-header"; ">
                        <th>Item Number</th>
                        <th>Primary Item Number</th>
                        <th>Description</th>
                        <th>Vendor</th>
                        <th>Category</th>
                    </tr>
                </thead>
                <tbody>
                    "].

Definition html_text_10 : string :=
  q ["
                </tbody>
            </table>
        </div>
        
        <h4 class="; "instruction-heading"; ">Instructions:</h4>
        
        <div>
            <span class="; "input-label"; " title="; "Event Preparation"; ">
                Event Preparation: <span class="; "demo-text"; ">"].

Definition html_text_11 : string :=
  q ["</span>
            </span>
            <div>
                <span class="; "input-label"; " title="; "Event Portion"; ">
                    Event Portion: <span class="; "demo-text"; ">"].

Definition html_text_12 : string :=
  q ["</span>
                </span>
            </div>
        </div>
        
        <div class="; "report-footer"; ">
            <div>
                <span>Club Associate Printed Name:</span>
                <span class="; "space-underlined"; "></span>
            </div>
            <div>
                <span>Club Associate Signature:</span>
                <span class="; "space-underlined"; "></span>
            </div>
            <div>
                <span>Club Associate Title:</span>
                <span class="; "space-underlined"; "></span>
            </div>
            <div>
                <span>Date:</span>
                <span class="; "space-underlined"; "></span>
            </div>
            <div>
                <span>Tastes & Tips Rep Signature:</span>
                <span class="; "space-underlined"; "></span>
            </div>
        </div>
        
        <div class="; "print-button"; " style="; "margin-top: 20px; text-align: right;"; ">
            <button onclick="; "window.print()"; " style="; "padding: 10px 20px; background: #1976d2; color: white; border: none; border-radius: 4px; cursor: pointer;"; ">
                🖨️ Print Report
            </button>
        </div>
    </div>
</body>
</html>
        "].

(** The f-string [html_content] of [generate_html_report]. *)
Definition html_content (report_date report_time event_number event_type event_locked event_status event_date event_name item_rows event_prep event_portion : string) : string :=
  String.concat EmptyString
    [ html_text_0;
      report_date;
      html_text_1;
      report_time;
      html_text_2;
      event_number;
      html_text_3;
      event_type;
      html_text_4;
      event_locked;
      html_text_5;
      event_status;
      html_text_6;
      event_date;
      html_text_7;
      event_name;
      html_text_8;
      event_name;
      html_text_9;
      item_rows;
      html_text_10;
      event_prep;
      html_text_11;
      event_portion;
      html_text_12 ].

(** [v.get(key, default) if v else default] *)
Definition get_or (v : pyval) (key : string) (default : pyval) : M pyval :=
  if truthy v then
    match v with
    | PDict d => ret (py_get_default d key default)
    | _ => raise AttributeError
    end
  else ret default.

Fixpoint chars_of (s : string) : list pyval :=
  match s with
  | EmptyString => []
  | String c r => PStr (String c EmptyString) :: chars_of r
  end.

(** [for item in v]: the items a loop over [v] visits. *)
Definition py_iter (v : pyval) : M (list pyval) :=
  match v with
  | PList l => ret l
  | PDict d => ret (map PStr (dict_keys d))
  | PStr s => ret (chars_of s)
  | _ => raise TypeError
  end.

(** [item.get(key, '')] inside the f-string of a row. *)
Definition item_field (item : pyval) (key : string) : M string :=
  match item with
  | PDict d => ret (py_str (py_get_default d key (PStr EmptyString)))
  | _ => raise AttributeError
  end.

Definition render_item (item : pyval) : M string :=
  itemNbr <- item_field item "itemNbr" ;;
  gtin <- item_field item "gtin" ;;
  itemDesc <- item_field item "itemDesc" ;;
  vendorNbr <- item_field item "vendorNbr" ;;
  deptNbr <- item_field item "deptNbr" ;;
  ret (item_row itemNbr gtin itemDesc vendorNbr deptNbr).

(** [for item in item_details: item_rows += f"..."] *)
Fixpoint render_items (items : list pyval) (item_rows : string) : M string :=
  match items with
  | [] => ret item_rows
  | item :: rest =>
      row <- render_item item ;;
      render_items rest (item_rows ++ row)
  end.

Definition generate_html_report (edr_data : pyval) : M string :=
  t <- now ;;
  let report_date := strftime_date t in
  let report_time := strftime_time t in
  event_number <- get_or edr_data "demoId" (PStr "N/A") ;;
  event_type <- get_or edr_data "demoClassCode" (PStr "N/A") ;;
  event_status <- get_or edr_data "demoStatusCode" (PStr "N/A") ;;
  event_date <- get_or edr_data "demoDate" (PStr "N/A") ;;
  event_name <- get_or edr_data "demoName" (PStr "N/A") ;;
  event_locked <- get_or edr_data "demoLockInd" (PStr "N/A") ;;
  instructions <- get_or edr_data "demoInstructions" (PDict []) ;;
  event_prep <- get_or instructions "demoPrepnTxt" (PStr "N/A") ;;
  event_portion <- get_or instructions "demoPortnTxt" (PStr "N/A") ;;
  item_details <- get_or edr_data "itemDetails" (PList []) ;;
  items <- py_iter item_details ;;
  item_rows <- render_items items EmptyString ;;
  ret (strip (html_content report_date report_time (py_str event_number)
                (py_str event_type) (py_str event_locked)
                (py_str event_status) (py_str event_date) (py_str event_name)
                item_rows (py_str event_prep) (py_str event_portion))).

(** ** Files and sub-processes *)

Definition file_exists (w : World) (path : string) : bool :=
  match dict_get (files w) path with Some _ => true | None => false end.

(** What a file holds when the write of [c] stopped after [n] characters. *)
Definition cut (n : nat) (c : content) : content :=
  match c with
  | Text s => Text (substring 0 n s)
  | _ => Partial n c
  end.

(** [with open(path, 'w') as f: f.write(...)] *)
Definition write_file (path : string) (c : content) : M unit :=
  fun w =>
    if write_denied w path then
      match write_breaks w path with
      | AtOpen e => (Raise e, w)
      | AfterOpen e n =>
          (Raise e, set_files (dict_set (files w) path (cut n c)) w)
      end
    else (Ok tt, set_files (dict_set (files w) path c) w).

(** [os.remove(path)] *)
Definition os_remove (path : string) : M unit :=
  fun w =>
    if negb (file_exists w path) then (Raise OSError, w)
    else if remove_denied w path then (Raise OSError, w)
    else (Ok tt, set_files (dict_remove (files w) path) w).

(** [subprocess.run(args, ...).returncode] *)
Definition subprocess_run (args : list string) : M Z :=
  fun w =>
    match run_process w args with
    | Exited rc => (Ok rc, w)
    | ProcTimeout => (Raise TimeoutExpired, w)
    | ProcError => (Raise OSError, w)
    end.

Definition save_html_report (html : string) (filename : option string)
  : M string :=
  filename <-
    match filename with
    | Some f =>
        if str_nonempty f then ret f
        else t <- now ;; ret ("edr_report_" ++ strftime_stamp t ++ ".html")
    | None => t <- now ;; ret ("edr_report_" ++ strftime_stamp t ++ ".html")
    end ;;
  write_file filename (Text html) ;;;
  ret filename.

Definition _print_on_windows_simple (file_path : string) : M bool :=
  try_except
    (let abs_path := abspath file_path in
     rc <- subprocess_run
             ["cmd"; "/c"; "start"; "/wait"; "/min"; EmptyString; "/print";
              abs_path] ;;
     ret (rc =? 0)%Z)
    any_Exception
    (ret false).

Definition _print_on_windows_advanced (file_path : string) : M bool :=
  try_except
    (let abs_path := abspath file_path in
     let ps_cmd :=
       q ["Start-Process -FilePath "; abs_path;
          " -Verb Print -WindowStyle Hidden -Wait"] in
     rc <- subprocess_run
             ["powershell.exe"; "-WindowStyle"; "Hidden"; "-Command"; ps_cmd] ;;
     ret (rc =? 0)%Z)
    any_Exception
    (ret false).

Definition _print_on_windows_fallback (file_path : string) : M bool :=
  try_except
    (let abs_path := abspath file_path in
     rc <- subprocess_run ["print"; abs_path] ;;
     ret (rc =? 0)%Z)
    any_Exception
    (ret false).

Definition applescript : string :=
  q ["
                tell application "; "Safari"; "
                    delay 2
                    tell application "; "System Events"; "
                        keystroke "; "p"; " using command down
                        delay 1
                        keystroke return
                    end tell
                end tell
                "].

Definition _print_on_macos (file_path : string) : M bool :=
  try_except
    (rc <- subprocess_run ["lp"; "-d"; "default"; file_path] ;;
     if (rc =? 0)%Z then ret true else
     rc <- subprocess_run ["open"; "-a"; "Safari"; file_path] ;;
     if (rc =? 0)%Z then
       subprocess_run ["osascript"; "-e"; applescript] ;;;
       ret true
     else ret false)
    any_Exception
    (ret false).

Definition _print_on_linux (file_path : string) : M bool :=
  try_except
    (rc <- subprocess_run ["lp"; file_path] ;;
     if (rc =? 0)%Z then ret true else
     rc <- subprocess_run ["lpr"; file_path] ;;
     if (rc =? 0)%Z then ret true else
     rc <- subprocess_run ["xdg-open"; file_path] ;;
     ret (rc =? 0)%Z)
    any_Exception
    (ret false).

(** [a or b] on two calls: [b] runs only when [a] returned [False]. *)
Definition or_else (a b : M bool) : M bool :=
  r <- a ;; if r then ret true else b.

(** The temporary file of [print_html_report]. *)
Definition temp_path_of (w : World) (temp_filename : string) : string :=
  path_join (tempdir w) temp_filename.

(** The platform branch of [print_html_report]: [None] stands for the
    [return False] of an unsupported system. *)
Definition print_dispatch (temp_path : string) : M (option bool) :=
  name <- get platform_system ;;
  let system := ascii_lower name in
  if String.eqb system "windows" then
    r <- or_else (_print_on_windows_simple temp_path)
           (or_else (_print_on_windows_advanced temp_path)
                    (_print_on_windows_fallback temp_path)) ;;
    ret (Some r)
  else if String.eqb system "darwin" then
    r <- _print_on_macos temp_path ;; ret (Some r)
  else if String.eqb system "linux" then
    r <- _print_on_linux temp_path ;; ret (Some r)
  else ret None.

Definition print_html_report (html : string) (temp_filename : option string)
  : M bool :=
  try_except
    (temp_filename <-
       match temp_filename with
       | Some f =>
           if str_nonempty f then ret f
           else t <- now ;;
                ret ("temp_edr_report_" ++ strftime_stamp t ++ ".html")
       | None => t <- now ;;
                 ret ("temp_edr_report_" ++ strftime_stamp t ++ ".html")
       end ;;
     dir <- get tempdir ;;
     let temp_path := path_join dir temp_filename in
     write_file temp_path (Text html) ;;;
     dispatched <- print_dispatch temp_path ;;
     match dispatched with
     | None => ret false
     | Some true =>
         try_except (os_remove temp_path) is_OSError (ret tt) ;;;
         ret true
     | Some false =>
         try_except (os_remove temp_path) is_OSError (ret tt) ;;;
         ret false
     end)
    any_Exception
    (ret false).

Definition generate_and_print_edr_report (event_id : string) (save_copy : bool)
  : M bool :=
  token <- get auth_token ;;
  if negb (truthy token) then ret false else
  edr_data <- get_edr_report event_id ;;
  if negb (truthy edr_data) then ret false else
  html_report <- generate_html_report edr_data ;;
  if negb (str_nonempty html_report) then ret false else
  saved_file <-
    (if save_copy then
       t <- now ;;
       f <- save_html_report html_report
              (Some ("edr_report_" ++ event_id ++ "_" ++ strftime_stamp t ++ ".html")) ;;
       ret (Some f)
     else ret None) ;;
  print_success <- print_html_report html_report None ;;
  if print_success then ret true else ret false.

(** ** [AutomatedEDRPrinter] *)

Variable exn_str : exn -> string.                 (* str(e) of an exception *)

(** One value of the [results] dictionary of [process_event_list]. *)
Record entry : Type := mk_entry {
  success : bool;
  generated : bool;
  printed : bool;
  saved : bool;
  saved_file : option (option string);    (* [None]: the key is absent *)
  error : option string }.

Definition results_t : Type := list (string * entry).

Definition DEFAULT_EVENT_IDS : list string := ["606034"].

Definition authenticate_once : M bool :=
  success <- authenticate ;;
  if success then ret true else ret false.

Definition set_authentication_manually (token : string) : M unit :=
  modify (set_auth_token (PStr token)).

Definition failed_entry (msg : string) : entry :=
  mk_entry false false false false None (Some msg).

(** The body of the [try] of one turn of the loop of [process_event_list]. *)
Definition process_one (event_id : string) (save_copies print_reports : bool)
  (results : results_t) : M results_t :=
  if print_reports then
    success <- generate_and_print_edr_report event_id save_copies ;;
    ret (dict_set results event_id
           (mk_entry success success success
              (if success then save_copies else false) None None))
  else
    edr_data <- get_edr_report event_id ;;
    if truthy edr_data then
      html_report <- generate_html_report edr_data ;;
      saved_file <-
        (if save_copies then
           t <- now ;;
           f <- save_html_report html_report
                  (Some ("edr_report_" ++ event_id ++ "_" ++ strftime_stamp t
                         ++ ".html")) ;;
           ret (Some f)
         else ret None) ;;
      ret (dict_set results event_id
             (mk_entry true true false
                (match saved_file with Some _ => true | None => false end)
                (Some saved_file) None))
    else
      ret (dict_set results event_id
             (failed_entry "Failed to retrieve EDR data")).

(** One turn of the loop, with its [except Exception as e]. *)
Definition process_event (save_copies print_reports : bool)
  (results : results_t) (event_id : string) : M results_t :=
  fun w =>
    match process_one event_id save_copies print_reports results w with
    | (Ok r, w') => (Ok r, w')
    | (Raise e, w') =>
        (Ok (dict_set results event_id (failed_entry (exn_str e))), w')
    end.

Fixpoint process_events (save_copies print_reports : bool)
  (event_ids : list string) (results : results_t) : M results_t :=
  match event_ids with
  | [] => ret results
  | event_id :: rest =>
      results' <- process_event save_copies print_reports results event_id ;;
      process_events save_copies print_reports rest results'
  end.

Definition process_event_list (event_ids : option (list string))
  (save_copies print_reports : bool) : M results_t :=
  let event_ids :=
    match event_ids with None => DEFAULT_EVENT_IDS | Some l => l end in
  token <- get auth_token ;;
  if negb (truthy token) then ret []
  else process_events save_copies print_reports event_ids [].

(** The three numbers [print_summary] works out. *)
Definition total_events (results : results_t) : nat := length results.

Definition successful_events (results : results_t) : nat :=
  length (filter (fun kv => success (snd kv)) results).

Definition failed_events (results : results_t) : nat :=
  total_events results - successful_events results.

Fixpoint str_repeat (s : string) (n : nat) : string :=
  match n with O => EmptyString | S m => s ++ str_repeat s m end.

Definition str_of_nat (n : nat) : string :=
  NilZero.string_of_uint (Nat.to_uint n).

Definition status_parts (r : entry) : list string :=
  (if generated r then ["Generated"] else []) ++
  (if printed r then ["Printed"] else []) ++
  (if saved r then ["Saved"] else []).

Definition failed_line (kv : string * entry) : string :=
  "   • " ++ fst kv ++ ": " ++
  match error (snd kv) with Some msg => msg | None => "None" end.

Definition successful_line (kv : string * entry) : string :=
  "   • " ++ fst kv ++ ": " ++ String.concat " + " (status_parts (snd kv)).

(** [print_summary], as the list of the texts it prints. *)
Definition print_summary (results : results_t) : list string :=
  [ nl ++ str_repeat "=" 60;
    "📊 PROCESSING SUMMARY";
    str_repeat "=" 60;
    "📋 Total Events: " ++ str_of_nat (total_events results);
    "✅ Successful: " ++ str_of_nat (successful_events results);
    "❌ Failed: " ++ str_of_nat (failed_events results) ] ++
  (if (0 <? failed_events results)%nat then
     (nl ++ "❌ Failed Events:") ::
     map failed_line (filter (fun kv => negb (success (snd kv))) results)
   else []) ++
  (if (0 <? successful_events results)%nat then
     (nl ++ "✅ Successful Events:") ::
     map successful_line (filter (fun kv => success (snd kv)) results)
   else []) ++
  [ str_repeat "=" 60 ].

(** [all(r['success'] for r in results.values())] *)
Definition all_successful (results : results_t) : bool :=
  forallb success (dict_values results).

Definition run_automated_batch (event_ids : option (list string))
  (do_authenticate : bool) : M bool :=
  _ <- now ;;
  token <- get auth_token ;;
  proceed <-
    (if do_authenticate && negb (truthy token) then authenticate_once
     else ret true) ;;
  if negb proceed then ret false else
  results <- process_event_list event_ids true true ;;
  let _ := print_summary results in
  let all_ok := all_successful results in
  _ <- now ;;
  ret all_ok.

(** [sys.argv] to the event identifiers, as both [main] functions do. *)
Definition argv_event_ids (argv : list string) : option (list string) :=
  if (1 <? length argv)%nat then Some (tl argv) else None.

Definition automated_main (argv : list string) : M bool :=
  success <- run_automated_batch (argv_event_ids argv) true ;;
  ret success.

(** [exit_code = 0 if main() else 1; sys.exit(exit_code)]; an exception that
    leaves [main] ends the process with status 1. *)
Definition exit_status (main : M bool) (w : World) : Z :=
  match fst (main w) with
  | Ok true => 0
  | Ok false => 1
  | Raise _ => 1
  end.

(** ** [EnhancedEDRPrinter] *)

Definition event_type_codes : list (string * string) :=
  [ ("1", "Sampling");
    ("2", "Demo/Sampling");
    ("3", "Cooking Demo");
    ("4", "Product Demo");
    ("5", "Educational");
    ("6", "Seasonal");
    ("7", "Holiday");
    ("8", "Back to School");
    ("9", "Health & Wellness");
    ("10", "New Product Launch");
    ("45", "Food Demo/Sampling");
    ("46", "Beverage Demo");
    ("47", "Product Demonstration");
    ("48", "Special Event");
    ("49", "Promotional Event");
    ("50", "Tasting Event");
    ("DEMO", "Demonstration");
    ("SAMP", "Sampling");
    ("COOK", "Cooking Demo");
    ("SPEC", "Special Event");
    ("PROM", "Promotion");
    ("DISP", "Display");
    ("TAST", "Tasting");
    ("EDUC", "Educational");
    ("SEAS", "Seasonal");
    ("NEW", "New Product");
    ("HOLI", "Holiday");
    ("BACK", "Back to School");
    ("GRIL", "Grilling");
    ("HEAL", "Health & Wellness") ].

Definition event_status_codes : list (string * string) :=
  [ ("1", "Pending");
    ("2", "Active/Scheduled");
    ("3", "In Progress");
    ("4", "Completed");
    ("5", "Cancelled");
    ("6", "On Hold");
    ("7", "Under Review");
    ("8", "Approved");
    ("9", "Rejected");
    ("10", "Suspended");
    ("ACTV", "Active");
    ("COMP", "Completed");
    ("CANC", "Cancelled");
    ("PEND", "Pending");
    ("HOLD", "On Hold");
    ("PREP", "In Preparation");
    ("SCHED", "Scheduled");
    ("INPR", "In Progress");
    ("SUSP", "Suspended");
    ("CLOS", "Closed");
    ("APPR", "Approved");
    ("REJE", "Rejected");
    ("SUBM", "Submitted");
    ("REVI", "Under Review") ].

Definition important_text : string :=
  "
            <b>IMPORTANT!!!</b> This report should be printed each morning prior to completing each event.<br/>
            1. The Event Details Report should be kept in the event prep area for each demonstrator to review instructions and item status.<br/>
            2. The Event Co-ordinator should use this sheet when visiting the event area. Comments should be written to enter into the system at a later time.<br/>
            3. Remember to scan items for product charge using the Club Use function on the handheld device.<br/>
            Retention: This report should be kept in a monthly folder with the most recent being put in the front. The previous 6 months need to be kept accessible in the event prep area. Reports older than 6 months should be boxed and stored. Discard any report over 18 months old.
            ".

Definition combined_html_head : string :=
  "
        <!DOCTYPE html>
        <html>
        <head>
            <title>Consolidated EDR Reports</title>
            <style>
                body { 
                    font-family: Arial, sans-serif; 
                    margin: 0; 
                    padding: 20px;
                }
                .page-break { 
                    page-break-before: always; 
                }
                @page {
                    size: letter;
                    margin: 0.5in;
                }
                @media print {
                    .print-button { display: none; }
                }
            </style>
        </head>
        <body>
        ".

Definition combined_html_tail : string :=
  "
        </body>
        </html>
        ".
Definition describe (table : list (string * string)) (category : string)
  (code : pyval) : string :=
  if negb (truthy code) || is_str code "N/A" then "N/A"
  else
    let code_str := str_upper (py_str code) in
    match dict_get table code_str with
    | Some description =>
        if str_nonempty description then description
        else category ++ " " ++ py_str code
    | None => category ++ " " ++ py_str code
    end.

Definition get_event_type_description (code : pyval) : string :=
  describe event_type_codes "Event Type" code.

Definition get_event_status_description (code : pyval) : string :=
  describe event_status_codes "Status" code.

(** [doc.build(story)] of the page-layout library, writing [filename]. *)
Definition doc_build (filename : string) (c : content) : M unit :=
  fun w =>
    if build_denied w filename then (Raise (OtherError "build"), w)
    else write_file filename c w.

(** A row of the summary table of the cover page. *)
Definition summary_row (event_data : pyval) : M (list string) :=
  event_number <- get_or event_data "demoId" (PStr "N/A") ;;
  event_name <- get_or event_data "demoName" (PStr "N/A") ;;
  event_type_code <- get_or event_data "demoClassCode" (PStr "N/A") ;;
  event_status_code <- get_or event_data "demoStatusCode" (PStr "N/A") ;;
  let event_type_desc := get_event_type_description event_type_code in
  let event_status_desc := get_event_status_description event_status_code in
  let event_name_short :=
    if (30 <? str_len (py_str event_name))%nat
    then str_take 30 (py_str event_name) ++ "..."
    else py_str event_name in
  ret [py_str event_number; event_name_short; event_type_desc;
       event_status_desc].

Fixpoint summary_rows (l : list pyval) : M (list (list string)) :=
  match l with
  | [] => ret []
  | event_data :: rest =>
      row <- summary_row event_data ;;
      rows <- summary_rows rest ;;
      ret (row :: rows)
  end.

Definition pdf_item_row (item : pyval) : M (list string) :=
  itemNbr <- item_field item "itemNbr" ;;
  gtin <- item_field item "gtin" ;;
  itemDesc <- item_field item "itemDesc" ;;
  vendorNbr <- item_field item "vendorNbr" ;;
  deptNbr <- item_field item "deptNbr" ;;
  ret [itemNbr; gtin; itemDesc; vendorNbr; deptNbr].

Fixpoint pdf_item_rows (items : list pyval) : M (list (list string)) :=
  match items with
  | [] => ret []
  | item :: rest =>
      row <- pdf_item_row item ;;
      rows <- pdf_item_rows rest ;;
      ret (row :: rows)
  end.

Definition items_header : list string :=
  ["Item Number"; "Primary Item Number"; "Description"; "Vendor"; "Category"].

Definition signature_data : list (list string) :=
  [ ["Event Specialist Printed Name:"; "________________________________"];
    ["Event Specialist Signature:"; "________________________________"];
    ["Date Performed:"; "________________________________"];
    ["Supervisor Signature:"; "________________________________"] ].

(** The two header tables of an event page. *)
Definition event_details_row1 (event_number event_type event_locked : string)
  : list (list string) :=
  [ ["Event Number"; "Event Type"; "Event Locked"];
    [event_number; event_type; event_locked] ].

Definition event_details_row2 (event_status event_date event_name : string)
  : list (list string) :=
  [ ["Event Status"; "Event Date"; "Event Name"];
    [event_status; event_date; event_name] ].

(** The flowables of the page of one event ([i] is its index in the list). *)
Definition event_page (i : nat) (event_data : pyval) : M (list flowable) :=
  event_number <- get_or event_data "demoId" (PStr "N/A") ;;
  event_type_code <- get_or event_data "demoClassCode" (PStr "N/A") ;;
  event_status_code <- get_or event_data "demoStatusCode" (PStr "N/A") ;;
  event_date <- get_or event_data "demoDate" (PStr "N/A") ;;
  event_name <- get_or event_data "demoName" (PStr "N/A") ;;
  event_locked <- get_or event_data "demoLockInd" (PStr "N/A") ;;
  let event_type := get_event_type_description event_type_code in
  let event_status := get_event_status_description event_status_code in
  instructions <- get_or event_data "demoInstructions" (PDict []) ;;
  event_prep <- get_or instructions "demoPrepnTxt" (PStr "N/A") ;;
  event_portion <- get_or instructions "demoPortnTxt" (PStr "N/A") ;;
  item_details <- get_or event_data "itemDetails" (PList []) ;;
  items_part <-
    (if truthy item_details then
       items <- py_iter item_details ;;
       rows <- pdf_item_rows items ;;
       ret [Table (items_header :: rows); Spacer 1 20]
     else ret []) ;;
  ret ((if (0 <? i)%nat then [PageBreak] else []) ++
       [ Paragraph "EVENT DETAIL REPORT" "CustomTitle";
         Spacer 1 12;
         Paragraph important_text "Normal";
         Spacer 1 20;
         Table (event_details_row1 (py_str event_number) event_type
                  (py_str event_locked));
         Spacer 1 3;
         Table (event_details_row2 event_status (py_str event_date)
                  (py_str event_name));
         Spacer 1 20 ] ++
       items_part ++
       [ Paragraph "<b>MUST BE SIGNED AND DATED</b>" "CustomHeader";
         Spacer 1 20;
         Table signature_data ])%list.

Fixpoint event_pages (i : nat) (l : list pyval) : M (list flowable) :=
  match l with
  | [] => ret []
  | event_data :: rest =>
      page <- event_page i event_data ;;
      pages <- event_pages (S i) rest ;;
      ret (page ++ pages)%list
  end.

Definition generate_consolidated_pdf_reportlab (event_data_list : list pyval)
  (filename : option string) : M string :=
  available <- get REPORTLAB_AVAILABLE ;;
  if negb available then
    raise (ImportError
      "ReportLab is required for PDF generation. Install with: pip install reportlab")
  else
  filename <-
    match filename with
    | Some f =>
        if str_nonempty f then ret f
        else t <- now ;;
             ret ("consolidated_edr_reports_" ++ strftime_stamp t ++ ".pdf")
    | None => t <- now ;;
              ret ("consolidated_edr_reports_" ++ strftime_stamp t ++ ".pdf")
    end ;;
  t <- now ;;
  let report_date := strftime_date t in
  let report_time := strftime_time t in
  let cover :=
    [ Paragraph "CONSOLIDATED EVENT DETAILS REPORT" "CoverTitle";
      Spacer 1 50;
      Paragraph ("Generated on " ++ report_date ++ " at " ++ report_time)
        "CustomHeader";
      Spacer 1 30;
      Paragraph ("Total Events: " ++ str_of_nat (length event_data_list))
        "CustomHeader";
      Spacer 1 30 ] in
  summary <-
    (match event_data_list with
     | [] => ret []
     | _ =>
         rows <- summary_rows event_data_list ;;
         ret [Table (["Event ID"; "Event Name"; "Event Type"; "Status"] :: rows)]
     end) ;;
  pages <- event_pages 0 event_data_list ;;
  let story := (cover ++ summary ++ [PageBreak] ++ pages)%list in
  doc_build filename (Pdf story) ;;;
  ret filename.

(** [s.find(needle)], [-1] when there is none. *)
Fixpoint find_from (needle s : string) (i : Z) : Z :=
  if prefix needle s then i
  else match s with
       | EmptyString => (-1)%Z
       | String _ r => find_from needle r (i + 1)%Z
       end.

Definition str_find (needle s : string) : Z := find_from needle s 0.

(** [s.replace(old, new)] for a non-empty [old]. *)
Fixpoint replace_from (old new : string) (skip : nat) (s : string) : string :=
  match s with
  | EmptyString => EmptyString
  | String c r =>
      match skip with
      | S k => replace_from old new k r
      | O =>
          if prefix old s
          then new ++ replace_from old new (String.length old - 1) r
          else String c (replace_from old new 0 r)
      end
  end.

Definition str_replace (old new s : string) : string :=
  replace_from old new 0 s.

Definition body_of (html_report : string) : string :=
  let start_idx := (str_find "<body>" html_report + 6)%Z in
  let end_idx := str_find "</body>" html_report in
  if ((5 <? start_idx) && (start_idx <? end_idx))%Z then
    let body_content :=
      substring (Z.to_nat start_idx) (Z.to_nat (end_idx - start_idx))
        html_report in
    str_replace (q ["<div class="; "print-button"; EmptyString])
      (q ["<div class="; "print-button"; " style="; "display:none;";
          EmptyString])
      body_content
  else EmptyString.

Fixpoint combine_reports (i : nat) (html_reports : list string)
  (combined_html : string) : string :=
  match html_reports with
  | [] => combined_html
  | html_report :: rest =>
      let combined_html :=
        if (0 <? i)%nat
        then combined_html ++ q ["<div class="; "page-break"; "></div>"]
        else combined_html in
      combine_reports (S i) rest (combined_html ++ body_of html_report)
  end.

Definition generate_consolidated_pdf_weasyprint (html_reports : list string)
  (filename : option string) : M string :=
  available <- get WEASYPRINT_AVAILABLE ;;
  if negb available then
    raise (ImportError
      "WeasyPrint is required for PDF generation. Install with: pip install weasyprint")
  else
  filename <-
    match filename with
    | Some f =>
        if str_nonempty f then ret f
        else t <- now ;;
             ret ("consolidated_edr_reports_" ++ strftime_stamp t ++ ".pdf")
    | None => t <- now ;;
              ret ("consolidated_edr_reports_" ++ strftime_stamp t ++ ".pdf")
    end ;;
  let combined_html :=
    combine_reports 0 html_reports combined_html_head ++ combined_html_tail in
  doc_build filename (PdfOfHtml combined_html) ;;;
  ret filename.

Definition print_pdf_file (pdf_path : string) : M bool :=
  let abs_path := abspath pdf_path in
  name <- get platform_system ;;
  let system := ascii_lower name in
  try_except
    (if String.eqb system "windows" then
       rc <- subprocess_run
               ["cmd"; "/c"; "start"; "/wait"; "/min"; EmptyString; "/print";
                abs_path] ;;
       if (rc =? 0)%Z then ret true else
       let ps_cmd :=
         q ["Start-Process -FilePath "; abs_path;
            " -Verb Print -WindowStyle Hidden -Wait"] in
       rc <- subprocess_run
               ["powershell.exe"; "-WindowStyle"; "Hidden"; "-Command"; ps_cmd] ;;
       if (rc =? 0)%Z then ret true else ret false
     else if String.eqb system "darwin" then
       rc <- subprocess_run ["lp"; abs_path] ;;
       if (rc =? 0)%Z then ret true else ret false
     else if String.eqb system "linux" then
       rc <- subprocess_run ["lp"; abs_path] ;;
       if (rc =? 0)%Z then ret true else ret false
     else ret false)
    any_Exception
    (ret false).

(** [os.startfile(path)] *)
Definition os_startfile (path : string) : M unit :=
  fun w => if startfile_fails w then (Raise OSError, w) else (Ok tt, w).

Definition open_pdf_file (pdf_path : string) : M bool :=
  let abs_path := abspath pdf_path in
  name <- get platform_system ;;
  let system := ascii_lower name in
  try_except
    ((if String.eqb system "windows" then os_startfile abs_path
      else if String.eqb system "darwin" then
        subprocess_run ["open"; abs_path] ;;; ret tt
      else if String.eqb system "linux" then
        subprocess_run ["xdg-open"; abs_path] ;;; ret tt
      else ret tt) ;;;
     ret true)
    any_Exception
    (ret false).

(** One turn of the collecting loop of [run_enhanced_batch], on the pair of
    [event_data_list] and [html_reports].  The two lists are appended to in
    place, so what was appended before an exception stays. *)
Definition collect_event (st : list pyval * list string) (event_id : string)
  : M (list pyval * list string) :=
  try_except
    (edr_data <- get_edr_report event_id ;;
     if truthy edr_data then
       let st1 := (fst st ++ [edr_data], snd st)%list in
       try_except
         (html_report <- generate_html_report edr_data ;;
          let st2 := (fst st1, snd st1 ++ [html_report])%list in
          try_except
            (t <- now ;;
             save_html_report html_report
               (Some ("edr_report_" ++ event_id ++ "_" ++ strftime_stamp t
                      ++ ".html")) ;;;
             ret st2)
            any_Exception (ret st2))
         any_Exception (ret st1)
     else ret st)
    any_Exception (ret st).

Fixpoint collect_events (event_ids : list string)
  (st : list pyval * list string) : M (list pyval * list string) :=
  match event_ids with
  | [] => ret st
  | event_id :: rest =>
      st' <- collect_event st event_id ;;
      collect_events rest st'
  end.

(** The [if create_pdf:] block: [None] stands for its [return False]. *)
Definition create_consolidated_pdf (event_data_list : list pyval)
  (html_reports : list string) : M (option string) :=
  try_except
    (reportlab <- get REPORTLAB_AVAILABLE ;;
     weasyprint <- get WEASYPRINT_AVAILABLE ;;
     if reportlab then
       p <- generate_consolidated_pdf_reportlab event_data_list None ;;
       ret (Some p)
     else if weasyprint then
       p <- generate_consolidated_pdf_weasyprint html_reports None ;;
       ret (Some p)
     else ret None)
    any_Exception (ret None).

Definition run_enhanced_batch (event_ids : option (list string))
  (do_authenticate create_pdf auto_print open_pdf : bool) : M bool :=
  _ <- now ;;
  let event_ids :=
    match event_ids with None => DEFAULT_EVENT_IDS | Some l => l end in
  token <- get auth_token ;;
  proceed <-
    (if do_authenticate && negb (truthy token) then authenticate_once
     else ret true) ;;
  if negb proceed then ret false else
  st <- collect_events event_ids ([], []) ;;
  let event_data_list := fst st in
  let html_reports := snd st in
  match event_data_list with
  | [] => ret false
  | _ =>
      created <-
        (if create_pdf then create_consolidated_pdf event_data_list html_reports
         else ret (Some EmptyString)) ;;
      match created with
      | None => ret false
      | Some pdf_path =>
          (if auto_print && str_nonempty pdf_path
           then print_pdf_file pdf_path ;;; ret tt else ret tt) ;;;
          (if open_pdf && str_nonempty pdf_path
           then open_pdf_file pdf_path ;;; ret tt else ret tt) ;;;
          _ <- now ;;
          ret (0 <? length event_data_list)%nat
      end
  end.

Definition enhanced_main (argv : list string) : M bool :=
  success <- run_enhanced_batch (argv_event_ids argv) true true true true ;;
  ret success.

(** * Properties *)

(** [str.upper] agrees with ASCII upper-casing on ASCII text. *)
Hypothesis str_upper_ascii :
  forall s, is_ascii_str s = true -> str_upper s = ascii_upper s.

(** ** The code-to-label tables *)

(** What makes a table entry reachable by its own key: the key is ASCII, is
    its own upper case, is neither empty nor the sentinel, is bound to this
    label first, and the label is not empty. *)
Definition entry_ok (table : list (string * string)) (kv : string * string)
  : bool :=
  is_ascii_str (fst kv) && String.eqb (ascii_upper (fst kv)) (fst kv) &&
  str_nonempty (fst kv) && negb (String.eqb (fst kv) "N/A") &&
  match dict_get table (fst kv) with
  | Some l => String.eqb l (snd kv)
  | None => false
  end &&
  str_nonempty (snd kv).

Lemma event_type_codes_ok :
  forallb (entry_ok event_type_codes) event_type_codes = true.
Proof. vm_compute. reflexivity. Qed.

Lemma event_status_codes_ok :
  forallb (entry_ok event_status_codes) event_status_codes = true.
Proof. vm_compute. reflexivity. Qed.

Lemma describe_entry table category k l :
  entry_ok table (k, l) = true ->
  describe table category (PStr k) = l.
Proof.
  unfold entry_ok; cbn [fst snd]; intros H.
  repeat (apply andb_prop in H; destruct H as [H ?]).
  unfold describe; cbn [truthy is_str py_str].
  destruct (dict_get table k) as [l'|] eqn:Hget; [|discriminate].
  match goal with E : String.eqb l' l = true |- _ =>
    apply String.eqb_eq in E; subst l' end.
  match goal with E : negb _ = true |- _ =>
    apply negb_true_iff in E; rewrite E end.
  match goal with E : str_nonempty k = true |- _ => rewrite E end.
  cbn [negb orb].
  rewrite (str_upper_ascii k H).
  match goal with E : String.eqb (ascii_upper k) k = true |- _ =>
    apply String.eqb_eq in E; rewrite E end.
  rewrite Hget.
  match goal with E : str_nonempty l = true |- _ => rewrite E end.
  reflexivity.
Qed.

Lemma describe_table table category k l :
  forallb (entry_ok table) table = true ->
  In (k, l) table ->
  describe table category (PStr k) = l.
Proof.
  intros Hall Hin. apply describe_entry.
  rewrite forallb_forall in Hall. apply Hall, Hin.
Qed.

Lemma describe_fallback table category code :
  str_nonempty code = true ->
  code <> "N/A" ->
  dict_get table (str_upper code) = None ->
  describe table category (PStr code) = category ++ " " ++ code.
Proof.
  intros Hne Hna Hget. unfold describe; cbn [truthy is_str py_str].
  rewrite Hne. apply String.eqb_neq in Hna. rewrite Hna. cbn [negb orb].
  rewrite Hget. reflexivity.
Qed.

Lemma describe_sentinel table category :
  describe table category (PStr "N/A") = "N/A".
Proof. reflexivity. Qed.

Lemma describe_empty table category :
  describe table category (PStr EmptyString) = "N/A".
Proof. reflexivity. Qed.

(** C5 (as amended).  A code that is a key of a table gets the table's label;
    a non-empty code other than "N/A" whose upper-cased form is not a key
    gets the category, a space and the code itself; "N/A" and the empty code
    give "N/A". *)
Theorem describe_code_spec :
  (forall k l, In (k, l) event_type_codes ->
     get_event_type_description (PStr k) = l) /\
  (forall k l, In (k, l) event_status_codes ->
     get_event_status_description (PStr k) = l) /\
  (forall code, str_nonempty code = true -> code <> "N/A" ->
     dict_get event_type_codes (str_upper code) = None ->
     get_event_type_description (PStr code) = "Event Type " ++ code) /\
  (forall code, str_nonempty code = true -> code <> "N/A" ->
     dict_get event_status_codes (str_upper code) = None ->
     get_event_status_description (PStr code) = "Status " ++ code) /\
  get_event_type_description (PStr "N/A") = "N/A" /\
  get_event_status_description (PStr "N/A") = "N/A" /\
  get_event_type_description (PStr EmptyString) = "N/A" /\
  get_event_status_description (PStr EmptyString) = "N/A".
Proof.
  unfold get_event_type_description, get_event_status_description.
  repeat split.
  - intros k l. apply describe_table, event_type_codes_ok.
  - intros k l. apply describe_table, event_status_codes_ok.
  - intros code. apply describe_fallback.
  - intros code. apply describe_fallback.
Qed.

(** ** The fetcher *)

(** C6.  Without a credential [get_edr_report] raises the not-authenticated
    [ValueError] and leaves the world as it was: no request is issued, no
    reply is consumed, and the outcome is not the empty dictionary of a
    failed retrieval. *)
Theorem get_edr_report_not_authenticated (event_id : string) (w : World) :
  truthy (auth_token w) = false ->
  get_edr_report event_id w = (Raise (ValueError not_authenticated_msg), w).
Proof.
  intros H. unfold get_edr_report, bind, get. rewrite H. reflexivity.
Qed.

(** ** Generic facts of the monad *)

Lemma try_except_any_total {A : Type} (c : M A) (a0 : A) (w : World) :
  exists a w', try_except c any_Exception (ret a0) w = (Ok a, w').
Proof.
  unfold try_except, any_Exception, ret.
  destruct (c w) as [[a|e] w']; eauto.
Qed.

Lemma bind_ok {A B : Type} (c : M A) (k : A -> M B) (w w' : World) (a : A) :
  c w = (Ok a, w') -> bind c k w = k a w'.
Proof. intros H. unfold bind. rewrite H. reflexivity. Qed.

Lemma bind_raise {A B : Type} (c : M A) (k : A -> M B) (w w' : World) (e : exn) :
  c w = (Raise e, w') -> bind c k w = (Raise e, w').
Proof. intros H. unfold bind. rewrite H. reflexivity. Qed.

(** ** The batch of [AutomatedEDRPrinter] *)

(** One turn of the loop always ends normally and binds the identifier. *)
Lemma process_event_total save_copies print_reports results event_id w :
  exists e w',
    process_event save_copies print_reports results event_id w
    = (Ok (dict_set results event_id e), w').
Proof.
  unfold process_event.
  destruct (process_one event_id save_copies print_reports results w)
    as [[r|e] w'] eqn:H.
  - unfold process_one in H. destruct print_reports.
    + unfold bind in H.
      destruct (generate_and_print_edr_report event_id save_copies w)
        as [[s|e] w1]; [|discriminate].
      unfold ret in H. inversion H; subst. eauto.
    + unfold bind in H.
      destruct (get_edr_report event_id w) as [[d|e] w1]; [|discriminate].
      destruct (truthy d).
      * destruct (generate_html_report d w1) as [[h|e] w2]; [|discriminate].
        destruct save_copies.
        -- destruct (now w2) as [[t|e] w3]; [|discriminate].
           destruct (save_html_report h _ w3) as [[f|e] w4]; [|discriminate].
           unfold ret in H. inversion H; subst. eauto.
        -- unfold ret in H. inversion H; subst. eauto.
      * unfold ret in H. inversion H; subst. eauto.
  - eauto.
Qed.

(** The keys a run of [dict_set] over [ids] leaves, in order. *)
Fixpoint keys_after (keys ids : list string) : list string :=
  match ids with
  | [] => keys
  | i :: rest =>
      keys_after (if existsb (String.eqb i) keys then keys else keys ++ [i])%list
        rest
  end.

Lemma dict_keys_set {V : Type} (d : list (string * V)) k v :
  dict_keys (dict_set d k v)
  = (if existsb (String.eqb k) (dict_keys d) then dict_keys d
     else dict_keys d ++ [k])%list.
Proof.
  induction d as [|[k' v'] r IH]; cbn.
  - reflexivity.
  - rewrite (String.eqb_sym k k').
    destruct (String.eqb k' k) eqn:E; cbn.
    + reflexivity.
    + unfold dict_keys in IH. rewrite IH.
      destruct (existsb (String.eqb k) (map fst r)); reflexivity.
Qed.

Lemma process_events_total save_copies print_reports ids :
  forall results w,
  exists results' w',
    process_events save_copies print_reports ids results w = (Ok results', w')
    /\ dict_keys results' = keys_after (dict_keys results) ids.
Proof.
  induction ids as [|i rest IH]; intros results w; cbn.
  - unfold ret. eauto.
  - destruct (process_event_total save_copies print_reports results i w)
      as (e & w1 & H1).
    rewrite (bind_ok _ _ _ _ _ H1).
    destruct (IH (dict_set results i e) w1) as (r' & w' & H2 & H3).
    exists r', w'. split; [exact H2|].
    rewrite H3, dict_keys_set. reflexivity.
Qed.

Lemma keys_after_fresh ids :
  forall keys, NoDup (keys ++ ids) -> keys_after keys ids = (keys ++ ids)%list.
Proof.
  induction ids as [|i rest IH]; intros keys Hnd; cbn.
  - now rewrite app_nil_r.
  - assert (Hfresh : existsb (String.eqb i) keys = false).
    { destruct (existsb (String.eqb i) keys) eqn:E; [|reflexivity].
      apply existsb_exists in E. destruct E as (x & Hin & Hx).
      apply String.eqb_eq in Hx. subst x.
      apply NoDup_remove_2 in Hnd. exfalso. apply Hnd.
      apply in_or_app. now left. }
    rewrite Hfresh. rewrite IH.
    + now rewrite <- app_assoc.
    + now rewrite <- app_assoc.
Qed.


(** ** Computations that neither read nor change the world *)

Definition pure {A : Type} (c : M A) : Prop :=
  exists r : result A, forall w, c w = (r, w).

Lemma pure_ret {A : Type} (a : A) : pure (ret a).
Proof. exists (Ok a). reflexivity. Qed.

Lemma pure_raise {A : Type} (e : exn) : pure (@raise A e).
Proof. exists (Raise e). reflexivity. Qed.

Lemma pure_bind {A B : Type} (c : M A) (k : A -> M B) :
  pure c -> (forall a, pure (k a)) -> pure (bind c k).
Proof.
  intros [r Hc] Hk. destruct r as [a|e].
  - destruct (Hk a) as [r' Hr']. exists r'. intros w.
    unfold bind. rewrite Hc. apply Hr'.
  - exists (Raise e). intros w. unfold bind. now rewrite Hc.
Qed.

Lemma pure_get_or v key default : pure (get_or v key default).
Proof.
  unfold get_or. destruct (truthy v); [|apply pure_ret].
  destruct v; first [apply pure_ret | apply pure_raise].
Qed.

Lemma pure_py_iter v : pure (py_iter v).
Proof. destruct v; first [apply pure_ret | apply pure_raise]. Qed.

Lemma pure_item_field item key : pure (item_field item key).
Proof. destruct item; first [apply pure_ret | apply pure_raise]. Qed.

Lemma pure_render_item item : pure (render_item item).
Proof.
  unfold render_item.
  repeat (apply pure_bind; [apply pure_item_field | intros ?]).
  apply pure_ret.
Qed.

Lemma pure_render_items items : forall acc, pure (render_items items acc).
Proof.
  induction items as [|i rest IH]; intros acc; cbn.
  - apply pure_ret.
  - apply pure_bind; [apply pure_render_item | intros row; apply IH].
Qed.

(** The part of [generate_html_report] that follows the reading of the
    clock, given the two formatted readings. *)
Definition render_with (report_date report_time : string) (edr_data : pyval)
  : M string :=
  event_number <- get_or edr_data "demoId" (PStr "N/A") ;;
  event_type <- get_or edr_data "demoClassCode" (PStr "N/A") ;;
  event_status <- get_or edr_data "demoStatusCode" (PStr "N/A") ;;
  event_date <- get_or edr_data "demoDate" (PStr "N/A") ;;
  event_name <- get_or edr_data "demoName" (PStr "N/A") ;;
  event_locked <- get_or edr_data "demoLockInd" (PStr "N/A") ;;
  instructions <- get_or edr_data "demoInstructions" (PDict []) ;;
  event_prep <- get_or instructions "demoPrepnTxt" (PStr "N/A") ;;
  event_portion <- get_or instructions "demoPortnTxt" (PStr "N/A") ;;
  item_details <- get_or edr_data "itemDetails" (PList []) ;;
  items <- py_iter item_details ;;
  item_rows <- render_items items EmptyString ;;
  ret (strip (html_content report_date report_time (py_str event_number)
                (py_str event_type) (py_str event_locked)
                (py_str event_status) (py_str event_date) (py_str event_name)
                item_rows (py_str event_prep) (py_str event_portion))).

Lemma generate_html_report_unfold edr_data w :
  generate_html_report edr_data w
  = render_with (strftime_date (clock w (ticks w)))
      (strftime_time (clock w (ticks w))) edr_data
      (set_ticks (S (ticks w)) w).
Proof.
  unfold generate_html_report, render_with.
  unfold bind at 1. unfold now. reflexivity.
Qed.

Lemma pure_render_with report_date report_time edr_data :
  pure (render_with report_date report_time edr_data).
Proof.
  unfold render_with.
  repeat (apply pure_bind; [apply pure_get_or | intros ?]).
  apply pure_bind; [apply pure_py_iter | intros ?].
  apply pure_bind; [apply pure_render_items | intros ?].
  apply pure_ret.
Qed.

(** The renderer reads the clock once and touches nothing else. *)
Lemma generate_html_report_world edr_data w :
  snd (generate_html_report edr_data w) = set_ticks (S (ticks w)) w.
Proof.
  rewrite generate_html_report_unfold.
  destruct (pure_render_with (strftime_date (clock w (ticks w)))
              (strftime_time (clock w (ticks w))) edr_data) as [r Hr].
  rewrite Hr. reflexivity.
Qed.

(** C8.  The markup renderer is deterministic: two renderings of one record
    under the same clock reading give the same outcome, whatever else differs
    between the two worlds; and the clock enters the outcome only through the
    date and the time stamped into the header. *)
Theorem generate_html_report_deterministic (edr_data : pyval) (w1 w2 : World) :
  (clock w1 (ticks w1) = clock w2 (ticks w2) ->
   fst (generate_html_report edr_data w1)
   = fst (generate_html_report edr_data w2)) /\
  (strftime_date (clock w1 (ticks w1)) = strftime_date (clock w2 (ticks w2)) ->
   strftime_time (clock w1 (ticks w1)) = strftime_time (clock w2 (ticks w2)) ->
   fst (generate_html_report edr_data w1)
   = fst (generate_html_report edr_data w2)).
Proof.
  assert (H2 : strftime_date (clock w1 (ticks w1))
               = strftime_date (clock w2 (ticks w2)) ->
               strftime_time (clock w1 (ticks w1))
               = strftime_time (clock w2 (ticks w2)) ->
               fst (generate_html_report edr_data w1)
               = fst (generate_html_report edr_data w2)).
  { intros Hd Ht.
    rewrite (generate_html_report_unfold edr_data w1).
    rewrite (generate_html_report_unfold edr_data w2).
    rewrite Hd, Ht.
    destruct (pure_render_with (strftime_date (clock w2 (ticks w2)))
                (strftime_time (clock w2 (ticks w2))) edr_data) as [r Hr].
    rewrite (Hr (set_ticks (S (ticks w1)) w1)).
    rewrite (Hr (set_ticks (S (ticks w2)) w2)).
    reflexivity. }
  split; [|exact H2].
  intros H. apply H2; rewrite H; reflexivity.
Qed.


(** ** The items table of the markup renderer *)

Definition is_dict (v : pyval) : bool :=
  match v with PDict _ => true | _ => false end.

(** The value of [v.get(key, default) if v else default] when [v] is a
    dictionary or is false. *)
Definition field_or (v : pyval) (key : string) (default : pyval) : pyval :=
  match v with
  | PDict d => if truthy v then py_get_default d key default else default
  | _ => default
  end.

(** The text of a field of an item, empty when the item lacks it. *)
Definition field_text (item : pyval) (key : string) : string :=
  match item with
  | PDict d => py_str (py_get_default d key (PStr EmptyString))
  | _ => EmptyString
  end.

Definition row_of (item : pyval) : string :=
  item_row (field_text item "itemNbr") (field_text item "gtin")
    (field_text item "itemDesc") (field_text item "vendorNbr")
    (field_text item "deptNbr").

Lemma str_app_assoc (a b c : string) : (a ++ b) ++ c = a ++ (b ++ c).
Proof. induction a as [|x a IH]; cbn; [reflexivity | now rewrite IH]. Qed.

Lemma str_app_empty (a : string) : a ++ EmptyString = a.
Proof. induction a as [|x a IH]; cbn; [reflexivity | now rewrite IH]. Qed.

Lemma get_or_ok v key default w :
  negb (truthy v) || is_dict v = true ->
  get_or v key default w = (Ok (field_or v key default), w).
Proof.
  unfold get_or, field_or. destruct v; cbn; intros H;
    try reflexivity; try discriminate;
    match goal with |- context [if ?b then _ else _] =>
      destruct b; try reflexivity; try discriminate end.
Qed.

Lemma render_item_ok item w :
  is_dict item = true -> render_item item w = (Ok (row_of item), w).
Proof. destruct item; try discriminate. reflexivity. Qed.

Lemma render_items_ok items :
  forallb is_dict items = true ->
  forall acc w,
    render_items items acc w
    = (Ok (acc ++ String.concat EmptyString (map row_of items)), w).
Proof.
  induction items as [|i rest IH]; intros Hall acc w.
  - cbn. now rewrite str_app_empty.
  - cbn [forallb] in Hall. apply andb_prop in Hall. destruct Hall as [Hi Hr].
    cbn [render_items].
    rewrite (bind_ok _ _ _ _ _ (render_item_ok i w Hi)).
    rewrite (IH Hr). rewrite str_app_assoc.
    replace (String.concat EmptyString (map row_of (i :: rest)))
      with (row_of i ++ String.concat EmptyString (map row_of rest)).
    + reflexivity.
    + cbn [map String.concat]. destruct (map row_of rest) eqn:E.
      * cbn. now rewrite str_app_empty.
      * reflexivity.
Qed.

(** The renderer on a record whose instructions are a dictionary (or are
    missing) and whose items are a list of dictionaries. *)
Lemma render_with_ok report_date report_time
  (d : list (string * pyval)) (items : list pyval) (w : World) :
  d <> [] ->
  py_get_default d "itemDetails" (PList []) = PList items ->
  forallb is_dict items = true ->
  (let i := py_get_default d "demoInstructions" (PDict []) in
   negb (truthy i) || is_dict i = true) ->
  let instructions := py_get_default d "demoInstructions" (PDict []) in
  render_with report_date report_time (PDict d) w
  = (Ok (strip
          (html_content report_date report_time
             (py_str (py_get_default d "demoId" (PStr "N/A")))
             (py_str (py_get_default d "demoClassCode" (PStr "N/A")))
             (py_str (py_get_default d "demoLockInd" (PStr "N/A")))
             (py_str (py_get_default d "demoStatusCode" (PStr "N/A")))
             (py_str (py_get_default d "demoDate" (PStr "N/A")))
             (py_str (py_get_default d "demoName" (PStr "N/A")))
             (String.concat EmptyString (map row_of items))
             (py_str (field_or instructions "demoPrepnTxt" (PStr "N/A")))
             (py_str (field_or instructions "demoPortnTxt" (PStr "N/A"))))),
     w).
Proof.
  intros Hne Hitems Hall Hinstr instructions.
  assert (Hd : negb (truthy (PDict d)) || is_dict (PDict d) = true)
    by (cbn; apply orb_true_r).
  assert (Hf : forall key default,
             field_or (PDict d) key default = py_get_default d key default).
  { intros key default. unfold field_or. cbn [truthy].
    destruct d; [contradiction | reflexivity]. }
  unfold render_with.
  repeat (rewrite (bind_ok _ _ _ _ _ (get_or_ok (PDict d) _ _ _ Hd)); rewrite Hf).
  fold instructions.
  rewrite (bind_ok _ _ _ _ _ (get_or_ok instructions _ _ _ Hinstr)).
  rewrite (bind_ok _ _ _ _ _ (get_or_ok instructions _ _ _ Hinstr)).
  rewrite (bind_ok _ _ _ _ _ (get_or_ok (PDict d) _ _ _ Hd)); rewrite Hf.
  rewrite Hitems.
  unfold py_iter. unfold ret at 1.
  unfold bind at 1.
  rewrite (bind_ok _ _ _ _ _ (render_items_ok items Hall EmptyString _)).
  reflexivity.
Qed.

(** ** The frame of the rendered document *)

Definition doctype : string := "<!DOCTYPE html>".
Definition html_close : string := "</html>".

(** The blanks that follow the closing tag in the template. *)
Definition doc_tail : string := nl ++ "        ".

Lemma all_space_app_r (a b : string) :
  all_space b = false -> all_space (a ++ b) = false.
Proof.
  intros Hb. induction a as [|c a IH]; cbn; [exact Hb|].
  destruct (is_space c); [exact IH | reflexivity].
Qed.

Lemma rstrip_app_r (a b : string) :
  all_space b = false -> rstrip (a ++ b) = a ++ rstrip b.
Proof.
  intros Hb. induction a as [|c a IH]; [reflexivity|].
  change ((String c a) ++ b) with (String c (a ++ b)).
  cbn [rstrip].
  assert (H : all_space (String c (a ++ b)) = false).
  { cbn [all_space]. destruct (is_space c); [|reflexivity].
    now apply all_space_app_r. }
  rewrite H, IH. reflexivity.
Qed.

(** A text that ends with the closing tag and the blanks of the template. *)
Definition ends_document (s : string) : Prop :=
  exists u, s = u ++ html_close ++ doc_tail.

Lemma ends_document_app (a s : string) :
  ends_document s -> ends_document (a ++ s).
Proof.
  intros [u Hu]. exists (a ++ u). rewrite Hu. now rewrite str_app_assoc.
Qed.

Lemma html_text_12_ends : ends_document html_text_12.
Proof.
  exists (substring 0 (String.length html_text_12 - 16) html_text_12).
  vm_compute. reflexivity.
Qed.

Lemma html_text_0_starts :
  html_text_0
  = nl ++ doctype ++ substring 16 (String.length html_text_0 - 16) html_text_0.
Proof. vm_compute. reflexivity. Qed.

Lemma strip_document (rest0 t : string) :
  ends_document t ->
  exists mid, strip (nl ++ doctype ++ rest0 ++ t) = doctype ++ mid ++ html_close.
Proof.
  intros Ht.
  destruct (ends_document_app rest0 t Ht) as [u Hu].
  exists u. unfold strip.
  change (lstrip (nl ++ doctype ++ rest0 ++ t)) with (doctype ++ rest0 ++ t).
  rewrite Hu. rewrite <- str_app_assoc.
  rewrite rstrip_app_r by reflexivity.
  change (rstrip (html_close ++ doc_tail)) with html_close.
  now rewrite str_app_assoc.
Qed.

Lemma concat_empty_cons (x : string) (xs : list string) :
  String.concat EmptyString (x :: xs) = x ++ String.concat EmptyString xs.
Proof.
  destruct xs as [|y ys].
  - cbn [String.concat]. now rewrite str_app_empty.
  - reflexivity.
Qed.

(** ** The layout of the rendered document *)

(** A labelled value of the header: the label, then the value in a [span]
    of class [demo-text]. *)
Definition shown (label value : string) : string :=
  label ++ q [" <span class="; "demo-text"; ">"] ++ value ++ "</span>".

(** The items table: its opening, with the row of headings, up to the start
    of its body; and its end. *)
Definition items_table_open : string :=
  q ["<table id="; "new_event"; ">
                <thead>
                    <tr class="; "demo-table-header"; ">
                        <th>Item Number</th>
                        <th>Primary Item Number</th>
                        <th>Description</th>
                        <th>Vendor</th>
                        <th>Category</th>
                    </tr>
                </thead>
                <tbody>
                    "].

Definition items_table_close : string :=
  "
                </tbody>
            </table>".

(** A row of the body of the table: a [tr] of class [edr-wrapper] holding
    one [td] of class [report-table-content] for each text, in their order,
    each on a line of its own. *)
Definition indent (n : nat) : string := nl ++ str_repeat " " n.

Definition row_open : string := q ["<tr class="; "edr-wrapper"; ">"].

Definition cell (text : string) : string :=
  q ["<td class="; "report-table-content"; ">"] ++ text ++ "</td>".

Definition table_row (texts : list string) : string :=
  indent 16 ++ row_open ++
  String.concat EmptyString (map (fun text => indent 20 ++ cell text) texts) ++
  indent 16 ++ "</tr>" ++ indent 12.

(** The row of an item: its five fields, a missing one being empty. *)
Definition shown_row (item : pyval) : string :=
  table_row [ field_text item "itemNbr"; field_text item "gtin";
              field_text item "itemDesc"; field_text item "vendorNbr";
              field_text item "deptNbr" ].

(** An item none of whose five fields holds the sign that opens a tag. *)
Definition plain (item : pyval) : bool :=
  forallb (fun key => negb (contains "<" (field_text item key)))
    ["itemNbr"; "gtin"; "itemDesc"; "vendorNbr"; "deptNbr"].

Lemma item_row_table_row (a b c d e : string) :
  item_row a b c d e = table_row [a; b; c; d; e].
Proof.
  unfold item_row, table_row, cell, indent, row_open.
  unfold row_text_0, row_text_1, row_text_2, row_text_3, row_text_4,
    row_text_5, q, nl, dq.
  cbn [map String.concat str_repeat].
  rewrite !str_app_assoc. cbn [append]. rewrite ?str_app_empty.
  reflexivity.
Qed.

Lemma row_of_shown_row (item : pyval) : row_of item = shown_row item.
Proof. apply item_row_table_row. Qed.

(** The template around its fields. *)
Lemma html_text_3_ends :
  html_text_3
  = substring 0 (String.length html_text_3 - 35) html_text_3
    ++ "Event Type" ++ q [" <span class="; "demo-text"; ">"].
Proof. vm_compute. reflexivity. Qed.

Lemma html_text_4_starts :
  html_text_4
  = "</span>" ++ substring 7 (String.length html_text_4 - 7) html_text_4.
Proof. vm_compute. reflexivity. Qed.

Lemma html_text_5_ends :
  html_text_5
  = substring 0 (String.length html_text_5 - 37) html_text_5
    ++ "Event Status" ++ q [" <span class="; "demo-text"; ">"].
Proof. vm_compute. reflexivity. Qed.

Lemma html_text_6_starts :
  html_text_6
  = "</span>" ++ substring 7 (String.length html_text_6 - 7) html_text_6.
Proof. vm_compute. reflexivity. Qed.

Lemma html_text_9_ends :
  html_text_9
  = substring 0 (String.length html_text_9
                 - String.length items_table_open) html_text_9
    ++ items_table_open.
Proof. vm_compute. reflexivity. Qed.

Lemma html_text_10_starts :
  html_text_10
  = items_table_close
    ++ substring (String.length items_table_close)
         (String.length html_text_10 - String.length items_table_close)
         html_text_10.
Proof. vm_compute. reflexivity. Qed.

Lemma html_text_12_split :
  html_text_12
  = substring 0 (String.length html_text_12 - 16) html_text_12
    ++ html_close ++ doc_tail.
Proof. vm_compute. reflexivity. Qed.

Lemma strip_document_eq (rest0 : string) :
  strip (nl ++ doctype ++ rest0 ++ html_close ++ doc_tail)
  = doctype ++ rest0 ++ html_close.
Proof.
  unfold strip.
  change (lstrip (nl ++ doctype ++ rest0 ++ html_close ++ doc_tail))
    with (doctype ++ rest0 ++ html_close ++ doc_tail).
  rewrite <- (str_app_assoc doctype rest0).
  rewrite (rstrip_app_r (doctype ++ rest0) (html_close ++ doc_tail))
    by reflexivity.
  change (rstrip (html_close ++ doc_tail)) with html_close.
  apply str_app_assoc.
Qed.

(** Where the fields stand in the document: the type and the status of the
    event each after its label, and the rows as the body of the items
    table. *)
Lemma html_content_layout a1 a2 a3 a4 a5 a6 a7 a8 a9 a10 a11 :
  exists head mid1 mid2 tail,
    strip (html_content a1 a2 a3 a4 a5 a6 a7 a8 a9 a10 a11)
    = head ++ shown "Event Type" a4 ++ mid1 ++ shown "Event Status" a6 ++
      mid2 ++ items_table_open ++ a9 ++ items_table_close ++ tail.
Proof.
  set (t0 := substring 16 (String.length html_text_0 - 16) html_text_0).
  set (t3 := substring 0 (String.length html_text_3 - 35) html_text_3).
  set (t4 := substring 7 (String.length html_text_4 - 7) html_text_4).
  set (t5 := substring 0 (String.length html_text_5 - 37) html_text_5).
  set (t6 := substring 7 (String.length html_text_6 - 7) html_text_6).
  set (t9 := substring 0 (String.length html_text_9
                          - String.length items_table_open) html_text_9).
  set (t10 := substring (String.length items_table_close)
                (String.length html_text_10 - String.length items_table_close)
                html_text_10).
  set (t12 := substring 0 (String.length html_text_12 - 16) html_text_12).
  exists (doctype ++ t0 ++ a1 ++ html_text_1 ++ a2 ++ html_text_2 ++ a3 ++ t3),
         (t4 ++ a5 ++ t5),
         (t6 ++ a7 ++ html_text_7 ++ a8 ++ html_text_8 ++ a8 ++ t9),
         (t10 ++ a10 ++ html_text_11 ++ a11 ++ t12 ++ html_close).
  unfold html_content.
  rewrite !concat_empty_cons.
  change (String.concat EmptyString []) with EmptyString.
  rewrite (str_app_empty html_text_12).
  rewrite html_text_0_starts, html_text_3_ends, html_text_4_starts,
    html_text_5_ends, html_text_6_starts, html_text_9_ends,
    html_text_10_starts, html_text_12_split.
  fold t0 t3 t4 t5 t6 t9 t10 t12.
  unfold shown.
  transitivity
    (strip (nl ++ doctype ++
            (t0 ++ a1 ++ html_text_1 ++ a2 ++ html_text_2 ++ a3 ++ t3 ++
             "Event Type" ++ q [" <span class="; "demo-text"; ">"] ++ a4 ++
             "</span>" ++ t4 ++ a5 ++ t5 ++
             "Event Status" ++ q [" <span class="; "demo-text"; ">"] ++ a6 ++
             "</span>" ++ t6 ++ a7 ++ html_text_7 ++ a8 ++ html_text_8 ++
             a8 ++ t9 ++ items_table_open ++ a9 ++ items_table_close ++
             t10 ++ a10 ++ html_text_11 ++ a11 ++ t12) ++
            html_close ++ doc_tail)).
  - f_equal. rewrite !str_app_assoc. reflexivity.
  - rewrite strip_document_eq. rewrite !str_app_assoc. reflexivity.
Qed.

(** Counting the rows in a text. *)
Lemma occurrences_skip (text rest : string) :
  contains "<" text = false ->
  occurrences row_open (text ++ rest) = occurrences row_open rest.
Proof.
  induction text as [|c text IH]; intros H; [reflexivity|].
  cbn [contains] in H. apply orb_false_elim in H. destruct H as [Hc Ht].
  change (String c text ++ rest) with (String c (text ++ rest)).
  cbn [occurrences]. rewrite (IH Ht).
  unfold row_open, q, dq. cbn [String.concat append].
  cbn [prefix] in Hc |- *.
  revert Hc. destruct (ascii_dec "<" c); [|reflexivity].
  destruct text; discriminate.
Qed.

Lemma occurrences_row_text_0 (rest : string) :
  occurrences row_open (row_text_0 ++ rest) = S (occurrences row_open rest).
Proof. vm_compute. reflexivity. Qed.

Lemma occurrences_row_text_1 (rest : string) :
  occurrences row_open (row_text_1 ++ rest) = occurrences row_open rest.
Proof. vm_compute. reflexivity. Qed.

Lemma occurrences_row_text_5 (rest : string) :
  occurrences row_open (row_text_5 ++ rest) = occurrences row_open rest.
Proof. vm_compute. reflexivity. Qed.

Lemma occurrences_item_row (a b c d e rest : string) :
  contains "<" a = false -> contains "<" b = false ->
  contains "<" c = false -> contains "<" d = false ->
  contains "<" e = false ->
  occurrences row_open (item_row a b c d e ++ rest)
  = S (occurrences row_open rest).
Proof.
  intros Ha Hb Hc Hd He. unfold item_row.
  rewrite !concat_empty_cons.
  change (String.concat EmptyString []) with EmptyString.
  rewrite (str_app_empty row_text_5). rewrite !str_app_assoc.
  change row_text_2 with row_text_1. change row_text_3 with row_text_1.
  change row_text_4 with row_text_1.
  rewrite occurrences_row_text_0, (occurrences_skip a _ Ha).
  rewrite occurrences_row_text_1, (occurrences_skip b _ Hb).
  rewrite occurrences_row_text_1, (occurrences_skip c _ Hc).
  rewrite occurrences_row_text_1, (occurrences_skip d _ Hd).
  rewrite occurrences_row_text_1, (occurrences_skip e _ He).
  now rewrite occurrences_row_text_5.
Qed.

Lemma occurrences_rows (items : list pyval) :
  forallb plain items = true ->
  occurrences row_open (String.concat EmptyString (map shown_row items))
  = length items.
Proof.
  induction items as [|item items IH]; intros H; [reflexivity|].
  cbn [forallb] in H. apply andb_prop in H. destruct H as [Hi Hr].
  cbn [map length]. rewrite concat_empty_cons.
  rewrite <- row_of_shown_row. unfold row_of.
  unfold plain in Hi. cbn [forallb] in Hi.
  repeat (apply andb_prop in Hi; destruct Hi as [?H Hi]).
  rewrite occurrences_item_row by (now apply negb_true_iff).
  now rewrite (IH Hr).
Qed.

(** C10 (as amended).  For an event record whose [itemDetails] is a list of
    item records, the body of the items table of the rendered document is,
    in the order of the list, one row for each item, holding its [itemNbr],
    [gtin], [itemDesc], [vendorNbr] and [deptNbr], a missing field being
    empty; no item gives an empty body.  The fields are put in as they are:
    when none of them holds the sign that opens a tag, the rows of the body
    are as many as the items. *)
Theorem generate_html_report_item_rows
  (d : list (string * pyval)) (items : list pyval) (w : World) :
  d <> [] ->
  py_get_default d "itemDetails" (PList []) = PList items ->
  forallb is_dict items = true ->
  (let i := py_get_default d "demoInstructions" (PDict []) in
   negb (truthy i) || is_dict i = true) ->
  let body := String.concat EmptyString (map shown_row items) in
  (exists head tail,
     fst (generate_html_report (PDict d) w)
     = Ok (head ++ items_table_open ++ body ++ items_table_close ++ tail)) /\
  (items = [] -> body = EmptyString) /\
  (forallb plain items = true ->
   occurrences row_open body = length items).
Proof.
  intros Hne Hitems Hall Hinstr body. split; [|split].
  - rewrite generate_html_report_unfold.
    rewrite (render_with_ok _ _ d items _ Hne Hitems Hall Hinstr).
    cbn [fst].
    match goal with
    | |- context [strip (html_content ?a1 ?a2 ?a3 ?a4 ?a5 ?a6 ?a7 ?a8 ?a9
                           ?a10 ?a11)] =>
        destruct (html_content_layout a1 a2 a3 a4 a5 a6 a7 a8 a9 a10 a11)
          as (head & mid1 & mid2 & tail & Heq)
    end.
    rewrite Heq.
    exists (head ++ shown "Event Type"
                      (py_str (py_get_default d "demoClassCode" (PStr "N/A")))
            ++ mid1
            ++ shown "Event Status"
                 (py_str (py_get_default d "demoStatusCode" (PStr "N/A")))
            ++ mid2), tail.
    f_equal. rewrite !str_app_assoc.
    replace (map row_of items) with (map shown_row items)
      by (apply map_ext; intros; symmetry; apply row_of_shown_row).
    reflexivity.
  - intros ->. reflexivity.
  - apply occurrences_rows.
Qed.

(** ** What rendering, saving and printing leave alone *)

(** The credential, the portal's script, the requests issued and the
    permissions of the file system are the same in [w'] as in [w]. *)
Definition same_session (w w' : World) : Prop :=
  auth_token w' = auth_token w /\ portal w' = portal w /\
  sent w' = sent w /\ write_denied w' = write_denied w.

Definition keeps {A : Type} (c : M A) : Prop :=
  forall w, same_session w (snd (c w)).

Lemma same_session_refl w : same_session w w.
Proof. repeat split. Qed.

Lemma same_session_trans w1 w2 w3 :
  same_session w1 w2 -> same_session w2 w3 -> same_session w1 w3.
Proof.
  unfold same_session. intros (a & b & c & d) (a' & b' & c' & d').
  repeat split; congruence.
Qed.

Lemma keeps_ret {A : Type} (a : A) : keeps (ret a).
Proof. intros w. apply same_session_refl. Qed.

Lemma keeps_raise {A : Type} (e : exn) : keeps (@raise A e).
Proof. intros w. apply same_session_refl. Qed.

Lemma keeps_get {A : Type} (f : World -> A) : keeps (get f).
Proof. intros w. apply same_session_refl. Qed.

Lemma keeps_bind {A B : Type} (c : M A) (k : A -> M B) :
  keeps c -> (forall a, keeps (k a)) -> keeps (bind c k).
Proof.
  intros Hc Hk w. unfold bind. specialize (Hc w).
  destruct (c w) as [[a|e] w1]; cbn in *.
  - eapply same_session_trans; [exact Hc | apply Hk].
  - exact Hc.
Qed.

Lemma keeps_try {A : Type} (c : M A) (f : exn -> bool) (h : M A) :
  keeps c -> keeps h -> keeps (try_except c f h).
Proof.
  intros Hc Hh w. unfold try_except. specialize (Hc w).
  destruct (c w) as [[a|e] w1]; cbn in *.
  - exact Hc.
  - destruct (f e); cbn.
    + eapply same_session_trans; [exact Hc | apply Hh].
    + exact Hc.
Qed.

Lemma keeps_now : keeps now.
Proof. intros w. repeat split. Qed.

Lemma keeps_write_file path c : keeps (write_file path c).
Proof.
  intros w. unfold write_file.
  destruct (write_denied w path);
    [destruct (write_breaks w path) as [e|e n]|]; repeat split.
Qed.

Lemma keeps_os_remove path : keeps (os_remove path).
Proof.
  intros w. unfold os_remove.
  destruct (negb (file_exists w path)); [repeat split|].
  destruct (remove_denied w path); repeat split.
Qed.

Lemma keeps_subprocess_run args : keeps (subprocess_run args).
Proof.
  intros w. unfold subprocess_run. destruct (run_process w args); repeat split.
Qed.

Ltac keeps_step :=
  first
    [ apply keeps_ret | apply keeps_raise | apply keeps_get | apply keeps_now
    | apply keeps_write_file | apply keeps_os_remove
    | apply keeps_subprocess_run
    | apply keeps_try
    | apply keeps_bind; [|intros ?]
    | match goal with
      | |- keeps (if ?b then _ else _) => destruct b
      | |- keeps (match ?x with _ => _ end) => destruct x
      end ].

Lemma keeps_generate_html_report edr_data : keeps (generate_html_report edr_data).
Proof.
  intros w. rewrite generate_html_report_world. repeat split.
Qed.

Lemma keeps_save_html_report html filename : keeps (save_html_report html filename).
Proof. unfold save_html_report. repeat keeps_step. Qed.

Lemma keeps_print_dispatch path : keeps (print_dispatch path).
Proof.
  unfold print_dispatch, or_else, _print_on_windows_simple,
    _print_on_windows_advanced, _print_on_windows_fallback, _print_on_macos,
    _print_on_linux.
  repeat keeps_step.
Qed.

Lemma keeps_print_html_report html temp_filename :
  keeps (print_html_report html temp_filename).
Proof.
  unfold print_html_report.
  apply keeps_try; [|apply keeps_ret].
  apply keeps_bind; [repeat keeps_step | intros name].
  apply keeps_bind; [apply keeps_get | intros dir].
  apply keeps_bind; [apply keeps_write_file | intros _].
  apply keeps_bind; [apply keeps_print_dispatch | intros r].
  repeat keeps_step.
Qed.


(** ** One request per identifier *)

Definition edr_url (event_id : string) : string :=
  base_url ++ "/api/edrReport?id=" ++ event_id.

(** What [get_edr_report] makes of a reply: the body when the status is no
    error and the body is JSON, the empty dictionary otherwise. *)
Definition fetched (r : reply) : pyval :=
  match r with
  | NoReply => PDict []
  | Reply r =>
      if ((400 <=? status_code r) && (status_code r <? 600))%Z then PDict []
      else match json_body r with Some v => v | None => PDict [] end
  end.

(** The fetch of an identifier fails when it brings no data. *)
Definition fetch_ok (r : reply) : bool := truthy (fetched r).

Lemma get_edr_report_run event_id w :
  truthy (auth_token w) = true ->
  exists w1,
    get_edr_report event_id w = (Ok (fetched (hd NoReply (portal w))), w1) /\
    auth_token w1 = auth_token w /\ portal w1 = tl (portal w) /\
    sent w1 = (sent w ++ [edr_url event_id])%list /\
    write_denied w1 = write_denied w.
Proof.
  intros Htok. unfold get_edr_report. unfold bind at 1. unfold get.
  rewrite Htok. cbn [negb].
  unfold try_except, bind, session_request, fetched. fold (edr_url event_id).
  destruct (portal w) as [|[|r] rest] eqn:Hp; cbn [hd tl].
  - eexists; split; [reflexivity|]. repeat split; cbn; auto.
  - eexists; split; [reflexivity|]. repeat split; cbn; auto.
  - unfold raise_for_status.
    destruct ((400 <=? status_code r) && (status_code r <? 600))%Z.
    + eexists; split; [reflexivity|]. repeat split; cbn; auto.
    + unfold ret, response_json. destruct (json_body r).
      * eexists; split; [reflexivity|]. repeat split; cbn; auto.
      * eexists; split; [reflexivity|]. repeat split; cbn; auto.
Qed.

(** [generate_and_print_edr_report] after its request. *)
Definition print_after_fetch (event_id : string) (save_copies : bool)
  (edr_data : pyval) : M bool :=
  if negb (truthy edr_data) then ret false else
  html_report <- generate_html_report edr_data ;;
  if negb (str_nonempty html_report) then ret false else
  saved_file <-
    (if save_copies then
       t <- now ;;
       f <- save_html_report html_report
              (Some ("edr_report_" ++ event_id ++ "_" ++ strftime_stamp t ++ ".html")) ;;
       ret (Some f)
     else ret None) ;;
  print_success <- print_html_report html_report None ;;
  if print_success then ret true else ret false.

(** The rest of one turn of the loop, once the data is there. *)
Definition after_fetch (event_id : string) (save_copies print_reports : bool)
  (results : results_t) (edr_data : pyval) : M results_t :=
  if print_reports then
    success <- print_after_fetch event_id save_copies edr_data ;;
    ret (dict_set results event_id
           (mk_entry success success success
              (if success then save_copies else false) None None))
  else
    if truthy edr_data then
      html_report <- generate_html_report edr_data ;;
      saved_file <-
        (if save_copies then
           t <- now ;;
           f <- save_html_report html_report
                  (Some ("edr_report_" ++ event_id ++ "_" ++ strftime_stamp t
                         ++ ".html")) ;;
           ret (Some f)
         else ret None) ;;
      ret (dict_set results event_id
             (mk_entry true true false
                (match saved_file with Some _ => true | None => false end)
                (Some saved_file) None))
    else
      ret (dict_set results event_id
             (failed_entry "Failed to retrieve EDR data")).

Lemma bind_assoc {A B C : Type} (c : M A) (k : A -> M B) (g : B -> M C) w :
  bind (bind c k) g w = bind c (fun a => bind (k a) g) w.
Proof. unfold bind. destruct (c w) as [[a|e] w1]; reflexivity. Qed.

Lemma bind_cong_l {A B : Type} (c c' : M A) (k : A -> M B) w :
  c w = c' w -> bind c k w = bind c' k w.
Proof. unfold bind. intros H. rewrite H. reflexivity. Qed.

Lemma generate_and_print_after_fetch event_id save_copies w :
  truthy (auth_token w) = true ->
  generate_and_print_edr_report event_id save_copies w
  = bind (get_edr_report event_id) (print_after_fetch event_id save_copies) w.
Proof.
  intros Htok. unfold generate_and_print_edr_report.
  unfold bind at 1. unfold get. rewrite Htok. cbn [negb].
  reflexivity.
Qed.

Lemma process_one_after_fetch event_id save_copies print_reports results w :
  truthy (auth_token w) = true ->
  process_one event_id save_copies print_reports results w
  = bind (get_edr_report event_id)
      (after_fetch event_id save_copies print_reports results) w.
Proof.
  intros Htok. unfold process_one, after_fetch. destruct print_reports.
  - rewrite (bind_cong_l _ _ _ _
               (generate_and_print_after_fetch event_id save_copies w Htok)).
    apply bind_assoc.
  - reflexivity.
Qed.

Lemma keeps_print_after_fetch event_id save_copies edr_data :
  keeps (print_after_fetch event_id save_copies edr_data).
Proof.
  unfold print_after_fetch.
  destruct (negb (truthy edr_data)); [apply keeps_ret|].
  apply keeps_bind; [apply keeps_generate_html_report | intros h].
  destruct (negb (str_nonempty h)); [apply keeps_ret|].
  apply keeps_bind.
  - destruct save_copies; [|apply keeps_ret].
    apply keeps_bind; [apply keeps_now | intros t].
    apply keeps_bind; [apply keeps_save_html_report | intros; apply keeps_ret].
  - intros s. apply keeps_bind; [apply keeps_print_html_report | intros p].
    destruct p; apply keeps_ret.
Qed.

Lemma keeps_after_fetch event_id save_copies print_reports results edr_data :
  keeps (after_fetch event_id save_copies print_reports results edr_data).
Proof.
  unfold after_fetch. destruct print_reports.
  - apply keeps_bind; [apply keeps_print_after_fetch | intros; apply keeps_ret].
  - destruct (truthy edr_data); [|apply keeps_ret].
    apply keeps_bind; [apply keeps_generate_html_report | intros h].
    apply keeps_bind; [|intros; apply keeps_ret].
    destruct save_copies; [|apply keeps_ret].
    apply keeps_bind; [apply keeps_now | intros t].
    apply keeps_bind; [apply keeps_save_html_report | intros; apply keeps_ret].
Qed.


(** ** Counting the outcomes of a batch *)

(** A record the renderer accepts: a non-empty dictionary whose instructions,
    when present, are a dictionary and whose items are a list of
    dictionaries. *)
Definition well_formed (v : pyval) : bool :=
  match v with
  | PDict d =>
      (let i := py_get_default d "demoInstructions" (PDict []) in
       negb (truthy i) || is_dict i) &&
      match py_get_default d "itemDetails" (PList []) with
      | PList items => forallb is_dict items
      | _ => false
      end
  | _ => false
  end.

Lemma generate_html_report_ok v w :
  truthy v = true -> well_formed v = true ->
  exists html,
    generate_html_report v w = (Ok html, set_ticks (S (ticks w)) w).
Proof.
  intros Ht Hwf. destruct v as [| | | | |l|d]; try discriminate.
  cbn [well_formed] in Hwf. apply andb_prop in Hwf. destruct Hwf as [Hi Hit].
  destruct (py_get_default d "itemDetails" (PList [])) as [| | | | |items|]
    eqn:Hitems; try discriminate.
  assert (Hne : d <> []) by (destruct d; [discriminate | congruence]).
  rewrite generate_html_report_unfold.
  rewrite (render_with_ok _ _ d items _ Hne Hitems Hit Hi).
  eexists. reflexivity.
Qed.

Lemma after_fetch_result event_id save_copies print_reports results d w r w' :
  after_fetch event_id save_copies print_reports results d w = (Ok r, w') ->
  exists e, r = dict_set results event_id e /\
            (success e = true -> truthy d = true).
Proof.
  unfold after_fetch. destruct print_reports.
  - unfold bind at 1.
    destruct (print_after_fetch event_id save_copies d w) as [[s|e] w1] eqn:Hp;
      [|discriminate].
    unfold ret. intros H. inversion H; subst. eexists. split; [reflexivity|].
    cbn [success]. intros ->.
    unfold print_after_fetch in Hp. destruct (truthy d); [reflexivity|].
    cbn [negb] in Hp. unfold ret in Hp. discriminate.
  - destruct (truthy d).
    + unfold bind at 1.
      destruct (generate_html_report d w) as [[h|e] w1]; [|discriminate].
      unfold bind at 1.
      match goal with |- context [match ?c w1 with _ => _ end] =>
        destruct (c w1) as [[f|e] w2]; [|discriminate] end.
      unfold ret. intros H. inversion H; subst. eexists. split; reflexivity.
    + unfold ret. intros H. inversion H; subst. eexists.
      split; [reflexivity|]. cbn. discriminate.
Qed.

Lemma process_event_step save_copies print_reports results event_id w :
  truthy (auth_token w) = true ->
  exists e w',
    process_event save_copies print_reports results event_id w
    = (Ok (dict_set results event_id e), w') /\
    auth_token w' = auth_token w /\ portal w' = tl (portal w) /\
    sent w' = (sent w ++ [edr_url event_id])%list /\
    write_denied w' = write_denied w /\
    (success e = true -> fetch_ok (hd NoReply (portal w)) = true).
Proof.
  intros Htok.
  destruct (get_edr_report_run event_id w Htok) as (w1 & Hrun & Ha & Hp & Hs & Hw).
  unfold process_event.
  rewrite (process_one_after_fetch _ _ _ _ _ Htok).
  rewrite (bind_ok _ _ _ _ _ Hrun).
  pose proof (keeps_after_fetch event_id save_copies print_reports results
                (fetched (hd NoReply (portal w))) w1) as Hk.
  destruct (after_fetch event_id save_copies print_reports results
              (fetched (hd NoReply (portal w))) w1) as [[r|e] w2] eqn:HK;
    cbn [snd] in Hk; destruct Hk as (Ka & Kp & Ks & Kw).
  - destruct (after_fetch_result _ _ _ _ _ _ _ _ HK) as (e & -> & Hsucc).
    exists e, w2. repeat split; try congruence. exact Hsucc.
  - exists (failed_entry (exn_str e)), w2. repeat split; try congruence.
    cbn. discriminate.
Qed.



(** The replies that answer the requests of [n] identifiers: the next [n]
    of the portal's script, a missing one being a failed connection. *)
Fixpoint replies_for (n : nat) (p : list reply) : list reply :=
  match n with
  | O => []
  | S k => hd NoReply p :: replies_for k (tl p)
  end.






Lemma filter_negb_length {A : Type} (f : A -> bool) (l : list A) :
  length (filter f l) + length (filter (fun x => negb (f x)) l) = length l.
Proof.
  induction l as [|x l IH]; cbn; [reflexivity|].
  destruct (f x); cbn; lia.
Qed.





(** ** The verdict of a batch *)

(** C9.  A batch that processes no event reports success: with a credential
    and an empty list of identifiers, or with no credential when
    authentication is skipped, the record of results is empty,
    [all_successful] holds of it, and the run returns [True] (exit status
    0). *)
Theorem run_automated_batch_vacuous
  (event_ids : option (list string)) (do_authenticate : bool) (w : World) :
  (truthy (auth_token w) = false /\ do_authenticate = false) \/
  (truthy (auth_token w) = true /\ event_ids = Some []) ->
  fst (run_automated_batch event_ids do_authenticate w) = Ok true /\
  fst (process_event_list event_ids true true w) = Ok [] /\
  all_successful [] = true /\
  exit_status (run_automated_batch event_ids do_authenticate) w = 0%Z.
Proof.
  intros H.
  assert (Hrun : fst (run_automated_batch event_ids do_authenticate w) = Ok true
                 /\ fst (process_event_list event_ids true true w) = Ok []).
  { unfold run_automated_batch, process_event_list, bind, now, get.
    cbn -[process_events authenticate_once].
    destruct H as [[Htok Hauth] | [Htok Hids]].
    - subst do_authenticate. rewrite Htok.
      cbn -[process_events authenticate_once]. rewrite ?Htok.
      cbn. split; reflexivity.
    - subst event_ids. rewrite Htok, andb_false_r.
      cbn -[process_events authenticate_once]. rewrite ?Htok.
      cbn. split; reflexivity. }
  destruct Hrun as [Hrun Hpel].
  repeat split; try assumption.
  unfold exit_status. rewrite Hrun. reflexivity.
Qed.

(** What both batch runners do first: note the time and authenticate when
    asked to and no credential is there. *)
Definition batch_prologue (do_authenticate : bool) : M bool :=
  _ <- now ;;
  token <- get auth_token ;;
  if do_authenticate && negb (truthy token) then authenticate_once
  else ret true.

Lemma process_event_list_total event_ids save_copies print_reports w :
  exists results w',
    process_event_list event_ids save_copies print_reports w
    = (Ok results, w').
Proof.
  unfold process_event_list, bind, get.
  destruct (negb (truthy (auth_token w))).
  - unfold ret. eauto.
  - destruct (process_events_total save_copies print_reports
                match event_ids with
                | Some l => l
                | None => DEFAULT_EVENT_IDS
                end [] w) as (r & w' & H & _).
    eauto.
Qed.

Lemma collect_event_total st event_id w :
  exists st' w', collect_event st event_id w = (Ok st', w').
Proof. unfold collect_event. apply try_except_any_total. Qed.

Lemma collect_events_total event_ids :
  forall st w, exists st' w', collect_events event_ids st w = (Ok st', w').
Proof.
  induction event_ids as [|i rest IH]; intros st w; cbn.
  - unfold ret. eauto.
  - destruct (collect_event_total st i w) as (st1 & w1 & H1).
    rewrite (bind_ok _ _ _ _ _ H1). apply IH.
Qed.

Lemma create_consolidated_pdf_total event_data_list html_reports w :
  exists r w',
    create_consolidated_pdf event_data_list html_reports w = (Ok r, w').
Proof. unfold create_consolidated_pdf. apply try_except_any_total. Qed.

Lemma print_pdf_file_total pdf_path w :
  exists b w', print_pdf_file pdf_path w = (Ok b, w').
Proof.
  unfold print_pdf_file. unfold bind at 1. unfold get.
  apply try_except_any_total.
Qed.

Lemma open_pdf_file_total pdf_path w :
  exists b w', open_pdf_file pdf_path w = (Ok b, w').
Proof.
  unfold open_pdf_file. unfold bind at 1. unfold get.
  apply try_except_any_total.
Qed.

Lemma run_automated_batch_prologue event_ids do_authenticate w :
  run_automated_batch event_ids do_authenticate w
  = bind (batch_prologue do_authenticate)
      (fun proceed =>
         if negb proceed then ret false else
         results <- process_event_list event_ids true true ;;
         _ <- now ;;
         ret (all_successful results)) w.
Proof.
  unfold run_automated_batch, batch_prologue.
  unfold bind at 1. unfold bind at 6. unfold bind at 6. unfold now at 1 3.
  unfold bind at 1. unfold bind at 4. unfold bind at 4. unfold get.
  reflexivity.
Qed.


Lemma prologue_shape {B : Type} (P : pyval -> M bool) (K : bool -> M B) w :
  bind now (fun _ => bind (get auth_token) (fun token => bind (P token) K)) w
  = bind (bind now (fun _ => bind (get auth_token) P)) K w.
Proof.
  unfold bind, now, get.
  destruct (P (auth_token (set_ticks (S (ticks w)) w))
              (set_ticks (S (ticks w)) w)) as [[b|e] w1]; reflexivity.
Qed.

Lemma run_enhanced_batch_prologue event_ids do_authenticate create_pdf
  auto_print open_pdf w :
  run_enhanced_batch event_ids do_authenticate create_pdf auto_print open_pdf w
  = bind (batch_prologue do_authenticate)
      (fun proceed =>
         if negb proceed then ret false else
         st <- collect_events
                 match event_ids with
                 | None => DEFAULT_EVENT_IDS
                 | Some l => l
                 end ([], []) ;;
         match fst st with
         | [] => ret false
         | _ =>
             created <-
               (if create_pdf
                then create_consolidated_pdf (fst st) (snd st)
                else ret (Some EmptyString)) ;;
             match created with
             | None => ret false
             | Some pdf_path =>
                 (if auto_print && str_nonempty pdf_path
                  then print_pdf_file pdf_path ;;; ret tt else ret tt) ;;;
                 (if open_pdf && str_nonempty pdf_path
                  then open_pdf_file pdf_path ;;; ret tt else ret tt) ;;;
                 _ <- now ;;
                 ret (0 <? length (fst st))%nat
             end
         end) w.
Proof.
  unfold run_enhanced_batch, batch_prologue.
  apply (prologue_shape
           (fun token =>
              if do_authenticate && negb (truthy token)
              then authenticate_once else ret true)).
Qed.

(** After the PDF is there, printing and opening it cannot change the
    verdict. *)
Lemma enhanced_epilogue_total auto_print open_pdf pdf_path (b : bool) w :
  exists w',
    ((if auto_print && str_nonempty pdf_path
      then print_pdf_file pdf_path ;;; ret tt else ret tt) ;;;
     (if open_pdf && str_nonempty pdf_path
      then open_pdf_file pdf_path ;;; ret tt else ret tt) ;;;
     _ <- now ;;
     ret b) w = (Ok b, w').
Proof.
  assert (H1 : exists w1,
             (if auto_print && str_nonempty pdf_path
              then print_pdf_file pdf_path ;;; ret tt else ret tt) w
             = (Ok tt, w1)).
  { destruct (auto_print && str_nonempty pdf_path).
    - destruct (print_pdf_file_total pdf_path w) as (x & w1 & H).
      rewrite (bind_ok _ _ _ _ _ H). unfold ret. eauto.
    - unfold ret. eauto. }
  destruct H1 as (w1 & H1). rewrite (bind_ok _ _ _ _ _ H1).
  assert (H2 : exists w2,
             (if open_pdf && str_nonempty pdf_path
              then open_pdf_file pdf_path ;;; ret tt else ret tt) w1
             = (Ok tt, w2)).
  { destruct (open_pdf && str_nonempty pdf_path).
    - destruct (open_pdf_file_total pdf_path w1) as (x & w2 & H).
      rewrite (bind_ok _ _ _ _ _ H). unfold ret. eauto.
    - unfold ret. eauto. }
  destruct H2 as (w2 & H2). rewrite (bind_ok _ _ _ _ _ H2).
  unfold bind, now, ret. eauto.
Qed.

(** C2 (as amended).  Once the prologue of a batch has let it proceed:
    the automated runner exits with status 0 exactly when every entry of its
    record of results is a success; the enhanced runner exits with status 0
    exactly when the data of at least one identifier was collected and the
    consolidated PDF was produced. *)
Theorem batch_exit_status
  (event_ids : option (list string)) (do_authenticate auto_print open_pdf : bool)
  (w w0 : World) :
  batch_prologue do_authenticate w = (Ok true, w0) ->
  (exists results w1,
     process_event_list event_ids true true w0 = (Ok results, w1) /\
     (exit_status (run_automated_batch event_ids do_authenticate) w = 0%Z
      <-> all_successful results = true)) /\
  (exists st w2,
     collect_events
       match event_ids with None => DEFAULT_EVENT_IDS | Some l => l end
       ([], []) w0 = (Ok st, w2) /\
     (exit_status
        (run_enhanced_batch event_ids do_authenticate true auto_print open_pdf)
        w = 0%Z
      <-> fst st <> [] /\
          exists pdf_path,
            fst (create_consolidated_pdf (fst st) (snd st) w2)
            = Ok (Some pdf_path))).
Proof.
  intros Hpro. split.
  - destruct (process_event_list_total event_ids true true w0)
      as (results & w1 & Hpel).
    exists results, w1. split; [exact Hpel|].
    unfold exit_status. rewrite run_automated_batch_prologue.
    rewrite (bind_ok _ _ _ _ _ Hpro). cbn [negb].
    rewrite (bind_ok _ _ _ _ _ Hpel).
    unfold bind, now, ret. cbn [fst].
    destruct (all_successful results); split; intros H;
      try reflexivity; discriminate.
  - destruct (collect_events_total
                match event_ids with None => DEFAULT_EVENT_IDS | Some l => l end
                ([], []) w0) as (st & w2 & Hcol).
    exists st, w2. split; [exact Hcol|].
    unfold exit_status. rewrite run_enhanced_batch_prologue.
    rewrite (bind_ok _ _ _ _ _ Hpro). cbn [negb].
    rewrite (bind_ok _ _ _ _ _ Hcol).
    destruct (fst st) as [|d0 ds] eqn:Hst.
    + unfold ret. cbn [fst]. split; [discriminate|].
      intros [Hne _]. now contradiction Hne.
    + destruct (create_consolidated_pdf_total (d0 :: ds) (snd st) w2)
        as (created & w3 & Hcr).
      rewrite (bind_ok _ _ _ _ _ Hcr). rewrite Hcr. cbn [fst].
      destruct created as [pdf_path|].
      * destruct (enhanced_epilogue_total auto_print open_pdf pdf_path
                    (0 <? length (d0 :: ds))%nat w3) as (w4 & Hep).
        rewrite Hep. cbn [fst length Nat.ltb Nat.leb].
        split; [|reflexivity].
        intros _. split; [discriminate | eauto].
      * unfold ret. cbn [fst]. split; [discriminate|].
        intros [_ [p Hp]]. discriminate.
Qed.


(** ** The sixth step of the login *)

(** A value that [v[:50]] accepts. *)
Definition sliceable (v : pyval) : bool :=
  match v with PStr _ | PList _ => true | _ => false end.

(** A cookie at which the loop of step 6 stops: its name is [auth-token],
    it has a value, the value is not empty and, URL-decoded, it is JSON. *)
Definition usable (c : cookie) : bool :=
  String.eqb (cookie_name c) "auth-token" &&
  match cookie_value c with
  | Some value =>
      str_nonempty value &&
      match json_loads (unquote value) with Some _ => true | None => false end
  | None => false
  end.

(** The jar once the reply [r] has been received. *)
Definition jar_after (w : World) (r : response) : cookie_jar :=
  fold_left jar_apply (jar_updates r) (cookies w).

Lemma scan_auth_cookie_skip l1 l2 w :
  forallb (fun c => negb (usable c)) l1 = true ->
  scan_auth_cookie (l1 ++ l2)%list w = scan_auth_cookie l2 w.
Proof.
  induction l1 as [|c l1 IH]; intros H; [reflexivity|].
  cbn [forallb] in H. apply andb_prop in H. destruct H as [Hc Hl].
  cbn [app scan_auth_cookie]. unfold usable in Hc. unfold auth_cookie_value.
  destruct (cookie_value c) as [value|]; [|now apply IH].
  destruct (String.eqb (cookie_name c) "auth-token"); cbn [andb] in *;
    [|now apply IH].
  destruct (str_nonempty value); cbn [andb] in *; [|now apply IH].
  destruct (json_loads (unquote value)); [discriminate | now apply IH].
Qed.

Lemma scan_auth_cookie_none l w :
  forallb (fun c => negb (usable c)) l = true ->
  scan_auth_cookie l w = (Ok false, w).
Proof.
  intros H. rewrite <- (app_nil_r l). now rewrite scan_auth_cookie_skip.
Qed.

Lemma scan_auth_cookie_at c rest value d w :
  cookie_name c = "auth-token" ->
  cookie_value c = Some value ->
  str_nonempty value = true ->
  json_loads (unquote value) = Some (PDict d) ->
  let token := py_get_default d "token" PNone in
  scan_auth_cookie (c :: rest) w
  = (if sliceable token then Ok true else Raise TypeError,
     set_auth_token token w).
Proof.
  intros Hn Hv Hne Hj token. cbn [scan_auth_cookie].
  unfold auth_cookie_value. rewrite Hv, Hn, Hne.
  rewrite String.eqb_refl. cbn [andb]. rewrite Hj.
  unfold py_get, bind, ret, modify, py_slice_prefix. fold token.
  destruct token; reflexivity.
Qed.

(** Step 6 on a reply of status 200 with a JSON body.  The cookies of the
    jar are visited in its order, and the first one named [auth-token] whose
    value is not empty and decodes to JSON decides: when that JSON is an
    object, its [token] field becomes the credential, and the step returns
    [True] if the field is a string or a list and raises [TypeError]
    otherwise (a missing field is [None]), the credential being set in both
    cases.  Cookies of that name further on, or unusable ones before it, do
    not matter.  When no cookie is usable, the step returns [False] and the
    credential is what it was. *)
Theorem step6_first_cookie
  (w : World) (r : response) (rest : list reply) (body : pyval) :
  portal w = Reply r :: rest ->
  status_code r = 200%Z ->
  json_body r = Some body ->
  let jar := jar_cookies (jar_after w r) in
  (forallb (fun c => negb (usable c)) jar = true ->
   exists w',
     step6_authenticate_event_management w = (Ok false, w') /\
     auth_token w' = auth_token w) /\
  (forall l1 c l2 value d,
     jar = (l1 ++ c :: l2)%list ->
     forallb (fun c => negb (usable c)) l1 = true ->
     cookie_name c = "auth-token" ->
     cookie_value c = Some value ->
     str_nonempty value = true ->
     json_loads (unquote value) = Some (PDict d) ->
     let token := py_get_default d "token" PNone in
     exists w',
       step6_authenticate_event_management w
       = (if sliceable token then Ok true else Raise TypeError, w') /\
       auth_token w' = token).
Proof.
  intros Hp Hs Hb jar.
  assert (Hstep : step6_authenticate_event_management w
                  = try_except
                      (try_except (scan_auth_cookie jar)
                         is_json_JSONDecodeError (ret true))
                      is_RequestException (ret false)
                      (set_cookies (jar_after w r)
                         (set_portal rest (set_sent
                            (sent w ++ [(base_url ++ "/api/authenticate")%string])%list
                            w)))).
  { unfold step6_authenticate_event_management, try_except at 1.
    unfold bind at 1. unfold session_request. rewrite Hp, Hs.
    cbn [Z.eqb Pos.eqb].
    unfold try_except at 1. unfold bind at 1. unfold response_json.
    rewrite Hb. unfold ret at 1. unfold bind at 1. unfold get.
    cbn [cookies set_cookies]. fold (jar_after w r). fold jar.
    unfold try_except. reflexivity. }
  split.
  - intros Hnone. rewrite Hstep. unfold try_except.
    rewrite (scan_auth_cookie_none _ _ Hnone).
    eexists. split; reflexivity.
  - intros l1 c l2 value d Hjar Hl1 Hn Hv Hne Hj token.
    rewrite Hstep. unfold try_except. rewrite Hjar.
    rewrite (scan_auth_cookie_skip _ _ _ Hl1).
    rewrite (scan_auth_cookie_at c l2 value d _ Hn Hv Hne Hj). fold token.
    destruct (sliceable token); cbn [is_json_JSONDecodeError
      is_RequestException]; eexists; split; reflexivity.
Qed.


(** ** Printing and the temporary file *)

(** Computations that leave the world as it is. *)
Definition quiet {A : Type} (c : M A) : Prop := forall w, snd (c w) = w.

Lemma quiet_ret {A : Type} (a : A) : quiet (ret a).
Proof. intros w. reflexivity. Qed.

Lemma quiet_get {A : Type} (f : World -> A) : quiet (get f).
Proof. intros w. reflexivity. Qed.

Lemma quiet_bind {A B : Type} (c : M A) (k : A -> M B) :
  quiet c -> (forall a, quiet (k a)) -> quiet (bind c k).
Proof.
  intros Hc Hk w. unfold bind. specialize (Hc w).
  destruct (c w) as [[a|e] w1]; cbn in *; subst w1; [apply Hk | reflexivity].
Qed.

Lemma quiet_try {A : Type} (c : M A) (f : exn -> bool) (h : M A) :
  quiet c -> quiet h -> quiet (try_except c f h).
Proof.
  intros Hc Hh w. unfold try_except. specialize (Hc w).
  destruct (c w) as [[a|e] w1]; cbn in *; subst w1; [reflexivity|].
  destruct (f e); [apply Hh | reflexivity].
Qed.

Lemma quiet_subprocess_run args : quiet (subprocess_run args).
Proof.
  intros w. unfold subprocess_run. destruct (run_process w args); reflexivity.
Qed.

Ltac quiet_step :=
  first
    [ apply quiet_ret | apply quiet_get | apply quiet_subprocess_run
    | apply quiet_try
    | apply quiet_bind; [|intros ?]
    | match goal with
      | |- quiet (if ?b then _ else _) => destruct b
      end ].

Lemma quiet_print_dispatch path : quiet (print_dispatch path).
Proof.
  unfold print_dispatch, or_else, _print_on_windows_simple,
    _print_on_windows_advanced, _print_on_windows_fallback, _print_on_macos,
    _print_on_linux.
  repeat quiet_step.
Qed.

(** No mechanism lets an exception out, so the dispatch always returns. *)
Lemma or_else_total (a b : M bool) w :
  (forall v, exists r v', a v = (Ok r, v')) ->
  (forall v, exists r v', b v = (Ok r, v')) ->
  exists r w', or_else a b w = (Ok r, w').
Proof.
  intros Ha Hb. unfold or_else. destruct (Ha w) as (r & w1 & H1).
  rewrite (bind_ok _ _ _ _ _ H1). destruct r; [unfold ret; eauto | apply Hb].
Qed.

Lemma print_dispatch_total path w :
  exists r, print_dispatch path w = (Ok r, w).
Proof.
  pose proof (quiet_print_dispatch path w) as Hq.
  assert (H : exists r w', print_dispatch path w = (Ok r, w')).
  { unfold print_dispatch. unfold bind at 1. unfold get.
    destruct (String.eqb (ascii_lower (platform_system w)) "windows").
    - destruct (or_else_total (_print_on_windows_simple path)
                  (or_else (_print_on_windows_advanced path)
                     (_print_on_windows_fallback path)) w) as (r & w1 & H).
      + intros v. apply try_except_any_total.
      + intros v. apply or_else_total; intros u; apply try_except_any_total.
      + rewrite (bind_ok _ _ _ _ _ H). unfold ret. eauto.
    - destruct (String.eqb (ascii_lower (platform_system w)) "darwin").
      + destruct (try_except_any_total
                    (rc <- subprocess_run ["lp"; "-d"; "default"; path] ;;
                     if (rc =? 0)%Z then ret true else
                     rc <- subprocess_run ["open"; "-a"; "Safari"; path] ;;
                     if (rc =? 0)%Z then
                       subprocess_run ["osascript"; "-e"; applescript] ;;;
                       ret true
                     else ret false) false w) as (r & w1 & H).
        unfold _print_on_macos. rewrite (bind_ok _ _ _ _ _ H).
        unfold ret. eauto.
      + destruct (String.eqb (ascii_lower (platform_system w)) "linux").
        * destruct (try_except_any_total
                      (rc <- subprocess_run ["lp"; path] ;;
                       if (rc =? 0)%Z then ret true else
                       rc <- subprocess_run ["lpr"; path] ;;
                       if (rc =? 0)%Z then ret true else
                       rc <- subprocess_run ["xdg-open"; path] ;;
                       ret (rc =? 0)%Z) false w) as (r & w1 & H).
          unfold _print_on_linux. rewrite (bind_ok _ _ _ _ _ H).
          unfold ret. eauto.
        * unfold ret. eauto. }
  destruct H as (r & w' & H). rewrite H in Hq. cbn in Hq. subst w'.
  eauto.
Qed.

(** The dispatch looks at the platform and at the sub-processes only. *)
Definition same_host (w v : World) : Prop :=
  platform_system v = platform_system w /\ run_process v = run_process w.

Definition host_only {A : Type} (c : M A) : Prop :=
  forall w v, same_host w v ->
    fst (c v) = fst (c w) /\ same_host (snd (c w)) (snd (c v)).

Lemma ho_ret {A : Type} (a : A) : host_only (ret a).
Proof. intros w v H. split; [reflexivity | exact H]. Qed.

Lemma ho_get_platform : host_only (get platform_system).
Proof.
  intros w v H. split; [|exact H]. unfold get. cbn. destruct H as [H _].
  now rewrite H.
Qed.

Lemma ho_subprocess_run args : host_only (subprocess_run args).
Proof.
  intros w v H. unfold subprocess_run.
  destruct H as [Hs Hr]. rewrite Hr.
  destruct (run_process w args); (split; [reflexivity | split; assumption]).
Qed.

Lemma ho_bind {A B : Type} (c : M A) (k : A -> M B) :
  host_only c -> (forall a, host_only (k a)) -> host_only (bind c k).
Proof.
  intros Hc Hk w v H. unfold bind. destruct (Hc w v H) as [Hf Hw].
  destruct (c w) as [[a|e] w1]; destruct (c v) as [[a'|e'] v1];
    cbn in Hf, Hw; try discriminate.
  - injection Hf as Hf. subst a'. apply Hk, Hw.
  - injection Hf as Hf. subst e'. split; [reflexivity | exact Hw].
Qed.

Lemma ho_try {A : Type} (c : M A) (f : exn -> bool) (h : M A) :
  host_only c -> host_only h -> host_only (try_except c f h).
Proof.
  intros Hc Hh w v H. unfold try_except. destruct (Hc w v H) as [Hf Hw].
  destruct (c w) as [[a|e] w1]; destruct (c v) as [[a'|e'] v1];
    cbn in Hf, Hw; try discriminate.
  - injection Hf as Hf. subst a'. split; [reflexivity | exact Hw].
  - injection Hf as Hf. subst e'.
    destruct (f e); [apply Hh, Hw | split; [reflexivity | exact Hw]].
Qed.

Ltac ho_step :=
  first
    [ apply ho_ret | apply ho_get_platform | apply ho_subprocess_run
    | apply ho_try
    | apply ho_bind; [|intros ?]
    | match goal with
      | |- host_only (if ?b then _ else _) => destruct b
      end ].

Lemma print_dispatch_env path w v :
  platform_system v = platform_system w ->
  run_process v = run_process w ->
  fst (print_dispatch path v) = fst (print_dispatch path w).
Proof.
  intros Hs Hr.
  assert (H : host_only (print_dispatch path)).
  { unfold print_dispatch, or_else, _print_on_windows_simple,
      _print_on_windows_advanced, _print_on_windows_fallback, _print_on_macos,
      _print_on_linux.
    repeat ho_step. }
  apply (H w v). split; assumption.
Qed.

Lemma dict_get_set {V : Type} (d : list (string * V)) k v :
  dict_get (dict_set d k v) k = Some v.
Proof.
  induction d as [|[k' v'] r IH]; cbn.
  - now rewrite String.eqb_refl.
  - destruct (String.eqb k' k) eqn:E; cbn; rewrite E; [reflexivity | exact IH].
Qed.

Lemma dict_get_remove {V : Type} (d : list (string * V)) k :
  dict_get (dict_remove d k) k = None.
Proof.
  induction d as [|[k' v'] r IH]; cbn; [reflexivity|].
  destruct (String.eqb k' k) eqn:E; cbn; [exact IH | now rewrite E].
Qed.

(** The name and the path of the temporary file of [print_html_report]. *)
Definition temp_name (temp_filename : option string) (w : World) : string :=
  match temp_filename with
  | Some f =>
      if str_nonempty f then f
      else "temp_edr_report_" ++ strftime_stamp (clock w (ticks w)) ++ ".html"
  | None => "temp_edr_report_" ++ strftime_stamp (clock w (ticks w)) ++ ".html"
  end.

Definition temp_path (temp_filename : option string) (w : World) : string :=
  path_join (tempdir w) (temp_name temp_filename w).

(** C4 (as amended).  On a platform [print_html_report] knows, when every
    print mechanism fails, by a failure code or by an exception, the call
    returns [False] and the temporary file it wrote no longer exists,
    provided the file could be written and its removal is not refused. *)
Theorem print_html_report_cleanup
  (html : string) (temp_filename : option string) (w : World) :
  let path := temp_path temp_filename w in
  write_denied w path = false ->
  remove_denied w path = false ->
  fst (print_dispatch path w) = Ok (Some false) ->
  exists w',
    print_html_report html temp_filename w = (Ok false, w') /\
    file_exists w' path = false.
Proof.
  intros path Hw Hr Hd.
  set (w0 := match temp_filename with
             | Some f => if str_nonempty f then w else set_ticks (S (ticks w)) w
             | None => set_ticks (S (ticks w)) w
             end).
  assert (Hname :
            (match temp_filename with
             | Some f =>
                 if str_nonempty f then ret f
                 else t <- now ;;
                      ret ("temp_edr_report_" ++ strftime_stamp t ++ ".html")
             | None => t <- now ;;
                       ret ("temp_edr_report_" ++ strftime_stamp t ++ ".html")
             end) w = (Ok (temp_name temp_filename w), w0)).
  { unfold temp_name, w0. destruct temp_filename as [f|];
      [destruct (str_nonempty f)|]; reflexivity. }
  assert (Hw0 : tempdir w0 = tempdir w /\ write_denied w0 = write_denied w /\
                remove_denied w0 = remove_denied w /\
                platform_system w0 = platform_system w /\
                run_process w0 = run_process w).
  { unfold w0. destruct temp_filename as [f|];
      [destruct (str_nonempty f)|]; repeat split. }
  destruct Hw0 as (Ht0 & Hwd0 & Hrd0 & Hps0 & Hrp0).
  set (w1 := set_files (dict_set (files w0) path (Text html)) w0).
  assert (Hdisp : print_dispatch path w1 = (Ok (Some false), w1)).
  { destruct (print_dispatch_total path w1) as (r & Hr1).
    pose proof (print_dispatch_env path w w1) as He.
    rewrite Hr1, Hd in He. cbn [fst] in He.
    rewrite Hr1. f_equal. apply He; unfold w1; cbn; assumption. }
  exists (set_files (dict_remove (files w1) path) w1).
  split.
  - unfold print_html_report, try_except at 1.
    rewrite (bind_ok _ _ _ _ _ Hname).
    unfold bind at 1. unfold get at 1. rewrite Ht0.
    fold (temp_path temp_filename w). fold path.
    unfold bind at 1. unfold write_file at 1. rewrite Hwd0, Hw. fold w1.
    rewrite (bind_ok _ _ _ _ _ Hdisp).
    unfold bind at 1. unfold try_except, os_remove.
    assert (Hex : file_exists w1 path = true).
    { unfold file_exists, w1. cbn [files set_files].
      now rewrite dict_get_set. }
    rewrite Hex. cbn [negb].
    assert (Hrd1 : remove_denied w1 path = false).
    { unfold w1. cbn [remove_denied set_files]. now rewrite Hrd0. }
    rewrite Hrd1. reflexivity.
  - unfold file_exists. cbn [files set_files]. now rewrite dict_get_remove.
Qed.


(** ** The end-to-end scenario *)

(** The record of the scenario; the item may carry further fields. *)
Definition scenario_item (item_rest : list (string * pyval)) : pyval :=
  PDict (("itemNbr", PStr "12345") :: item_rest).

Definition scenario_record (item_rest : list (string * pyval)) : pyval :=
  PDict [ ("demoId", PStr "606034");
          ("demoClassCode", PStr "45");
          ("demoStatusCode", PStr "2");
          ("itemDetails", PList [scenario_item item_rest]) ].

(** The row of the item in the table of the paginated document. *)
Definition scenario_pdf_row (item_rest : list (string * pyval)) : list string :=
  [ "12345";
    py_str (py_get_default item_rest "gtin" (PStr EmptyString));
    py_str (py_get_default item_rest "itemDesc" (PStr EmptyString));
    py_str (py_get_default item_rest "vendorNbr" (PStr EmptyString));
    py_str (py_get_default item_rest "deptNbr" (PStr EmptyString)) ].

Lemma scenario_labels :
  get_event_type_description (PStr "45") = "Food Demo/Sampling" /\
  get_event_status_description (PStr "2") = "Active/Scheduled".
Proof.
  split.
  - apply (describe_table event_type_codes "Event Type" "45");
      [apply event_type_codes_ok|].
    cbn. do 10 right. left. reflexivity.
  - apply (describe_table event_status_codes "Status" "2");
      [apply event_status_codes_ok|].
    cbn. right. left. reflexivity.
Qed.

Lemma event_page_scenario item_rest w :
  event_page 0 (scenario_record item_rest) w
  = (Ok [ Paragraph "EVENT DETAIL REPORT" "CustomTitle";
          Spacer 1 12;
          Paragraph important_text "Normal";
          Spacer 1 20;
          Table (event_details_row1 "606034" "Food Demo/Sampling" "N/A");
          Spacer 1 3;
          Table (event_details_row2 "Active/Scheduled" "N/A" "N/A");
          Spacer 1 20;
          Table [items_header; scenario_pdf_row item_rest];
          Spacer 1 20;
          Paragraph "<b>MUST BE SIGNED AND DATED</b>" "CustomHeader";
          Spacer 1 20;
          Table signature_data ], w).
Proof.
  destruct scenario_labels as [Ht Hs].
  unfold event_page, scenario_record, scenario_item, scenario_pdf_row.
  cbn -[get_event_type_description get_event_status_description
        important_text py_str].
  rewrite Ht, Hs. reflexivity.
Qed.

(** The row of the record in the summary table of the cover page. *)
Lemma summary_rows_scenario item_rest w :
  summary_rows [scenario_record item_rest] w
  = (Ok [[ "606034";
           if (30 <? str_len "N/A")%nat then str_take 30 "N/A" ++ "..."
           else "N/A";
           "Food Demo/Sampling"; "Active/Scheduled" ]], w).
Proof.
  destruct scenario_labels as [Ht Hs].
  unfold summary_rows, summary_row, scenario_record.
  cbn -[get_event_type_description get_event_status_description py_str
        Nat.ltb].
  rewrite Ht, Hs. reflexivity.
Qed.

Lemma doc_build_ok filename c w :
  build_denied w filename = false ->
  write_denied w filename = false ->
  doc_build filename c w
  = (Ok tt, set_files (dict_set (files w) filename c) w).
Proof.
  intros Hb Hw. unfold doc_build, write_file. now rewrite Hb, Hw.
Qed.

(** C3 (as amended).  For the record of the scenario, the paginated
    document that [generate_consolidated_pdf_reportlab] writes has, in the
    header tables of the page of the event, "Food Demo/Sampling" as the type
    and "Active/Scheduled" as the status, and it has one items table, with
    the single row of item "12345".  The markup document maps no code: its
    header shows the raw codes "45" and "2", and the body of its items table
    is the single row of item "12345". *)
Theorem scenario_rendering
  (item_rest : list (string * pyval)) (filename : option string) (w : World) :
  REPORTLAB_AVAILABLE w = true ->
  (forall path, build_denied w path = false) ->
  (forall path, write_denied w path = false) ->
  let item_row :=
    [ "12345";
      py_str (py_get_default item_rest "gtin" (PStr EmptyString));
      py_str (py_get_default item_rest "itemDesc" (PStr EmptyString));
      py_str (py_get_default item_rest "vendorNbr" (PStr EmptyString));
      py_str (py_get_default item_rest "deptNbr" (PStr EmptyString)) ] in
  (exists name story w',
     generate_consolidated_pdf_reportlab [scenario_record item_rest]
       filename w = (Ok name, w') /\
     dict_get (files w') name = Some (Pdf story) /\
     In (Table [ ["Event Number"; "Event Type"; "Event Locked"];
                 ["606034"; "Food Demo/Sampling"; "N/A"] ]) story /\
     In (Table [ ["Event Status"; "Event Date"; "Event Name"];
                 ["Active/Scheduled"; "N/A"; "N/A"] ]) story /\
     (forall rows,
        In (Table ([ "Item Number"; "Primary Item Number"; "Description";
                     "Vendor"; "Category" ] :: rows)) story <->
        rows = [item_row])) /\
  (exists head mid1 mid2 tail,
     fst (generate_html_report (scenario_record item_rest) w)
     = Ok (head ++ shown "Event Type" "45" ++ mid1 ++
           shown "Event Status" "2" ++ mid2 ++
           items_table_open ++ table_row item_row ++ items_table_close ++
           tail)).
Proof.
  intros Hlab Hbuild Hwrite the_row. split.
  - set (w0 := match filename with
               | Some f =>
                   if str_nonempty f then w else set_ticks (S (ticks w)) w
               | None => set_ticks (S (ticks w)) w
               end).
    set (name := match filename with
                 | Some f =>
                     if str_nonempty f then f
                     else "consolidated_edr_reports_"
                          ++ strftime_stamp (clock w (ticks w)) ++ ".pdf"
                 | None => "consolidated_edr_reports_"
                           ++ strftime_stamp (clock w (ticks w)) ++ ".pdf"
                 end).
    assert (Hname :
              (match filename with
               | Some f =>
                   if str_nonempty f then ret f
                   else t <- now ;;
                        ret ("consolidated_edr_reports_" ++ strftime_stamp t
                             ++ ".pdf")
               | None => t <- now ;;
                         ret ("consolidated_edr_reports_" ++ strftime_stamp t
                              ++ ".pdf")
               end) w = (Ok name, w0)).
    { unfold name, w0. destruct filename as [f|];
        [destruct (str_nonempty f)|]; reflexivity. }
    assert (Hw0 : build_denied w0 = build_denied w /\
                  write_denied w0 = write_denied w).
    { unfold w0. destruct filename as [f|];
        [destruct (str_nonempty f)|]; split; reflexivity. }
    destruct Hw0 as [Hb0 Hd0].
    set (w1 := set_ticks (S (ticks w0)) w0).
    assert (Hrun :
              generate_consolidated_pdf_reportlab [scenario_record item_rest]
                filename w
              = (doc_build name
                   (Pdf ([ Paragraph "CONSOLIDATED EVENT DETAILS REPORT"
                             "CoverTitle";
                           Spacer 1 50;
                           Paragraph
                             ("Generated on "
                              ++ strftime_date (clock w0 (ticks w0))
                              ++ " at "
                              ++ strftime_time (clock w0 (ticks w0)))%string
                             "CustomHeader";
                           Spacer 1 30;
                           Paragraph ("Total Events: " ++ str_of_nat 1)%string
                             "CustomHeader";
                           Spacer 1 30 ] ++
                         [ Table
                             [ ["Event ID"; "Event Name"; "Event Type";
                                "Status"];
                               [ "606034";
                                 if (30 <? str_len "N/A")%nat
                                 then (str_take 30 "N/A" ++ "...")%string
                                 else "N/A";
                                 "Food Demo/Sampling"; "Active/Scheduled" ] ] ]
                         ++ [PageBreak] ++
                         [ Paragraph "EVENT DETAIL REPORT" "CustomTitle";
                           Spacer 1 12;
                           Paragraph important_text "Normal";
                           Spacer 1 20;
                           Table [ ["Event Number"; "Event Type";
                                    "Event Locked"];
                                   ["606034"; "Food Demo/Sampling"; "N/A"] ];
                           Spacer 1 3;
                           Table [ ["Event Status"; "Event Date";
                                    "Event Name"];
                                   ["Active/Scheduled"; "N/A"; "N/A"] ];
                           Spacer 1 20;
                           Table [ [ "Item Number"; "Primary Item Number";
                                     "Description"; "Vendor"; "Category" ];
                                   the_row ];
                           Spacer 1 20;
                           Paragraph "<b>MUST BE SIGNED AND DATED</b>"
                             "CustomHeader";
                           Spacer 1 20;
                           Table signature_data ])%list) ;;;
                 ret name) w1).
    { unfold generate_consolidated_pdf_reportlab.
      unfold bind at 1. unfold get. rewrite Hlab. cbn [negb].
      rewrite (bind_ok _ _ _ _ _ Hname).
      unfold bind at 1. unfold now. fold w1.
      rewrite (bind_ok _ _ _ _ _
                 (bind_ok _ _ _ _ _ (summary_rows_scenario item_rest w1))).
      unfold ret at 1.
      cbn [event_pages].
      rewrite (bind_ok _ _ _ _ _
                 (bind_ok _ _ _ _ _ (event_page_scenario item_rest w1))).
      rewrite app_nil_r. reflexivity. }
    rewrite Hrun. clear Hrun.
    match goal with
    | |- context [doc_build name (Pdf ?s)] => set (story := s)
    end.
    assert (Hdoc : doc_build name (Pdf story) w1
                   = (Ok tt, set_files (dict_set (files w1) name (Pdf story))
                               w1)).
    { apply doc_build_ok.
      - unfold w1. cbn [build_denied set_ticks]. rewrite Hb0. apply Hbuild.
      - unfold w1. cbn [write_denied set_ticks]. rewrite Hd0. apply Hwrite. }
    exists name, story, (set_files (dict_set (files w1) name (Pdf story)) w1).
    split; [rewrite (bind_ok _ _ _ _ _ Hdoc); reflexivity|].
    split; [cbn [files set_files]; apply dict_get_set|].
    unfold story. cbn [app].
    split; [cbn [In]; do 12 right; left; reflexivity|].
    split; [cbn [In]; do 14 right; left; reflexivity|].
    intros rows. split.
    + intros H. cbn [In] in H.
      repeat (destruct H as [H|H]; [try discriminate|]);
        try contradiction.
      injection H as H. now subst rows.
    + intros ->. cbn [In]. do 16 right. left. reflexivity.
  - rewrite generate_html_report_unfold.
    unfold scenario_record.
    rewrite (render_with_ok _ _ _ [scenario_item item_rest] _);
      [| discriminate | reflexivity | reflexivity | reflexivity].
    cbn [fst].
    match goal with
    | |- context [strip (html_content ?a1 ?a2 ?a3 ?a4 ?a5 ?a6 ?a7 ?a8 ?a9
                           ?a10 ?a11)] =>
        destruct (html_content_layout a1 a2 a3 a4 a5 a6 a7 a8 a9 a10 a11)
          as (head & mid1 & mid2 & tail & Heq)
    end.
    rewrite Heq. exists head, mid1, mid2, tail.
    f_equal.
    change (String.concat EmptyString (map row_of [scenario_item item_rest]))
      with (row_of (scenario_item item_rest)).
    rewrite row_of_shown_row. reflexivity.
Qed.


(** * Further properties *)

(** ** Saving a report *)

Lemma dict_get_set_other {V : Type} (d : list (string * V)) k k' v :
  k' <> k -> dict_get (dict_set d k v) k' = dict_get d k'.
Proof.
  intros Hne. induction d as [|[k0 v0] r IH]; cbn.
  - destruct (String.eqb k k') eqn:E; [|reflexivity].
    apply String.eqb_eq in E. congruence.
  - destruct (String.eqb k0 k) eqn:E; cbn.
    + apply String.eqb_eq in E. subst k0.
      destruct (String.eqb k k') eqn:E'; [|reflexivity].
      apply String.eqb_eq in E'. congruence.
    + destruct (String.eqb k0 k'); [reflexivity | exact IH].
Qed.

(** The name [save_html_report] writes to. *)
Definition save_name (filename : option string) (w : World) : string :=
  match filename with
  | Some f =>
      if str_nonempty f then f
      else "edr_report_" ++ strftime_stamp (clock w (ticks w)) ++ ".html"
  | None => "edr_report_" ++ strftime_stamp (clock w (ticks w)) ++ ".html"
  end.

(** Saving a report.  When the write goes through, the call returns the name
    it wrote to (the given one, or a time-stamped one when none or an empty
    one is given), the file of that name holds exactly the report, and every
    other file is as before.  When the file cannot be opened, the exception
    goes to the caller and no file is changed.  When the write breaks after
    the file was opened, the exception goes to the caller and the file of
    that name is left with only what had reached it (nothing, when nothing
    had), whatever it held before; every other file is as before. *)
Theorem save_html_report_file
  (html : string) (filename : option string) (w : World) :
  let name := save_name filename w in
  (write_denied w name = false ->
   exists w',
     save_html_report html filename w = (Ok name, w') /\
     dict_get (files w') name = Some (Text html) /\
     (forall p, p <> name -> dict_get (files w') p = dict_get (files w) p)) /\
  (forall e,
     write_denied w name = true -> write_breaks w name = AtOpen e ->
     exists w',
       save_html_report html filename w = (Raise e, w') /\
       files w' = files w) /\
  (forall e n,
     write_denied w name = true -> write_breaks w name = AfterOpen e n ->
     exists w',
       save_html_report html filename w = (Raise e, w') /\
       dict_get (files w') name = Some (Text (substring 0 n html)) /\
       (forall p, p <> name -> dict_get (files w') p = dict_get (files w) p)).
Proof.
  intros name.
  set (w0 := match filename with
             | Some f => if str_nonempty f then w else set_ticks (S (ticks w)) w
             | None => set_ticks (S (ticks w)) w
             end).
  assert (Hname :
            (match filename with
             | Some f =>
                 if str_nonempty f then ret f
                 else t <- now ;;
                      ret ("edr_report_" ++ strftime_stamp t ++ ".html")
             | None => t <- now ;;
                       ret ("edr_report_" ++ strftime_stamp t ++ ".html")
             end) w = (Ok name, w0)).
  { unfold name, save_name, w0. destruct filename as [f|];
      [destruct (str_nonempty f)|]; reflexivity. }
  assert (Hw0 : write_denied w0 = write_denied w /\
                write_breaks w0 = write_breaks w /\ files w0 = files w).
  { unfold w0. destruct filename as [f|];
      [destruct (str_nonempty f)|]; repeat split. }
  destruct Hw0 as (Hwd & Hwb & Hfiles).
  split; [|split].
  - intros Hden.
    exists (set_files (dict_set (files w0) name (Text html)) w0).
    split; [|split].
    + unfold save_html_report. rewrite (bind_ok _ _ _ _ _ Hname).
      unfold bind, write_file. rewrite Hwd, Hden. reflexivity.
    + cbn [files set_files]. apply dict_get_set.
    + intros p Hp. cbn [files set_files]. rewrite Hfiles.
      now apply dict_get_set_other.
  - intros e Hden Hbrk. exists w0. split; [|exact Hfiles].
    unfold save_html_report. rewrite (bind_ok _ _ _ _ _ Hname).
    unfold bind, write_file. rewrite Hwd, Hwb, Hden, Hbrk. reflexivity.
  - intros e n Hden Hbrk.
    exists (set_files (dict_set (files w0) name (Text (substring 0 n html))) w0).
    split; [|split].
    + unfold save_html_report. rewrite (bind_ok _ _ _ _ _ Hname).
      unfold bind, write_file. rewrite Hwd, Hwb, Hden, Hbrk. reflexivity.
    + cbn [files set_files]. apply dict_get_set.
    + intros p Hp. cbn [files set_files]. rewrite Hfiles.
      now apply dict_get_set_other.
Qed.

(** ** Printing a report *)

(** [print_html_report] lets no exception out: it always returns a Boolean.
    When the temporary file cannot be opened it returns [False] and no file
    is changed.  When the write breaks after the file was opened it returns
    [False] too, and the temporary file stays behind with only what had
    reached it: no clean-up is made on that path. *)
Theorem print_html_report_returns
  (html : string) (temp_filename : option string) (w : World) :
  let path := temp_path temp_filename w in
  (exists b w', print_html_report html temp_filename w = (Ok b, w')) /\
  (forall e,
     write_denied w path = true -> write_breaks w path = AtOpen e ->
     exists w',
       print_html_report html temp_filename w = (Ok false, w') /\
       files w' = files w) /\
  (forall e n,
     write_denied w path = true -> write_breaks w path = AfterOpen e n ->
     exists w',
       print_html_report html temp_filename w = (Ok false, w') /\
       files w' = dict_set (files w) path (Text (substring 0 n html))).
Proof.
  intros path.
  set (w0 := match temp_filename with
             | Some f =>
                 if str_nonempty f then w else set_ticks (S (ticks w)) w
             | None => set_ticks (S (ticks w)) w
             end).
  assert (Hname :
            (match temp_filename with
             | Some f =>
                 if str_nonempty f then ret f
                 else t <- now ;;
                      ret ("temp_edr_report_" ++ strftime_stamp t ++ ".html")
             | None => t <- now ;;
                       ret ("temp_edr_report_" ++ strftime_stamp t ++ ".html")
             end) w = (Ok (temp_name temp_filename w), w0)).
  { unfold temp_name, w0. destruct temp_filename as [f|];
      [destruct (str_nonempty f)|]; reflexivity. }
  assert (Hw0 : tempdir w0 = tempdir w /\ write_denied w0 = write_denied w /\
                write_breaks w0 = write_breaks w /\ files w0 = files w).
  { unfold w0. destruct temp_filename as [f|];
      [destruct (str_nonempty f)|]; repeat split. }
  destruct Hw0 as (Ht0 & Hwd0 & Hwb0 & Hf0).
  split; [|split].
  - unfold print_html_report. apply try_except_any_total.
  - intros e Hden Hbrk. exists w0. split; [|exact Hf0].
    unfold print_html_report, try_except at 1.
    rewrite (bind_ok _ _ _ _ _ Hname).
    unfold bind at 1. unfold get at 1. rewrite Ht0.
    fold (temp_path temp_filename w). fold path.
    unfold bind at 1. unfold write_file at 1. rewrite Hwd0, Hwb0, Hden, Hbrk.
    reflexivity.
  - intros e n Hden Hbrk.
    exists (set_files (dict_set (files w0) path (Text (substring 0 n html))) w0).
    split; [|cbn [files set_files]; now rewrite Hf0].
    unfold print_html_report, try_except at 1.
    rewrite (bind_ok _ _ _ _ _ Hname).
    unfold bind at 1. unfold get at 1. rewrite Ht0.
    fold (temp_path temp_filename w). fold path.
    unfold bind at 1. unfold write_file at 1. rewrite Hwd0, Hwb0, Hden, Hbrk.
    reflexivity.
Qed.

(** When a print mechanism succeeds, [print_html_report] returns [True] and
    the temporary file it wrote is gone, provided its removal is not
    refused. *)
Theorem print_html_report_success
  (html : string) (temp_filename : option string) (w : World) :
  let path := temp_path temp_filename w in
  write_denied w path = false ->
  remove_denied w path = false ->
  fst (print_dispatch path w) = Ok (Some true) ->
  exists w',
    print_html_report html temp_filename w = (Ok true, w') /\
    file_exists w' path = false.
Proof.
  intros path Hw Hr Hd.
  set (w0 := match temp_filename with
             | Some f => if str_nonempty f then w else set_ticks (S (ticks w)) w
             | None => set_ticks (S (ticks w)) w
             end).
  assert (Hname :
            (match temp_filename with
             | Some f =>
                 if str_nonempty f then ret f
                 else t <- now ;;
                      ret ("temp_edr_report_" ++ strftime_stamp t ++ ".html")
             | None => t <- now ;;
                       ret ("temp_edr_report_" ++ strftime_stamp t ++ ".html")
             end) w = (Ok (temp_name temp_filename w), w0)).
  { unfold temp_name, w0. destruct temp_filename as [f|];
      [destruct (str_nonempty f)|]; reflexivity. }
  assert (Hw0 : tempdir w0 = tempdir w /\ write_denied w0 = write_denied w /\
                remove_denied w0 = remove_denied w /\
                platform_system w0 = platform_system w /\
                run_process w0 = run_process w).
  { unfold w0. destruct temp_filename as [f|];
      [destruct (str_nonempty f)|]; repeat split. }
  destruct Hw0 as (Ht0 & Hwd0 & Hrd0 & Hps0 & Hrp0).
  set (w1 := set_files (dict_set (files w0) path (Text html)) w0).
  assert (Hdisp : print_dispatch path w1 = (Ok (Some true), w1)).
  { destruct (print_dispatch_total path w1) as (r & Hr1).
    pose proof (print_dispatch_env path w w1) as He.
    rewrite Hr1, Hd in He. cbn [fst] in He.
    rewrite Hr1. f_equal. apply He; unfold w1; cbn; assumption. }
  exists (set_files (dict_remove (files w1) path) w1).
  split.
  - unfold print_html_report, try_except at 1.
    rewrite (bind_ok _ _ _ _ _ Hname).
    unfold bind at 1. unfold get at 1. rewrite Ht0.
    fold (temp_path temp_filename w). fold path.
    unfold bind at 1. unfold write_file at 1. rewrite Hwd0, Hw. fold w1.
    rewrite (bind_ok _ _ _ _ _ Hdisp).
    unfold bind at 1. unfold try_except, os_remove.
    assert (Hex : file_exists w1 path = true).
    { unfold file_exists, w1. cbn [files set_files].
      now rewrite dict_get_set. }
    rewrite Hex. cbn [negb].
    assert (Hrd1 : remove_denied w1 path = false).
    { unfold w1. cbn [remove_denied set_files]. now rewrite Hrd0. }
    rewrite Hrd1. reflexivity.
  - unfold file_exists. cbn [files set_files]. now rewrite dict_get_remove.
Qed.



(** ** Describing a code of any type *)

Lemma str_nonempty_app_r (a b : string) :
  str_nonempty b = true -> str_nonempty (a ++ b) = true.
Proof. destruct a; cbn; [auto | reflexivity]. Qed.

(** Whatever the code is (a string, a number, nothing), its description is
    never empty, and a code that is false in a condition (None, 0, the empty
    string) is described as "N/A" without any look-up. *)
Theorem describe_never_empty (code : pyval) :
  str_nonempty (get_event_type_description code) = true /\
  str_nonempty (get_event_status_description code) = true /\
  (truthy code = false ->
   get_event_type_description code = "N/A" /\
   get_event_status_description code = "N/A").
Proof.
  assert (H : forall table category,
             str_nonempty (describe table category code) = true).
  { intros table category. unfold describe.
    destruct (negb (truthy code) || is_str code "N/A"); [reflexivity|].
    destruct (dict_get table (str_upper (py_str code))) as [d|].
    - destruct (str_nonempty d) eqn:E; [exact E|].
      apply str_nonempty_app_r. reflexivity.
    - apply str_nonempty_app_r. reflexivity. }
  split; [apply H|]. split; [apply H|].
  intros Hf. unfold get_event_type_description, get_event_status_description,
    describe. rewrite Hf. split; reflexivity.
Qed.


(** ** The document is never empty *)

Lemma html_content_framed a1 a2 a3 a4 a5 a6 a7 a8 a9 a10 a11 :
  exists mid,
    strip (html_content a1 a2 a3 a4 a5 a6 a7 a8 a9 a10 a11)
    = doctype ++ mid ++ html_close.
Proof.
  unfold html_content.
  rewrite !concat_empty_cons.
  change (String.concat EmptyString []) with EmptyString.
  rewrite (str_app_empty html_text_12).
  rewrite html_text_0_starts.
  rewrite !str_app_assoc.
  apply strip_document.
  do 23 apply ends_document_app. apply html_text_12_ends.
Qed.

Lemma render_with_shape report_date report_time edr_data w html w' :
  render_with report_date report_time edr_data w = (Ok html, w') ->
  exists a3 a4 a5 a6 a7 a8 a9 a10 a11,
    html = strip (html_content report_date report_time
                    a3 a4 a5 a6 a7 a8 a9 a10 a11).
Proof.
  unfold render_with. intros H.
  repeat match type of H with
         | bind ?c ?k ?w0 = _ =>
             unfold bind at 1 in H;
             let r := fresh "r" in
             let w1 := fresh "w" in
             destruct (c w0) as [[r|?] w1]; [|discriminate]
         end.
  unfold ret in H. injection H as H _. subst html.
  do 9 eexists. reflexivity.
Qed.

(** Whatever the fields of the record hold, a document that
    [generate_html_report] returns starts with the document type and ends
    with the closing tag of the document (the blanks around the template are
    stripped); in particular it is never empty, so the "failed to generate"
    branch of [generate_and_print_edr_report] cannot be taken. *)
Theorem generate_html_report_framed
  (edr_data : pyval) (w w' : World) (html : string) :
  generate_html_report edr_data w = (Ok html, w') ->
  (exists mid, html = doctype ++ mid ++ html_close) /\
  str_nonempty html = true.
Proof.
  intros H. rewrite generate_html_report_unfold in H.
  destruct (render_with_shape _ _ _ _ _ _ H)
    as (a3 & a4 & a5 & a6 & a7 & a8 & a9 & a10 & a11 & Hhtml).
  destruct (html_content_framed
              (strftime_date (clock w (ticks w)))
              (strftime_time (clock w (ticks w)))
              a3 a4 a5 a6 a7 a8 a9 a10 a11) as [mid Hmid].
  rewrite Hmid in Hhtml.
  split; [exists mid; exact Hhtml|].
  rewrite Hhtml. reflexivity.
Qed.


(** ** The summary of a batch *)

Lemma failed_events_filter (results : results_t) :
  failed_events results
  = length (filter (fun kv => negb (success (snd kv))) results).
Proof.
  unfold failed_events, total_events, successful_events.
  induction results as [|[k e] r IH]; [reflexivity|].
  cbn [filter length snd]. destruct (success e); cbn [negb length].
  - exact IH.
  - rewrite <- IH. apply Nat.sub_succ_l. apply filter_length_le.
Qed.

(** The headings of the two lists of the summary. *)
Definition failed_heading : string := nl ++ "❌ Failed Events:".
Definition successful_heading : string := nl ++ "✅ Successful Events:".

(** The rule of sixty signs, and the six lines that open the summary with
    the number of entries, of successful ones and of failed ones. *)
Definition rule : string :=
  "============================================================".

Definition summary_head (total ok failed : nat) : list string :=
  [ nl ++ rule;
    "📊 PROCESSING SUMMARY";
    rule;
    "📋 Total Events: " ++ str_of_nat total;
    "✅ Successful: " ++ str_of_nat ok;
    "❌ Failed: " ++ str_of_nat failed ].

(** The line of a failed entry, and of a successful one. *)
Definition reason_line (k : string) (e : entry) : string :=
  "   • " ++ k ++ ": " ++
  match error e with Some msg => msg | None => "None" end.

Definition steps_line (k : string) (e : entry) : string :=
  "   • " ++ k ++ ": " ++
  String.concat " + "
    ((if generated e then ["Generated"] else []) ++
     (if printed e then ["Printed"] else []) ++
     (if saved e then ["Saved"] else []))%list.

Lemma reason_line_not_heading k e : reason_line k e <> successful_heading.
Proof. unfold reason_line, successful_heading, nl. cbn. discriminate. Qed.

Lemma summary_of_failed (head tail : list string) (fails : results_t) k e :
  In (k, e) fails ->
  ~ In successful_heading head ->
  exists pre post,
    (head ++ (failed_heading :: map failed_line fails) ++ tail)%list
    = (pre ++ reason_line k e :: post)%list /\
    In failed_heading pre /\ ~ In successful_heading pre.
Proof.
  intros Hin Hhead.
  destruct (in_split _ _ Hin) as (l1 & l2 & ->).
  exists (head ++ failed_heading :: map failed_line l1)%list,
         (map failed_line l2 ++ tail)%list.
  split; [|split].
  - rewrite map_app. cbn [map]. rewrite <- !app_assoc. cbn [app].
    rewrite <- app_assoc. reflexivity.
  - apply in_or_app. right. now left.
  - intros H. apply in_app_or in H. destruct H as [H|[H|H]].
    + now apply Hhead.
    + unfold failed_heading, successful_heading, nl in H. cbn in H.
      discriminate.
    + apply in_map_iff in H. destruct H as ([k' e'] & H & _).
      exact (reason_line_not_heading k' e' H).
Qed.

Lemma summary_of_successful (head tail : list string) (oks : results_t) k e :
  In (k, e) oks ->
  exists pre post,
    (head ++ (successful_heading :: map successful_line oks) ++ tail)%list
    = (pre ++ steps_line k e :: post)%list /\
    In successful_heading pre.
Proof.
  intros Hin.
  destruct (in_split _ _ Hin) as (l1 & l2 & ->).
  exists (head ++ successful_heading :: map successful_line l1)%list,
         (map successful_line l2 ++ tail)%list.
  split.
  - rewrite map_app. cbn [map]. rewrite <- !app_assoc. cbn [app].
    rewrite <- app_assoc. reflexivity.
  - apply in_or_app. right. now left.
Qed.

Lemma length_headed {A B : Type} (h : B) (f : A -> B) (l : list A) :
  length (if (0 <? length l)%nat then h :: map f l else [])
  = length l + (if (0 <? length l)%nat then 1 else 0).
Proof.
  destruct l; cbn [length map Nat.ltb Nat.leb]; [reflexivity|].
  rewrite length_map. symmetry. apply Nat.add_1_r.
Qed.

Lemma nonempty_ltb {A : Type} (l : list A) (x : A) :
  In x l -> (0 <? length l)%nat = true.
Proof. destruct l; [contradiction | reflexivity]. Qed.

(** What the summary shows of a record of results.  Its first six lines
    give the number of entries, of successful ones and of failed ones.  A
    failed entry has its line, the identifier with the reason recorded (the
    text [None] when the reason is [None]), under the heading of the failed
    events and before that of the successful ones; a successful entry has
    its line, the identifier with the steps that were done, under the
    heading of the successful events.  Nothing else is printed but a closing
    rule: the number of lines is that of the entries, plus seven, plus one
    for each heading shown. *)
Theorem print_summary_complete (results : results_t) :
  let oks := filter (fun kv => success (snd kv)) results in
  let fails := filter (fun kv => negb (success (snd kv))) results in
  firstn 6 (print_summary results)
  = summary_head (length results) (length oks) (length fails) /\
  (forall k e, In (k, e) results -> success e = false ->
     exists pre post,
       print_summary results = (pre ++ reason_line k e :: post)%list /\
       In failed_heading pre /\ ~ In successful_heading pre) /\
  (forall k e, In (k, e) results -> success e = true ->
     exists pre post,
       print_summary results = (pre ++ steps_line k e :: post)%list /\
       In successful_heading pre) /\
  length (print_summary results)
  = 7 + length results
    + (if (0 <? length fails)%nat then 1 else 0)
    + (if (0 <? length oks)%nat then 1 else 0).
Proof.
  intros oks fails.
  assert (Hshape :
            print_summary results
            = (summary_head (length results) (length oks) (length fails) ++
               (if (0 <? length fails)%nat
                then failed_heading :: map failed_line fails else []) ++
               (if (0 <? length oks)%nat
                then successful_heading :: map successful_line oks else []) ++
               [ rule ])%list).
  { unfold print_summary. rewrite (failed_events_filter results).
    unfold successful_events, total_events. reflexivity. }
  split; [|split; [|split]].
  - rewrite Hshape. reflexivity.
  - intros k e Hin Hs.
    assert (Hf : In (k, e) fails).
    { apply filter_In. split; [exact Hin | cbn [snd]; now rewrite Hs]. }
    rewrite Hshape. rewrite (nonempty_ltb _ _ Hf).
    apply summary_of_failed; [exact Hf|].
    intros H. unfold summary_head in H. cbn [In] in H.
    unfold successful_heading, rule, nl in H. cbn [append] in H.
    repeat (destruct H as [H|H]; [discriminate|]). exact H.
  - intros k e Hin Hs.
    assert (Ho : In (k, e) oks).
    { apply filter_In. split; [exact Hin | exact Hs]. }
    rewrite Hshape. rewrite (nonempty_ltb _ _ Ho).
    set (head := summary_head _ _ _).
    rewrite app_assoc.
    destruct (summary_of_successful
                (head ++ (if (0 <? length fails)%nat
                          then failed_heading :: map failed_line fails
                          else []))%list
                [ rule ] oks k e Ho) as (pre & post & Heq & Hpre).
    exists pre, post. split; [exact Heq | exact Hpre].
  - assert (Hsum : length oks + length fails = length results)
      by exact (filter_negb_length _ results).
    rewrite Hshape. rewrite !length_app, !length_headed.
    cbn [summary_head length]. rewrite <- Hsum.
    generalize (length fails) (length oks). intros b a.
    destruct (0 <? b)%nat, (0 <? a)%nat; lia.
Qed.

(** ** The entries of the record of results *)

(** What every entry of a record made by [process_event_list] satisfies. *)
Definition entry_consistent (print_reports : bool) (e : entry) : Prop :=
  generated e = success e /\
  printed e = (print_reports && success e) /\
  (saved e = true -> success e = true) /\
  (success e = true -> error e = None) /\
  (success e = false -> print_reports = false -> error e <> None).

Lemma In_dict_set {V : Type} (d : list (string * V)) k v k0 v0 :
  In (k0, v0) (dict_set d k v) -> v0 = v \/ In (k0, v0) d.
Proof.
  induction d as [|[k' v'] r IH]; cbn.
  - intros [H|[]]. left. congruence.
  - destruct (String.eqb k' k); cbn.
    + intros [H|H]; [left; congruence | right; now right].
    + intros [H|H]; [right; now left|].
      destruct (IH H) as [E|E]; [now left | right; now right].
Qed.

Lemma process_event_entry save_copies print_reports results event_id w r w' :
  process_event save_copies print_reports results event_id w = (Ok r, w') ->
  exists e, r = dict_set results event_id e /\ entry_consistent print_reports e.
Proof.
  unfold process_event.
  destruct (process_one event_id save_copies print_reports results w)
    as [[r0|e] w0] eqn:H; intros Hr; injection Hr as Hr _; subst r.
  - unfold process_one in H. destruct print_reports.
    + unfold bind in H.
      destruct (generate_and_print_edr_report event_id save_copies w)
        as [[s|e] w1]; [|discriminate].
      unfold ret in H. injection H as H _. subst r0.
      eexists. split; [reflexivity|].
      unfold entry_consistent. cbn. destruct s, save_copies; cbn;
        repeat split; try reflexivity; try discriminate; intros; congruence.
    + unfold bind in H.
      destruct (get_edr_report event_id w) as [[d|e] w1]; [|discriminate].
      destruct (truthy d).
      * destruct (generate_html_report d w1) as [[h|e] w2]; [|discriminate].
        destruct save_copies.
        -- destruct (now w2) as [[t|e] w3]; [|discriminate].
           destruct (save_html_report h _ w3) as [[f|e] w4]; [|discriminate].
           unfold ret in H. injection H as H _. subst r0.
           eexists. split; [reflexivity|].
           unfold entry_consistent. cbn.
           repeat split; try reflexivity; try discriminate.
        -- unfold ret in H. injection H as H _. subst r0.
           eexists. split; [reflexivity|].
           unfold entry_consistent. cbn.
           repeat split; try reflexivity; try discriminate.
      * unfold ret in H. injection H as H _. subst r0.
        eexists. split; [reflexivity|].
        unfold entry_consistent. cbn.
        repeat split; try reflexivity; try discriminate.
  - eexists. split; [reflexivity|].
    unfold entry_consistent. cbn. destruct print_reports;
      repeat split; try reflexivity; try discriminate.
Qed.

Lemma process_events_entries save_copies print_reports ids :
  forall acc w results w',
    (forall k e, In (k, e) acc -> entry_consistent print_reports e) ->
    process_events save_copies print_reports ids acc w = (Ok results, w') ->
    forall k e, In (k, e) results -> entry_consistent print_reports e.
Proof.
  induction ids as [|i rest IH]; intros acc w results w' Hacc H; cbn in H.
  - unfold ret in H. injection H as H _. subst results. exact Hacc.
  - unfold bind in H.
    destruct (process_event save_copies print_reports acc i w)
      as [[r1|e1] w1] eqn:H1; [|discriminate].
    destruct (process_event_entry _ _ _ _ _ _ _ H1) as (e1 & -> & He1).
    apply (IH _ _ _ _) with (2 := H).
    intros k e Hin. destruct (In_dict_set _ _ _ _ _ Hin) as [E|E].
    + now subst e.
    + now apply (Hacc k).
Qed.

(** Every entry of the record of results is consistent: it counts as
    generated exactly when it is a success, as printed exactly when reports
    are printed and it is a success, as saved only when it is a success; a
    success carries no error, and in save-only mode a failure carries one. *)
Theorem process_event_list_entries
  (event_ids : option (list string)) (save_copies print_reports : bool)
  (w w' : World) (results : results_t) :
  process_event_list event_ids save_copies print_reports w = (Ok results, w') ->
  forall k e, In (k, e) results -> entry_consistent print_reports e.
Proof.
  unfold process_event_list, bind, get.
  destruct (negb (truthy (auth_token w))).
  - unfold ret. intros H. injection H as H _. subst results. intros k e [].
  - intros H. apply (process_events_entries _ _ _ _ _ _ _) with (2 := H).
    intros k e [].
Qed.


(** ** The requests of a batch *)

Lemma process_events_sent save_copies print_reports ids :
  forall acc w,
    truthy (auth_token w) = true ->
    exists results w',
      process_events save_copies print_reports ids acc w = (Ok results, w') /\
      sent w' = (sent w ++ map edr_url ids)%list /\
      auth_token w' = auth_token w.
Proof.
  induction ids as [|i rest IH]; intros acc w Htok.
  - cbn. exists acc, w. unfold ret. rewrite app_nil_r. auto.
  - destruct (process_event_step save_copies print_reports acc i w Htok)
      as (e & w1 & Hstep & Ha & _ & Hs & _).
    assert (Htok1 : truthy (auth_token w1) = true) by congruence.
    destruct (IH (dict_set acc i e) w1 Htok1) as (r & w' & Hrun & Hsent & Ha').
    exists r, w'. cbn [process_events]. rewrite (bind_ok _ _ _ _ _ Hstep).
    split; [exact Hrun|]. split; [|congruence].
    rewrite Hsent, Hs. cbn [map]. now rewrite <- app_assoc.
Qed.

(** With a credential already there (supplied by hand or kept from an
    earlier login), a run of the automated batch ends normally and issues
    exactly the requests for the reports of its identifiers, in their order,
    repeated identifiers included: no request of the login is made, whether
    authentication was asked for or not. *)
Theorem run_automated_batch_requests
  (ids : list string) (do_authenticate : bool) (w : World) :
  truthy (auth_token w) = true ->
  exists b w',
    run_automated_batch (Some ids) do_authenticate w = (Ok b, w') /\
    sent w' = (sent w ++ map edr_url ids)%list /\
    auth_token w' = auth_token w.
Proof.
  intros Htok.
  assert (Hpro : batch_prologue do_authenticate w
                 = (Ok true, set_ticks (S (ticks w)) w)).
  { unfold batch_prologue, bind, now, get. cbn [auth_token set_ticks].
    rewrite Htok, andb_false_r. reflexivity. }
  destruct (process_events_sent true true ids [] (set_ticks (S (ticks w)) w) Htok)
    as (results & w1 & Hrun & Hsent & Ha).
  exists (all_successful results), (set_ticks (S (ticks w1)) w1).
  split; [|split].
  - rewrite run_automated_batch_prologue.
    rewrite (bind_ok _ _ _ _ _ Hpro). cbn [negb].
    assert (Hpel : process_event_list (Some ids) true true
                     (set_ticks (S (ticks w)) w) = (Ok results, w1)).
    { unfold process_event_list, bind, get. cbn [auth_token set_ticks].
      rewrite Htok. exact Hrun. }
    rewrite (bind_ok _ _ _ _ _ Hpel). reflexivity.
  - cbn [sent set_ticks]. exact Hsent.
  - cbn [auth_token set_ticks]. exact Ha.
Qed.

(** In print mode a failure that raised nothing has no reason: an identifier
    whose fetch brought no data is recorded with [error] None, and the
    summary lists it with the text "None". *)
Theorem print_mode_failure_reason
  (save_copies : bool) (results : results_t) (event_id : string) (w : World) :
  truthy (auth_token w) = true ->
  fetch_ok (hd NoReply (portal w)) = false ->
  exists e w',
    process_event save_copies true results event_id w
    = (Ok (dict_set results event_id e), w') /\
    success e = false /\ error e = None /\
    failed_line (event_id, e) = "   • " ++ event_id ++ ": None".
Proof.
  intros Htok Hfail.
  destruct (get_edr_report_run event_id w Htok) as (w1 & Hrun & _).
  unfold process_event.
  rewrite (process_one_after_fetch _ _ _ _ _ Htok).
  rewrite (bind_ok _ _ _ _ _ Hrun).
  unfold after_fetch, print_after_fetch.
  unfold fetch_ok in Hfail. rewrite Hfail. cbn [negb].
  unfold bind, ret.
  eexists. eexists. split; [reflexivity|]. repeat split.
Qed.

(** ** A batch that collects nothing *)

Lemma collect_event_nothing st event_id w :
  truthy (auth_token w) = true ->
  fetch_ok (hd NoReply (portal w)) = false ->
  exists w',
    collect_event st event_id w = (Ok st, w') /\
    auth_token w' = auth_token w /\ portal w' = tl (portal w) /\
    files w' = files w.
Proof.
  intros Htok Hfail.
  destruct (get_edr_report_run event_id w Htok) as (w1 & Hrun & Ha & Hp & _).
  assert (Hfiles : files w1 = files w).
  { assert (H : files (snd (get_edr_report event_id w)) = files w).
    { unfold get_edr_report. unfold bind at 1. unfold get. rewrite Htok.
      cbn [negb]. unfold try_except, bind, session_request.
      destruct (portal w) as [|[|r] rest]; try reflexivity.
      unfold raise_for_status.
      destruct ((400 <=? status_code r) && (status_code r <? 600))%Z;
        try reflexivity.
      unfold ret, response_json. destruct (json_body r); reflexivity. }
    rewrite Hrun in H. exact H. }
  exists w1. split; [|auto].
  unfold collect_event, try_except. rewrite (bind_ok _ _ _ _ _ Hrun).
  unfold fetch_ok in Hfail. rewrite Hfail. reflexivity.
Qed.

Lemma collect_events_nothing ids :
  forall st w,
    truthy (auth_token w) = true ->
    forallb (fun r => negb (fetch_ok r)) (replies_for (length ids) (portal w))
    = true ->
    exists w',
      collect_events ids st w = (Ok st, w') /\ files w' = files w.
Proof.
  induction ids as [|i rest IH]; intros st w Htok Hall.
  - cbn. exists w. split; reflexivity.
  - cbn [length replies_for forallb] in Hall.
    apply andb_prop in Hall. destruct Hall as [H1 H2].
    apply negb_true_iff in H1.
    destruct (collect_event_nothing st i w Htok H1)
      as (w1 & Hc & Ha & Hp & Hf).
    assert (Htok1 : truthy (auth_token w1) = true) by congruence.
    rewrite <- Hp in H2.
    destruct (IH st w1 Htok1 H2) as (w' & Hrun & Hf').
    exists w'. cbn [collect_events]. rewrite (bind_ok _ _ _ _ _ Hc).
    split; [exact Hrun | congruence].
Qed.

(** When a credential is there and no identifier brings data, the enhanced
    batch returns [False] and writes no file: no report, no PDF. *)
Theorem run_enhanced_batch_nothing
  (ids : list string)
  (do_authenticate create_pdf auto_print open_pdf : bool) (w : World) :
  truthy (auth_token w) = true ->
  forallb (fun r => negb (fetch_ok r)) (replies_for (length ids) (portal w))
  = true ->
  exists w',
    run_enhanced_batch (Some ids) do_authenticate create_pdf auto_print
      open_pdf w = (Ok false, w') /\
    files w' = files w.
Proof.
  intros Htok Hall.
  assert (Hpro : batch_prologue do_authenticate w
                 = (Ok true, set_ticks (S (ticks w)) w)).
  { unfold batch_prologue, bind, now, get. cbn [auth_token set_ticks].
    rewrite Htok, andb_false_r. reflexivity. }
  destruct (collect_events_nothing ids ([], []) (set_ticks (S (ticks w)) w)
              Htok Hall) as (w1 & Hcol & Hf).
  exists w1. split; [|exact Hf].
  rewrite run_enhanced_batch_prologue.
  rewrite (bind_ok _ _ _ _ _ Hpro). cbn [negb].
  rewrite (bind_ok _ _ _ _ _ Hcol). reflexivity.
Qed.

(** ** A rejected password *)

(** A reply that makes a step of the login fail: no connection, or a status
    that [raise_for_status] turns into an error. *)
Definition rejecting (r : reply) : bool :=
  match r with
  | NoReply => true
  | Reply r => ((400 <=? status_code r) && (status_code r <? 600))%Z
  end.

Definition login_url : string :=
  "https://retaillink.login.wal-mart.com/api/login".

(** When the first step is rejected, the login returns [False] after that one
    request: no code is asked for, the operator is not prompted, and the
    credential is what it was. *)
Theorem authenticate_password_rejected (w : World) :
  rejecting (hd NoReply (portal w)) = true ->
  exists w',
    authenticate w = (Ok false, w') /\
    sent w' = (sent w ++ [login_url])%list /\
    stdin w' = stdin w /\
    auth_token w' = auth_token w.
Proof.
  intros Hrej.
  unfold authenticate. unfold bind at 1.
  unfold step1_submit_password. unfold bind at 1. unfold modify.
  unfold try_except, bind, session_request. cbn [portal set_cookies].
  fold login_url.
  destruct (portal w) as [|[|r] rest] eqn:Hp; cbn [hd] in Hrej.
  - eexists. split; [reflexivity|]. repeat split.
  - eexists. split; [reflexivity|]. repeat split.
  - unfold raise_for_status. cbn [rejecting] in Hrej. rewrite Hrej.
    eexists. split; [reflexivity|]. repeat split.
Qed.


(** ** The best-effort steps of the login *)

Lemma step4_total w :
  exists b w', step4_register_page_access w = (Ok b, w').
Proof.
  unfold step4_register_page_access, try_except, bind, session_request.
  destruct (portal w) as [|[|r] rest]; cbn [is_RequestException];
    unfold ret; eauto.
  destruct (status_code r =? 200)%Z; eauto.
Qed.

Lemma step5_total w :
  exists b w', step5_navigate_to_event_management w = (Ok b, w').
Proof.
  unfold step5_navigate_to_event_management, try_except.
  unfold bind at 1. unfold session_request at 1.
  destruct (portal w) as [|[|r] rest]; cbn [is_RequestException];
    unfold ret; eauto.
  destruct (negb (status_code r =? 200)%Z); eauto.
  unfold bind, session_request. cbn [portal set_cookies set_portal set_sent].
  destruct rest as [|[|r2] rest2]; cbn [is_RequestException]; eauto.
  destruct (status_code r2 =? 200)%Z; eauto.
Qed.

(** Once the first three steps have gone through, the page registration and
    the navigation always return, and the outcome of the login is the outcome
    of the sixth step, whatever those two returned. *)
Theorem authenticate_best_effort (w w1 w2 w3 w4 : World) (line : string) :
  step1_submit_password w = (Ok true, w1) ->
  step2_request_mfa_code w1 = (Ok true, w2) ->
  input w2 = (Ok line, w3) ->
  step3_validate_mfa_code (strip line) w3 = (Ok true, w4) ->
  exists b4 b5 w5 w6,
    step4_register_page_access w4 = (Ok b4, w5) /\
    step5_navigate_to_event_management w5 = (Ok b5, w6) /\
    authenticate w = step6_authenticate_event_management w6.
Proof.
  intros H1 H2 H3 H4.
  destruct (step4_total w4) as (b4 & w5 & H5).
  destruct (step5_total w5) as (b5 & w6 & H6).
  exists b4, b5, w5, w6. split; [exact H5|]. split; [exact H6|].
  unfold authenticate.
  rewrite (bind_ok _ _ _ _ _ H1). cbn [negb].
  rewrite (bind_ok _ _ _ _ _ H2). cbn [negb].
  rewrite (bind_ok _ _ _ _ _ H3).
  rewrite (bind_ok _ _ _ _ _ H4). cbn [negb].
  rewrite (bind_ok _ _ _ _ _ H5).
  rewrite (bind_ok _ _ _ _ _ H6).
  unfold bind.
  destruct (step6_authenticate_event_management w6) as [[[|]|e] w7];
    reflexivity.
Qed.

(** ** The pages of the consolidated document *)

Definition is_page_break (f : flowable) : bool :=
  match f with PageBreak => true | _ => false end.

Definition is_title (f : flowable) : bool :=
  match f with
  | Paragraph text style =>
      String.eqb text "EVENT DETAIL REPORT" && String.eqb style "CustomTitle"
  | _ => false
  end.

Definition count (p : flowable -> bool) (l : list flowable) : nat :=
  length (filter p l).

Lemma count_app p l1 l2 : count p (l1 ++ l2) = count p l1 + count p l2.
Proof. unfold count. now rewrite filter_app, length_app. Qed.

Lemma count_cons p x l :
  count p (x :: l) = (if p x then 1 else 0) + count p l.
Proof. unfold count. cbn [filter]. destruct (p x); reflexivity. Qed.

Lemma event_page_counts i event_data w page w' :
  event_page i event_data w = (Ok page, w') ->
  count is_page_break page = (if (0 <? i)%nat then 1 else 0) /\
  count is_title page = 1.
Proof.
  unfold event_page. intros H.
  repeat match type of H with
         | bind ?c ?k ?w0 = _ =>
             unfold bind at 1 in H;
             let r := fresh "r" in
             let w1 := fresh "w" in
             destruct (c w0) as [[r|?] w1] eqn:?; [|discriminate]
         end.
  unfold ret in H. injection H as H _. subst page.
  match goal with
  | Hi : (if truthy ?d then _ else _) _ = (Ok ?parts, _) |- _ =>
      assert (Hparts : count is_page_break parts = 0 /\
                       count is_title parts = 0)
  end.
  { match goal with
    | Hi : (if truthy ?d then _ else _) _ = _ |- _ =>
        destruct (truthy d);
        [ unfold bind in Hi;
          repeat match type of Hi with
                 | context [match ?c ?w0 with _ => _ end] =>
                     destruct (c w0) as [[?|?] ?]; try discriminate
                 end;
          unfold ret in Hi; injection Hi as Hi _; subst; split; reflexivity
        | unfold ret in Hi; injection Hi as Hi _; subst; split; reflexivity ]
    end. }
  destruct Hparts as [Hp1 Hp2].
  repeat (rewrite count_app || rewrite count_cons).
  rewrite Hp1, Hp2.
  destruct (0 <? i)%nat; split; reflexivity.
Qed.

Lemma event_pages_counts l :
  forall i w pages w',
    event_pages i l w = (Ok pages, w') ->
    count is_title pages = length l /\
    count is_page_break pages
    = (if (0 <? i)%nat then length l else length l - 1).
Proof.
  induction l as [|d rest IH]; intros i w pages w' H; cbn [event_pages] in H.
  - unfold ret in H. injection H as H _. subst pages.
    destruct (0 <? i)%nat; split; reflexivity.
  - unfold bind at 1 in H.
    destruct (event_page i d w) as [[page|e] w1] eqn:Hpage; [|discriminate].
    unfold bind at 1 in H.
    destruct (event_pages (S i) rest w1) as [[pages'|e] w2] eqn:Hrest;
      [|discriminate].
    unfold ret in H. injection H as H _. subst pages.
    destruct (event_page_counts _ _ _ _ _ Hpage) as [Hb Ht].
    destruct (IH _ _ _ _ Hrest) as [Ht' Hb'].
    change (0 <? S i)%nat with true in Hb'.
    rewrite !count_app, Hb, Ht, Hb', Ht'. cbn [length].
    split; [reflexivity|].
    destruct (0 <? i)%nat; lia.
Qed.

(** When the paginated renderer returns, the file it names holds a document
    with one page title per event and one page break after the cover and
    between the events: as many page breaks as events, and one when there is
    no event. *)
Theorem consolidated_pdf_pages
  (event_data_list : list pyval) (filename : option string)
  (w w' : World) (name : string) :
  generate_consolidated_pdf_reportlab event_data_list filename w
  = (Ok name, w') ->
  exists story,
    dict_get (files w') name = Some (Pdf story) /\
    count is_title story = length event_data_list /\
    count is_page_break story = Nat.max 1 (length event_data_list).
Proof.
  unfold generate_consolidated_pdf_reportlab. intros H.
  unfold bind at 1 in H. unfold get in H.
  destruct (negb (REPORTLAB_AVAILABLE w)); [discriminate|].
  repeat match type of H with
         | bind ?c ?k ?w0 = _ =>
             unfold bind at 1 in H;
             let r := fresh "r" in
             let w1 := fresh "w" in
             destruct (c w0) as [[r|?] w1] eqn:?; [|discriminate]
         end.
  unfold ret in H. injection H as Hn Hw. subst.
  match goal with
  | Hb : doc_build ?n (Pdf ?story) ?w0 = (Ok _, ?w1) |- _ =>
      exists story; unfold doc_build, write_file in Hb;
      destruct (build_denied w0 n); [discriminate|];
      destruct (write_denied w0 n);
        [destruct (write_breaks w0 n); discriminate|];
      injection Hb as _ Hb; subst w1
  end.
  split; [cbn [files set_files]; apply dict_get_set|].
  match goal with
  | Hp : event_pages 0 _ _ = (Ok ?pages, _) |- _ =>
      destruct (event_pages_counts _ _ _ _ _ Hp) as [Ht Hb]
  end.
  match goal with
  | Hs : (match event_data_list with [] => _ | _ => _ end) _ = (Ok ?s, _) |- _ =>
      assert (Hsum : count is_title s = 0 /\ count is_page_break s = 0)
  end.
  { match goal with
    | Hs : (match event_data_list with [] => _ | _ => _ end) _ = _ |- _ =>
        destruct event_data_list;
        [ unfold ret in Hs; injection Hs as Hs _; subst; split; reflexivity
        | unfold bind in Hs;
          repeat match type of Hs with
                 | context [match ?c ?w0 with _ => _ end] =>
                     destruct (c w0) as [[?|?] ?]; try discriminate
                 end;
          unfold ret in Hs; injection Hs as Hs _; subst; split; reflexivity ]
    end. }
  destruct Hsum as [Hs1 Hs2].
  repeat (rewrite count_app || rewrite count_cons).
  rewrite Ht, Hb, Hs1, Hs2.
  change (0 <? 0)%nat with false.
  cbn [is_title is_page_break].
  change (count is_title []) with 0. change (count is_page_break []) with 0.
  split.
  - cbn. lia.
  - destruct event_data_list; cbn [length]; lia.
Qed.


(** ** Browsing events *)

Definition default_store_number : string := "8135".

(** The event types of the default filter. *)
Definition all_event_types : list Z :=
  [1; 3; 4; 5; 6; 7; 8; 9; 10; 11; 12; 13; 14; 15; 16; 17; 18; 19; 20; 21; 22;
   23; 24; 25; 26; 27; 28; 29; 30; 31; 32; 33; 34; 35; 36; 37; 38; 39; 40; 41;
   42; 43; 44; 45]%Z.

Definition browse_url : string := base_url ++ "/api/browse-event/browse-data".

Definition not_browsing_msg : string :=
  "Must authenticate first before browsing events".

(** [not s] for an optional string. *)
Definition missing (s : option string) : bool :=
  match s with Some t => negb (str_nonempty t) | None => true end.

(** [len(v)] *)
Definition py_len (v : pyval) : M nat :=
  match v with
  | PStr s => ret (str_len s)
  | PList l => ret (length l)
  | PDict d => ret (length d)
  | _ => raise TypeError
  end.

Definition browse_payload (start_date end_date store_number : string)
  (event_types : list Z) : pyval :=
  PDict [ ("itemNbr", PNone); ("vendorNbr", PNone);
          ("startDate", PStr start_date); ("endDate", PStr end_date);
          ("billType", PNone); ("eventType", PList (map PInt event_types));
          ("userId", PNone); ("primItem", PNone);
          ("storeNbr", PStr store_number); ("deptNbr", PNone) ].

(** [session.post(url, json=payload)]; the portal's script does not depend on
    what is posted. *)
Definition session_post (url : string) (payload : pyval) : M response :=
  session_request url.

Definition browse_events (start_date end_date store_number : option string)
  (event_types : option (list Z)) : M pyval :=
  token <- get auth_token ;;
  if negb (truthy token) then raise (ValueError not_browsing_msg) else
  dates <-
    (if missing start_date || missing end_date then
       t <- now ;;
       ret (str_of_nat (year t) ++ "-" ++ pad2 (month t) ++ "-01",
            str_of_nat (year t) ++ "-" ++ pad2 (month t) ++ "-" ++ pad2 (day t))
     else
       ret (match start_date with Some s => s | None => EmptyString end,
            match end_date with Some s => s | None => EmptyString end)) ;;
  let store_number :=
    match store_number with
    | Some s => if str_nonempty s then s else default_store_number
    | None => default_store_number
    end in
  let event_types :=
    match event_types with
    | Some (t :: l) => t :: l
    | _ => all_event_types
    end in
  let payload :=
    browse_payload (fst dates) (snd dates) store_number event_types in
  try_except
    (response <- session_post browse_url payload ;;
     raise_for_status response ;;;
     events_data <- response_json response ;;
     _ <- py_len events_data ;;
     ret events_data)
    is_RequestException
    (ret (PDict [])).

(** The reply passes [raise_for_status]; and its JSON body, if it has one. *)
Definition fetched_ok_body (r : reply) : bool :=
  match r with
  | NoReply => false
  | Reply r => negb ((400 <=? status_code r) && (status_code r <? 600))%Z
  end.

Definition fetched_body (r : reply) : option pyval :=
  match r with
  | NoReply => None
  | Reply r => json_body r
  end.

(** A value [len] accepts. *)
Definition sized (v : pyval) : bool :=
  match v with PStr _ | PList _ | PDict _ => true | _ => false end.

(** Browsing without a credential raises the [ValueError] at once: the clock
    is not read and no request is made.  With a credential, exactly one
    request goes to the browse address; a failed connection, an error status
    or a body that is not JSON gives the empty dictionary; a JSON body that has
    no length (a number, [null], a Boolean) makes the call raise [TypeError];
    any other body is returned as it is. *)
Theorem browse_events_outcomes
  (start_date end_date store_number : option string)
  (event_types : option (list Z)) (w : World) :
  (truthy (auth_token w) = false ->
   browse_events start_date end_date store_number event_types w
   = (Raise (ValueError not_browsing_msg), w)) /\
  (truthy (auth_token w) = true ->
   let r := browse_events start_date end_date store_number event_types w in
   sent (snd r) = (sent w ++ [browse_url])%list /\
   fst r
   = (if fetched_ok_body (hd NoReply (portal w))
      then match fetched_body (hd NoReply (portal w)) with
           | Some v => if sized v then Ok v else Raise TypeError
           | None => Ok (PDict [])
           end
      else Ok (PDict []))).
Proof.
  split.
  - intros Htok. unfold browse_events, bind, get. rewrite Htok. reflexivity.
  - intros Htok r.
    assert (H : exists res w',
               browse_events start_date end_date store_number event_types w
               = (res, w') /\
               sent w' = (sent w ++ [browse_url])%list /\
               res = (if fetched_ok_body (hd NoReply (portal w))
                      then match fetched_body (hd NoReply (portal w)) with
                           | Some v => if sized v then Ok v else Raise TypeError
                           | None => Ok (PDict [])
                           end
                      else Ok (PDict []))).
    { unfold browse_events. unfold bind at 1. unfold get. rewrite Htok.
      cbn [negb].
      set (w0 := if missing start_date || missing end_date
                 then set_ticks (S (ticks w)) w else w).
      assert (H0 : sent w0 = sent w /\ portal w0 = portal w)
        by (unfold w0; destruct (missing start_date || missing end_date);
            split; reflexivity).
      destruct H0 as [Hs0 Hp0].
      unfold bind at 1.
      assert (Hd : exists dates,
                 (if missing start_date || missing end_date then
                    t <- now ;;
                    ret (str_of_nat (year t) ++ "-" ++ pad2 (month t) ++ "-01",
                         str_of_nat (year t) ++ "-" ++ pad2 (month t) ++ "-"
                         ++ pad2 (day t))
                  else
                    ret (match start_date with
                         | Some s => s | None => EmptyString end,
                         match end_date with
                         | Some s => s | None => EmptyString end)) w
                 = (Ok dates, w0)).
      { unfold w0. destruct (missing start_date || missing end_date);
          eexists; reflexivity. }
      destruct Hd as [dates Hd]. rewrite Hd. cbv zeta.
      unfold try_except, session_post, bind, session_request.
      rewrite Hs0, Hp0.
      unfold fetched_ok_body, fetched_body.
      destruct (portal w) as [|[|rp] rest]; cbn [hd].
      + eexists. eexists. split; [reflexivity|]. split; reflexivity.
      + eexists. eexists. split; [reflexivity|]. split; reflexivity.
      + unfold raise_for_status.
        destruct ((400 <=? status_code rp) && (status_code rp <? 600))%Z;
          cbn [negb];
          [eexists; eexists; split; [reflexivity|]; split; reflexivity|].
        unfold ret, response_json.
        destruct (json_body rp) as [v|];
          [|eexists; eexists; split; [reflexivity|]; split; reflexivity].
        destruct v;
          (eexists; eexists; split; [reflexivity|]; split; reflexivity). }
    destruct H as (res & w' & Heq & Hsent & Hres).
    subst r. rewrite Heq. split; assumption.
Qed.

(** ** The body of a report in the combined document *)

Lemma find_from_absent needle s :
  forall i, contains needle s = false -> find_from needle s i = (-1)%Z.
Proof.
  induction s as [|c s IH]; intros i H; cbn [contains] in H;
    apply orb_false_elim in H; destruct H as [Hp Hr]; cbn [find_from];
    rewrite Hp; [reflexivity | now apply IH].
Qed.

(** A report that has no opening or no closing tag of a body gives no
    content to the combined document. *)
Theorem body_of_without_body (html_report : string) :
  contains "<body>" html_report = false \/
  contains "</body>" html_report = false ->
  body_of html_report = EmptyString.
Proof.
  intros H. unfold body_of, str_find.
  destruct H as [H|H]; rewrite (find_from_absent _ _ 0%Z H).
  - reflexivity.
  - destruct ((5 <? find_from "<body>" html_report 0 + 6)
              && (find_from "<body>" html_report 0 + 6 <? -1))%Z eqn:E;
      [|reflexivity].
    apply andb_prop in E. destruct E as [E1 E2].
    apply Z.ltb_lt in E1. apply Z.ltb_lt in E2. lia.
Qed.


(** On Linux, when both commands start and exit with status [rc], opening
    the PDF reports success whatever [rc] is (the status of the viewer is
    never looked at), whereas printing it reports success only for status 0. *)
Theorem open_pdf_file_ignores_exit_status
  (pdf_path : string) (rc : Z) (w : World) :
  ascii_lower (platform_system w) = "linux" ->
  run_process w ["xdg-open"; abspath pdf_path] = Exited rc ->
  run_process w ["lp"; abspath pdf_path] = Exited rc ->
  open_pdf_file pdf_path w = (Ok true, w) /\
  print_pdf_file pdf_path w = (Ok (rc =? 0)%Z, w).
Proof.
  intros Hsys Hopen Hlp. split.
  - unfold open_pdf_file. unfold bind at 1. unfold get. cbv zeta.
    rewrite Hsys. cbn [String.eqb Ascii.eqb Bool.eqb].
    unfold try_except, bind, subprocess_run. rewrite Hopen. reflexivity.
  - unfold print_pdf_file. unfold bind at 1. unfold get. cbv zeta.
    rewrite Hsys. cbn [String.eqb Ascii.eqb Bool.eqb].
    unfold try_except, bind, subprocess_run. rewrite Hlp.
    destruct (rc =? 0)%Z; reflexivity.
Qed.

End Program.

(** * Concrete instances *)

(** Library functions on the inputs of the examples below: the percent-encoded
    cookie value of a token, and its JSON text. *)
Definition token_cookie_value : string := "%7B%22token%22%3A%22abc123%22%7D".

Definition token_json : string := q ["{"; "token"; ":"; "abc123"; "}"].

Definition ex_unquote (s : string) : string :=
  if String.eqb s token_cookie_value then token_json else s.

Definition ex_json_loads (s : string) : option pyval :=
  if String.eqb s token_json then Some (PDict [("token", PStr "abc123")])
  else None.

(** No list or dictionary is formatted in the examples. *)
Definition ex_repr (v : pyval) : string := EmptyString.

Definition ex_len (s : string) : nat := String.length s.

Definition ex_take (n : nat) (s : string) : string := substring 0 n s.

Definition ex_abspath (p : string) : string := p.

Definition ex_join (a b : string) : string := a ++ "/" ++ b.

Definition ex_exn_str (e : exn) : string :=
  match e with
  | ValueError m | ImportError m | OtherError m => m
  | _ => "error"
  end.

Lemma ascii_upper_ok :
  forall s, is_ascii_str s = true -> ascii_upper s = ascii_upper s.
Proof. intros s _. reflexivity. Defined.

Definition ex_time : datetime := mk_datetime 2025 7 22 9 30 0.

(** A Linux host on which every command fails, with no credential. *)
Definition world0 : World :=
  mk_World PNone [] [] [] (fun _ => ex_time) 0 [] []
    (fun _ => false) (fun _ => AtOpen OSError) (fun _ => false)
    "Linux" "/tmp"
    (fun _ => Exited 1) true false (fun _ => false) false.

Definition with_portal (p : list reply) (w : World) : World := set_portal p w.

Definition ok_reply (body : pyval) : reply :=
  Reply (mk_response 200 (Some body) []).

(** The record of the test fixtures. *)
Definition sample_event_data : pyval :=
  PDict [ ("demoId", PStr "606034");
          ("demoName", PStr "Test Food Demo Event");
          ("demoClassCode", PStr "45");
          ("demoStatusCode", PStr "2");
          ("demoDate", PStr "2025-07-22");
          ("demoLockInd", PStr "N");
          ("demoInstructions",
           PDict [ ("demoPrepnTxt", PStr "Test preparation instructions");
                   ("demoPortnTxt", PStr "Test portion instructions") ]);
          ("itemDetails",
           PList [ PDict [ ("itemNbr", PStr "12345");
                           ("gtin", PStr "67890");
                           ("itemDesc", PStr "Test Product");
                           ("vendorNbr", PStr "123");
                           ("deptNbr", PStr "456") ] ]) ].

(** The replies of a login that goes through, the last one setting the
    [auth-token] cookie. *)
Definition login_replies (last : reply) : list reply :=
  [ ok_reply (PDict []); ok_reply (PDict []); ok_reply (PDict []);
    ok_reply (PDict []); ok_reply (PDict []); ok_reply (PDict []); last ].

Definition token_cookie (path value : string) : cookie :=
  mk_cookie "retaillink2.wal-mart.com" path "auth-token" (Some value).

Definition token_reply : reply :=
  Reply (mk_response 200 (Some (PDict [("ok", PBool true)]))
           [SetCookie (token_cookie "/" token_cookie_value)]).

(** Status 200 with a body that is not JSON and no cookie. *)
Definition not_json_reply : reply := Reply (mk_response 200 None []).


Definition login_world (last : reply) (then_replies : list reply) : World :=
  set_stdin ["123456"] (set_portal (login_replies last ++ then_replies) world0).

(** A world that already has a credential. *)
Definition authed_world (replies : list reply) : World :=
  set_auth_token (PStr "abc123") (set_portal replies world0).

(** * Witnesses and counterexamples *)

Lemma describe_code_spec_witness :
  (forall s, is_ascii_str s = true -> ascii_upper s = ascii_upper s) /\
  get_event_type_description ascii_upper ex_repr (PStr "45")
  = "Food Demo/Sampling" /\
  get_event_type_description ascii_upper ex_repr (PStr "999")
  = "Event Type 999".
Proof.
  split; [exact ascii_upper_ok|].
  pose proof (describe_code_spec ascii_upper ex_repr ascii_upper_ok)
    as (Htype & _ & Hfallback & _).
  split.
  - apply Htype. cbn. do 10 right. left. reflexivity.
  - apply Hfallback; [reflexivity | discriminate | reflexivity].
Defined.

(** C5, as stated, fails: "demo" is not a key of the table of event types,
    and its description is not "Event Type demo". *)
Lemma describe_counterexample :
  ~ In "demo" (dict_keys event_type_codes) /\
  get_event_type_description ascii_upper ex_repr (PStr "demo")
  = "Demonstration" /\
  get_event_type_description ascii_upper ex_repr (PStr "demo")
  <> "Event Type " ++ "demo".
Proof.
  split; [|split].
  - cbn. intros H.
    repeat (destruct H as [H|H]; [discriminate|]). exact H.
  - reflexivity.
  - discriminate.
Qed.

Lemma get_edr_report_not_authenticated_witness :
  truthy (auth_token world0) = false /\
  get_edr_report "606034" world0
  = (Raise (ValueError not_authenticated_msg), world0) /\
  sent (snd (get_edr_report "606034" world0)) = [].
Proof.
  split; [reflexivity|].
  pose proof (get_edr_report_not_authenticated "606034" world0 eq_refl) as H.
  split; [exact H|]. rewrite H. reflexivity.
Defined.

Lemma generate_html_report_deterministic_witness :
  clock world0 (ticks world0)
  = clock (authed_world [NoReply]) (ticks (authed_world [NoReply])) /\
  fst (generate_html_report ex_repr sample_event_data world0)
  = fst (generate_html_report ex_repr sample_event_data
           (authed_world [NoReply])).
Proof.
  split; [reflexivity|].
  exact (proj1 (generate_html_report_deterministic ex_repr sample_event_data
                  world0 (authed_world [NoReply])) eq_refl).
Defined.

Lemma run_automated_batch_vacuous_witness :
  ((truthy (auth_token world0) = false /\ false = false) \/
   (truthy (auth_token world0) = true /\ Some ["606034"] = Some [])) /\
  fst (run_automated_batch ex_unquote ex_json_loads ex_repr ex_abspath ex_join
         ex_exn_str (Some ["606034"]) false world0) = Ok true /\
  exit_status
    (run_automated_batch ex_unquote ex_json_loads ex_repr ex_abspath ex_join
       ex_exn_str (Some ["606034"]) false) world0 = 0%Z.
Proof.
  assert (H : (truthy (auth_token world0) = false /\ false = false) \/
              (truthy (auth_token world0) = true /\
               Some ["606034"] = Some []))
    by (left; split; reflexivity).
  split; [exact H|].
  pose proof (run_automated_batch_vacuous ex_unquote ex_json_loads ex_repr
                ex_abspath ex_join ex_exn_str (Some ["606034"]) false world0 H)
    as (H1 & _ & _ & H4).
  split; assumption.
Defined.

Definition sample_items : list pyval :=
  [ PDict [ ("itemNbr", PStr "12345");
            ("gtin", PStr "67890");
            ("itemDesc", PStr "Test Product");
            ("vendorNbr", PStr "123");
            ("deptNbr", PStr "456") ];
    PDict [ ("itemNbr", PStr "777") ] ].

Definition two_item_record : list (string * pyval) :=
  [ ("demoId", PStr "606034"); ("itemDetails", PList sample_items) ].

Lemma generate_html_report_item_rows_witness :
  (exists head tail,
     fst (generate_html_report ex_repr (PDict two_item_record) world0)
     = Ok (head ++ items_table_open
           ++ (table_row ["12345"; "67890"; "Test Product"; "123"; "456"]
               ++ table_row ["777"; EmptyString; EmptyString; EmptyString;
                             EmptyString])
           ++ items_table_close ++ tail)) /\
  occurrences row_open
    (String.concat EmptyString (map (shown_row ex_repr) sample_items))
  = 2.
Proof.
  destruct (generate_html_report_item_rows ex_repr two_item_record
              sample_items world0)
    as (Hdoc & _ & Hrows);
    [discriminate | reflexivity | reflexivity | reflexivity |].
  split; [exact Hdoc | exact (Hrows eq_refl)].
Defined.

(** C10, as stated, fails: the fields are not escaped, so one item whose
    description holds the markup of a row gives a document with two rows. *)
Definition markup_record : pyval :=
  PDict [ ("demoId", PStr "606034");
          ("itemDetails",
           PList [ PDict [ ("itemNbr", PStr "12345");
                           ("itemDesc",
                            PStr (q ["</td></tr><tr class="; "edr-wrapper";
                                     "><td>"])) ] ]) ].

Lemma item_rows_counterexample :
  exists html,
    fst (generate_html_report ex_repr markup_record world0) = Ok html /\
    occurrences row_open html = 2.
Proof. eexists. split; vm_compute; reflexivity. Qed.

Lemma scenario_rendering_witness :
  (forall s, is_ascii_str s = true -> ascii_upper s = ascii_upper s) /\
  REPORTLAB_AVAILABLE world0 = true /\
  exists name story w',
    generate_consolidated_pdf_reportlab ascii_upper ex_repr ex_len ex_take
      [scenario_record []] (Some "scenario.pdf") world0 = (Ok name, w') /\
    dict_get (files w') name = Some (Pdf story) /\
    In (Table [ ["Event Number"; "Event Type"; "Event Locked"];
                ["606034"; "Food Demo/Sampling"; "N/A"] ]) story /\
    In (Table [ ["Event Status"; "Event Date"; "Event Name"];
                ["Active/Scheduled"; "N/A"; "N/A"] ]) story /\
    In (Table [ [ "Item Number"; "Primary Item Number"; "Description";
                  "Vendor"; "Category" ];
                ["12345"; EmptyString; EmptyString; EmptyString;
                 EmptyString] ]) story.
Proof.
  split; [exact ascii_upper_ok|]. split; [reflexivity|].
  destruct (scenario_rendering ascii_upper ex_repr ex_len ex_take
              ascii_upper_ok [] (Some "scenario.pdf") world0 eq_refl
              (fun _ => eq_refl) (fun _ => eq_refl))
    as [(name & story & w' & Hrun & Hfile & H1 & H2 & H3) _].
  exists name, story, w'. repeat split; try assumption.
  apply H3. reflexivity.
Defined.

(** C3, as stated, fails for the markup renderer: the document it makes of
    the record of the scenario shows the codes, not their labels. *)
Lemma scenario_html_counterexample :
  match fst (generate_html_report ex_repr (scenario_record []) world0) with
  | Ok html =>
      contains "Food Demo/Sampling" html = false /\
      contains "Active/Scheduled" html = false /\
      contains (q ["Event Type <span class="; "demo-text"; ">45</span>"]) html
      = true /\
      contains (q ["Event Status <span class="; "demo-text"; ">2</span>"]) html
      = true
  | Raise _ => False
  end.
Proof. vm_compute. repeat split. Qed.

(** C1: the login on the three kinds of reply of status 200 to its sixth
    step.  With a JSON body and the cookie, it returns [True] and the
    credential is there; with a JSON body and no cookie, it returns [False];
    with a body that is not JSON, it returns [True] and no credential is
    there. *)
Lemma authenticate_true_without_token :
  (fst (authenticate ex_unquote ex_json_loads (login_world token_reply []))
   = Ok true /\
   auth_token
     (snd (authenticate ex_unquote ex_json_loads (login_world token_reply [])))
   = PStr "abc123") /\
  fst (authenticate ex_unquote ex_json_loads
         (login_world (ok_reply (PDict [])) []))
  = Ok false /\
  (fst (authenticate ex_unquote ex_json_loads (login_world not_json_reply []))
   = Ok true /\
   auth_token
     (snd (authenticate ex_unquote ex_json_loads
             (login_world not_json_reply [])))
   = PNone).
Proof. vm_compute. repeat split. Qed.

(** A batch of two identifiers: the first is fetched, the second is not. *)
Definition two_ids : list string := ["606034"; "606035"].

Definition one_of_two : World :=
  authed_world [ok_reply sample_event_data; NoReply].

Lemma batch_exit_status_witness :
  batch_prologue ex_unquote ex_json_loads true one_of_two
  = (Ok true, set_ticks 1 one_of_two) /\
  exit_status
    (run_automated_batch ex_unquote ex_json_loads ex_repr ex_abspath ex_join
       ex_exn_str (Some two_ids) true) one_of_two = 1%Z /\
  exit_status
    (run_enhanced_batch ex_unquote ex_json_loads ascii_upper ex_repr ex_len
       ex_take ex_abspath (Some two_ids) true true true true) one_of_two = 0%Z.
Proof.
  assert (H : batch_prologue ex_unquote ex_json_loads true one_of_two
              = (Ok true, set_ticks 1 one_of_two)) by reflexivity.
  split; [exact H|].
  destruct (batch_exit_status ex_unquote ex_json_loads ascii_upper ex_repr
              ex_len ex_take ex_abspath ex_join ex_exn_str (Some two_ids)
              true true true one_of_two _ H)
    as [(results & w1 & Hpel & Hauto) (st & w2 & Hcol & Henh)].
  split.
  - vm_compute. reflexivity.
  - apply Henh.
    vm_compute in Hcol. injection Hcol as Hst Hw2. subst st w2.
    split; [discriminate|]. eexists. vm_compute. reflexivity.
Defined.

(** C2, as stated, fails: the enhanced program run on two identifiers, the
    second of which cannot be fetched, exits with status 0. *)
Lemma exit_status_counterexample :
  let w := login_world token_reply [ok_reply sample_event_data; NoReply] in
  let argv := ["enhanced_edr_printer.py"; "606034"; "606035"] in
  exit_status
    (enhanced_main ex_unquote ex_json_loads ascii_upper ex_repr ex_len ex_take
       ex_abspath argv) w = 0%Z /\
  map fetch_ok (skipn 7 (portal w)) = [true; false] /\
  skipn 7
    (sent (snd (enhanced_main ex_unquote ex_json_loads ascii_upper ex_repr
                  ex_len ex_take ex_abspath argv w)))
  = [edr_url "606034"; edr_url "606035"].
Proof. vm_compute. repeat split. Qed.

Lemma print_html_report_cleanup_witness :
  write_denied world0 (temp_path ex_join (Some "r.html") world0) = false /\
  remove_denied world0 (temp_path ex_join (Some "r.html") world0) = false /\
  fst (print_dispatch ex_abspath (temp_path ex_join (Some "r.html") world0)
         world0) = Ok (Some false) /\
  exists w',
    print_html_report ex_abspath ex_join "<html></html>" (Some "r.html") world0
    = (Ok false, w') /\
    file_exists w' "/tmp/r.html" = false.
Proof.
  split; [reflexivity|]. split; [reflexivity|]. split; [reflexivity|].
  exact (print_html_report_cleanup ex_abspath ex_join "<html></html>"
           (Some "r.html") world0 eq_refl eq_refl eq_refl).
Defined.

(** The host of [world0], where the removal of any file is refused. *)
Definition locked_world : World :=
  mk_World PNone [] [] [] (fun _ => ex_time) 0 [] []
    (fun _ => false) (fun _ => AtOpen OSError) (fun _ => true)
    "Linux" "/tmp"
    (fun _ => Exited 1) true false (fun _ => false) false.

(** C4, as stated, fails: every mechanism fails, the removal of the temporary
    file is refused, the error is swallowed, and the file is still there when
    the call returns. *)
Lemma print_cleanup_counterexample :
  fst (print_dispatch ex_abspath "/tmp/r.html" locked_world)
  = Ok (Some false) /\
  fst (print_html_report ex_abspath ex_join "<html></html>" (Some "r.html")
         locked_world) = Ok false /\
  file_exists
    (snd (print_html_report ex_abspath ex_join "<html></html>" (Some "r.html")
            locked_world)) "/tmp/r.html" = true.
Proof. vm_compute. repeat split. Qed.

(** A host whose system [print_html_report] does not know. *)
Definition freebsd_world : World :=
  mk_World PNone [] [] [] (fun _ => ex_time) 0 [] []
    (fun _ => false) (fun _ => AtOpen OSError) (fun _ => false)
    "FreeBSD" "/tmp"
    (fun _ => Exited 1) true false (fun _ => false) false.

(** On such a host the call returns before the removal, and the file it wrote
    stays. *)
Lemma print_unsupported_system_leaves_file :
  fst (print_html_report ex_abspath ex_join "<html></html>" (Some "r.html")
         freebsd_world) = Ok false /\
  file_exists
    (snd (print_html_report ex_abspath ex_join "<html></html>" (Some "r.html")
            freebsd_world)) "/tmp/r.html" = true.
Proof. vm_compute. split; reflexivity. Qed.



(** * Witnesses of the further properties *)

(** The host of [world0] with a printer: every command succeeds. *)
Definition printing_world : World :=
  mk_World PNone [] [] [] (fun _ => ex_time) 0 [] []
    (fun _ => false) (fun _ => AtOpen OSError) (fun _ => false)
    "Linux" "/tmp"
    (fun _ => Exited 0) true false (fun _ => false) false.

Lemma print_html_report_success_witness :
  fst (print_dispatch ex_abspath (temp_path ex_join None printing_world)
         printing_world) = Ok (Some true) /\
  exists w',
    print_html_report ex_abspath ex_join "<html></html>" None printing_world
    = (Ok true, w') /\
    file_exists w' "/tmp/temp_edr_report_20250722_093000.html" = false.
Proof.
  split; [reflexivity|].
  exact (print_html_report_success ex_abspath ex_join "<html></html>" None
           printing_world eq_refl eq_refl eq_refl).
Defined.

Lemma generate_html_report_framed_witness :
  exists html,
    generate_html_report ex_repr sample_event_data world0
    = (Ok html, set_ticks 1 world0) /\
    (exists mid, html = doctype ++ mid ++ html_close) /\
    str_nonempty html = true.
Proof.
  destruct (generate_html_report_ok ex_repr sample_event_data world0
              eq_refl eq_refl) as [html H].
  exists html. split; [exact H|].
  exact (generate_html_report_framed ex_repr sample_event_data world0 _ html H).
Defined.

Lemma process_event_list_entries_witness :
  exists results w',
    process_event_list ex_repr ex_abspath ex_join ex_exn_str (Some two_ids)
      true false one_of_two = (Ok results, w') /\
    forall k e, In (k, e) results -> entry_consistent false e.
Proof.
  destruct (process_event_list_total ex_repr ex_abspath ex_join ex_exn_str
              (Some two_ids) true false one_of_two) as (results & w' & H).
  exists results, w'. split; [exact H|].
  exact (process_event_list_entries ex_repr ex_abspath ex_join ex_exn_str
           (Some two_ids) true false one_of_two w' results H).
Defined.

Lemma run_automated_batch_requests_witness :
  truthy (auth_token one_of_two) = true /\
  exists b w',
    run_automated_batch ex_unquote ex_json_loads ex_repr ex_abspath ex_join
      ex_exn_str (Some two_ids) true one_of_two = (Ok b, w') /\
    sent w' = [edr_url "606034"; edr_url "606035"] /\
    auth_token w' = PStr "abc123".
Proof.
  split; [reflexivity|].
  exact (run_automated_batch_requests ex_unquote ex_json_loads ex_repr
           ex_abspath ex_join ex_exn_str two_ids true one_of_two eq_refl).
Defined.

Lemma print_mode_failure_reason_witness :
  truthy (auth_token (authed_world [NoReply])) = true /\
  fetch_ok (hd NoReply (portal (authed_world [NoReply]))) = false /\
  exists e w',
    process_event ex_repr ex_abspath ex_join ex_exn_str true true [] "606035"
      (authed_world [NoReply])
    = (Ok (dict_set [] "606035" e), w') /\
    success e = false /\ error e = None /\
    failed_line ("606035", e) = "   • 606035: None".
Proof.
  split; [reflexivity|]. split; [reflexivity|].
  exact (print_mode_failure_reason ex_repr ex_abspath ex_join ex_exn_str true
           [] "606035" (authed_world [NoReply]) eq_refl eq_refl).
Defined.

Lemma run_enhanced_batch_nothing_witness :
  truthy (auth_token (authed_world [NoReply])) = true /\
  exists w',
    run_enhanced_batch ex_unquote ex_json_loads ascii_upper ex_repr ex_len
      ex_take ex_abspath (Some two_ids) true true true true
      (authed_world [NoReply]) = (Ok false, w') /\
    files w' = [].
Proof.
  split; [reflexivity|].
  exact (run_enhanced_batch_nothing ex_unquote ex_json_loads ascii_upper
           ex_repr ex_len ex_take ex_abspath two_ids true true true true
           (authed_world [NoReply]) eq_refl eq_refl).
Defined.

(** A login whose password is refused with status 401. *)
Definition refused_login : World :=
  set_stdin ["123456"]
    (set_portal [Reply (mk_response 401 None [])] world0).

Lemma authenticate_password_rejected_witness :
  rejecting (hd NoReply (portal refused_login)) = true /\
  exists w',
    authenticate ex_unquote ex_json_loads refused_login = (Ok false, w') /\
    sent w' = [login_url] /\
    stdin w' = ["123456"] /\
    auth_token w' = PNone.
Proof.
  split; [reflexivity|].
  exact (authenticate_password_rejected ex_unquote ex_json_loads refused_login
           eq_refl).
Defined.

(** A login in which the page registration is answered with status 500 and
    the portal cannot be reached, before the sixth step sets the cookie. *)
Definition bumpy_login : World :=
  set_stdin ["123456"]
    (set_portal
       [ ok_reply (PDict []); ok_reply (PDict []); ok_reply (PDict []);
         Reply (mk_response 500 None []); NoReply; token_reply ]
       world0).

Definition after_step1 : World := snd (step1_submit_password bumpy_login).
Definition after_step2 : World := snd (step2_request_mfa_code after_step1).
Definition after_input : World := snd (input after_step2).
Definition after_step3 : World :=
  snd (step3_validate_mfa_code "123456" after_input).

Lemma authenticate_best_effort_witness :
  exists b4 b5 w5 w6,
    step4_register_page_access after_step3 = (Ok b4, w5) /\
    step5_navigate_to_event_management w5 = (Ok b5, w6) /\
    authenticate ex_unquote ex_json_loads bumpy_login
    = step6_authenticate_event_management ex_unquote ex_json_loads w6.
Proof.
  apply (authenticate_best_effort ex_unquote ex_json_loads bumpy_login
           after_step1 after_step2 after_input after_step3 "123456");
    vm_compute; reflexivity.
Defined.

Lemma consolidated_pdf_pages_witness :
  exists story,
    dict_get
      (files
         (snd (generate_consolidated_pdf_reportlab ascii_upper ex_repr ex_len
                 ex_take [sample_event_data; sample_event_data]
                 (Some "all.pdf") world0)))
      "all.pdf" = Some (Pdf story) /\
    count is_title story = 2 /\
    count is_page_break story = 2.
Proof.
  assert (H : generate_consolidated_pdf_reportlab ascii_upper ex_repr ex_len
                ex_take [sample_event_data; sample_event_data]
                (Some "all.pdf") world0
              = (Ok "all.pdf",
                 snd (generate_consolidated_pdf_reportlab ascii_upper ex_repr
                        ex_len ex_take [sample_event_data; sample_event_data]
                        (Some "all.pdf") world0)))
    by (vm_compute; reflexivity).
  exact (consolidated_pdf_pages ascii_upper ex_repr ex_len ex_take
           [sample_event_data; sample_event_data] (Some "all.pdf") world0 _
           "all.pdf" H).
Defined.

Lemma body_of_without_body_witness :
  (contains "<body>" "<html>nothing</html>" = false \/
   contains "</body>" "<html>nothing</html>" = false) /\
  body_of "<html>nothing</html>" = EmptyString.
Proof.
  assert (H : contains "<body>" "<html>nothing</html>" = false \/
              contains "</body>" "<html>nothing</html>" = false)
    by (left; reflexivity).
  split; [exact H|].
  exact (body_of_without_body "<html>nothing</html>" H).
Defined.

Lemma open_pdf_file_ignores_exit_status_witness :
  open_pdf_file ex_abspath "all.pdf" world0 = (Ok true, world0) /\
  print_pdf_file ex_abspath "all.pdf" world0 = (Ok false, world0).
Proof.
  exact (open_pdf_file_ignores_exit_status ex_abspath "all.pdf" 1 world0
           eq_refl eq_refl eq_refl).
Defined.

(** A host whose disk is full: a file can be opened for writing, which
    empties it, and the write then fails.  A report [r.html] is there. *)
Definition full_disk_world : World :=
  mk_World PNone [] [] [] (fun _ => ex_time) 0 []
    [("r.html", Text "old")]
    (fun _ => true) (fun _ => AfterOpen OSError 0) (fun _ => false)
    "Linux" "/tmp" (fun _ => Exited 0) true false (fun _ => false) false.

Lemma save_html_report_file_witness :
  (exists w',
     save_html_report "<html></html>" (Some "r.html") world0
     = (Ok "r.html", w') /\
     dict_get (files w') "r.html" = Some (Text "<html></html>")) /\
  (exists w',
     save_html_report "<html></html>" (Some "r.html") full_disk_world
     = (Raise OSError, w') /\
     dict_get (files w') "r.html" = Some (Text EmptyString)).
Proof.
  split.
  - destruct (proj1 (save_html_report_file "<html></html>" (Some "r.html")
                       world0) eq_refl) as (w' & H1 & H2 & _).
    exists w'. split; assumption.
  - destruct (proj2 (proj2 (save_html_report_file "<html></html>"
                              (Some "r.html") full_disk_world))
                OSError 0 eq_refl eq_refl) as (w' & H1 & H2 & _).
    exists w'. split; assumption.
Defined.

(** The host of [printing_world] with a file system that refuses to open
    any file for writing. *)
Definition readonly_world : World :=
  mk_World PNone [] [] [] (fun _ => ex_time) 0 [] []
    (fun _ => true) (fun _ => AtOpen OSError) (fun _ => false)
    "Linux" "/tmp"
    (fun _ => Exited 0) true false (fun _ => false) false.

Lemma print_html_report_returns_witness :
  (exists w',
     print_html_report ex_abspath ex_join "<html></html>" None readonly_world
     = (Ok false, w') /\
     files w' = files readonly_world) /\
  (exists w',
     print_html_report ex_abspath ex_join "<html></html>" None full_disk_world
     = (Ok false, w') /\
     files w'
     = [ ("r.html", Text "old");
         ("/tmp/temp_edr_report_20250722_093000.html", Text EmptyString) ]).
Proof.
  split.
  - exact (proj1 (proj2 (print_html_report_returns ex_abspath ex_join
                           "<html></html>" None readonly_world))
             OSError eq_refl eq_refl).
  - exact (proj2 (proj2 (print_html_report_returns ex_abspath ex_join
                           "<html></html>" None full_disk_world))
             OSError 0 eq_refl eq_refl).
Defined.

Lemma describe_never_empty_witness :
  get_event_type_description ascii_upper ex_repr (PInt 0) = "N/A" /\
  get_event_status_description ascii_upper ex_repr (PInt 0) = "N/A".
Proof.
  exact (proj2 (proj2 (describe_never_empty ascii_upper ex_repr (PInt 0)))
           eq_refl).
Defined.

Lemma browse_events_outcomes_witness :
  sent (snd (browse_events ex_len None None None None
               (authed_world [ok_reply (PInt 5)]))) = [browse_url] /\
  fst (browse_events ex_len None None None None
         (authed_world [ok_reply (PInt 5)])) = Raise TypeError.
Proof.
  exact (proj2 (browse_events_outcomes ex_len None None None None
                  (authed_world [ok_reply (PInt 5)])) eq_refl).
Defined.

(** A record of results with a success and, as print mode records it, a
    failure without a reason. *)
Definition mixed_results : results_t :=
  [ ("606034", mk_entry true true true true None None);
    ("606035", mk_entry false false false false None None) ].

Lemma print_summary_complete_witness :
  (exists pre post,
     print_summary mixed_results
     = (pre ++ "   • 606035: None" :: post)%list /\
     In failed_heading pre /\ ~ In successful_heading pre) /\
  (exists pre post,
     print_summary mixed_results
     = (pre ++ "   • 606034: Generated + Printed + Saved" :: post)%list /\
     In successful_heading pre) /\
  length (print_summary mixed_results) = 11.
Proof.
  destruct (print_summary_complete mixed_results) as (_ & Hf & Hs & Hlen).
  split; [|split].
  - exact (Hf "606035" (mk_entry false false false false None None)
             (or_intror (or_introl eq_refl)) eq_refl).
  - exact (Hs "606034" (mk_entry true true true true None None)
             (or_introl eq_refl) eq_refl).
  - exact Hlen.
Defined.

(** The sixth step when an earlier reply has left a usable [auth-token]
    cookie for the path [/] and its own reply sets one that does not parse
    for another path: the jar holds both, and the first decides. *)
Definition two_token_world : World :=
  set_cookies [ ("retaillink2.wal-mart.com",
                 [ ("/", [("auth-token", Some token_cookie_value)]) ]) ]
    (set_portal
       [ Reply (mk_response 200 (Some (PDict []))
                  [SetCookie (token_cookie "/EventManagement" "garbage")]) ]
       world0).

Lemma step6_first_cookie_witness :
  jar_cookies
    (jar_after two_token_world
       (mk_response 200 (Some (PDict []))
          [SetCookie (token_cookie "/EventManagement" "garbage")]))
  = [ token_cookie "/" token_cookie_value;
      token_cookie "/EventManagement" "garbage" ] /\
  exists w',
    step6_authenticate_event_management ex_unquote ex_json_loads
      two_token_world = (Ok true, w') /\
    auth_token w' = PStr "abc123".
Proof.
  split; [reflexivity|].
  exact (proj2 (step6_first_cookie ex_unquote ex_json_loads two_token_world
                  _ [] (PDict []) eq_refl eq_refl eq_refl)
           [] (token_cookie "/" token_cookie_value)
           [token_cookie "/EventManagement" "garbage"]
           token_cookie_value [("token", PStr "abc123")]
           eq_refl eq_refl eq_refl eq_refl eq_refl eq_refl).
Defined.
